(** * ConsultaSIA: storage layer, report query and HTTP routes

    A shallow embedding of [server/storage.ts] (class [DatabaseStorage]),
    [server/routes.ts] (the Express handlers and the two middlewares) and
    the table declarations of [shared/schema.ts].

    - JavaScript values are the inductive [JsVal]; a number is an integer
      (the values that occur are counts, page numbers and millisecond time
      stamps), the arithmetic on page numbers rounds as double precision
      does ([toDouble]), and a [Date] is its time value.  A character of a
      string is one [ascii].
    - A table is the list of its rows.  The constraints that
      [shared/schema.ts] declares (primary keys, [unique()] columns,
      [references()]) are checked by the statements that can violate them,
      and so is the width of the [varchar(n)] columns of [cbo],
      [prestador] and [consulta_prod]; the widths of [users] and
      [audit_log] (255 characters for the names and keys, 50 and 100 for
      the role, the action and the table name) are not checked.
    - A query with ORDER BY returns its rows sorted by the key; the order
      of rows with equal keys is left to the executor and may differ from
      one execution to the next.  It is the argument [tie] of the two
      list queries, and part of what a request draws from outside
      ([World]).
    - A rejected promise or a thrown exception is the [Throw] case of
      [Result]; a single SQL statement either takes effect or throws, and
      throws only for the reasons modelled (the database is reachable).
    - Library code (ECMAScript [Date], [JSON], [parseInt], bcrypt,
      jsonwebtoken, the zod schemas produced by drizzle-zod, the text
      encoding of query parameters, SQL [LIKE]) is the class [Runtime]. *)

From Stdlib Require Import String Ascii List ZArith Bool Lia Permutation Sorted.
From Stdlib Require Import Decimal DecimalString DecimalNat.
Import ListNotations.

Local Open Scope string_scope.
Local Open Scope Z_scope.
Local Open Scope list_scope.

Set Implicit Arguments.

(* ------------------------------------------------------------------ *)
(** ** JavaScript values *)

#[warnings="-register-all"]
Inductive JsVal : Type :=
| JUndefined
| JNull
| JBool (b : bool)
| JNum (n : Z)
| JStr (s : string)
| JDate (t : Z)
| JArr (xs : list JsVal)
| JObj (props : list (string * JsVal)).

(** [ToBoolean]: what [if (v)], [!v] and [v || d] test. *)
Definition truthy (v : JsVal) : bool :=
  match v with
  | JUndefined | JNull => false
  | JBool b => b
  | JNum n => negb (n =? 0)
  | JStr s => negb (String.eqb s "")
  | JDate _ | JArr _ | JObj _ => true
  end.

Fixpoint lookupProp (k : string) (props : list (string * JsVal)) : JsVal :=
  match props with
  | [] => JUndefined
  | (k', v) :: rest => if String.eqb k k' then v else lookupProp k rest
  end.

(** [o.k] for a data property [k]; a primitive or an array has none of the
    property names used by the server. *)
Definition getProp (o : JsVal) (k : string) : JsVal :=
  match o with
  | JObj props => lookupProp k props
  | _ => JUndefined
  end.

(** [{ ...o, k: v }]: an existing property keeps its place, a new one is
    appended. *)
Fixpoint assignProp (k : string) (v : JsVal) (props : list (string * JsVal))
  : list (string * JsVal) :=
  match props with
  | [] => [(k, v)]
  | (k', v') :: rest =>
      if String.eqb k k' then (k', v) :: rest else (k', v') :: assignProp k v rest
  end.

Definition setProp (k : string) (v : JsVal) (o : JsVal) : JsVal :=
  match o with
  | JObj props => JObj (assignProp k v props)
  | _ => o
  end.

(** What [JSON.stringify] keeps of a value, as [res.json] sends it: a
    property whose value is [undefined] is left out, [undefined] inside an
    array becomes [null]. *)
Fixpoint jsonOf (v : JsVal) : JsVal :=
  match v with
  | JObj props =>
      JObj ((fix go (l : list (string * JsVal)) : list (string * JsVal) :=
               match l with
               | [] => []
               | (k, JUndefined) :: rest => go rest
               | (k, x) :: rest => (k, jsonOf x) :: go rest
               end) props)
  | JArr xs =>
      JArr (map (fun x => match x with JUndefined => JNull | _ => jsonOf x end) xs)
  | _ => v
  end.

Definition hasProp (k : string) (o : JsVal) : bool :=
  match o with
  | JObj props => existsb (fun kv => String.eqb k (fst kv)) props
  | _ => false
  end.

Definition optStr (o : option string) : JsVal :=
  match o with Some s => JStr s | None => JNull end.

Definition optDate (o : option Z) : JsVal :=
  match o with Some t => JDate t | None => JNull end.

(** [String.prototype.split] with a one-character separator. *)
Fixpoint split (sep : ascii) (s : string) : list string :=
  match s with
  | EmptyString => [EmptyString]
  | String c rest =>
      if Ascii.eqb c sep then EmptyString :: split sep rest
      else match split sep rest with
           | [] => [String c EmptyString]
           | h :: t => String c h :: t
           end
  end.

(* ------------------------------------------------------------------ *)
(** ** Exceptions *)

Inductive Exn : Type :=
| RangeError (msg : string)
| PgError (sqlstate : string).

Inductive Result (A : Type) : Type :=
| Ok (a : A)
| Throw (e : Exn).

Arguments Ok {A} a.
Arguments Throw {A} e.

Definition bind {A B} (r : Result A) (k : A -> Result B) : Result B :=
  match r with
  | Ok a => k a
  | Throw e => Throw e
  end.

Notation "x <- r ;; k" := (bind r (fun x => k))
  (at level 61, r at next level, right associativity).

(** PostgreSQL error codes raised by the modelled statements. *)
Definition unique_violation : string := "23505".
Definition foreign_key_violation : string := "23503".
Definition invalid_row_count_in_result_offset_clause : string := "2201X".
Definition string_data_right_truncation : string := "22001".
Definition numeric_value_out_of_range : string := "22003".
Definition invalid_text_representation : string := "22P02".

(* ------------------------------------------------------------------ *)
(** ** Rows of the tables of [shared/schema.ts] *)

Module User.
Record t : Type := {
  id : string;
  username : string;
  password : string;
  email : option string;
  firstName : option string;
  lastName : option string;
  role : string;
  active : bool;
  createdAt : option Z;
  updatedAt : option Z
}.
End User.

Module CBO.
Record t : Type := {
  id : string;
  codigo : string;
  descricao : string;
  status : bool;
  createdAt : option Z;
  updatedAt : option Z
}.
End CBO.

Module Prestador.
Record t : Type := {
  id : string;
  codigo : string;
  nomeRazaoSocial : string;
  cnpjCpf : string;
  tipo : string;
  status : bool;
  createdAt : option Z;
  updatedAt : option Z
}.
End Prestador.

Module Procedimento.
Record t : Type := {
  id : string;
  codigo : string;
  descricao : string;
  valor : string;
  complexidade : string;
  status : bool;
  createdAt : option Z;
  updatedAt : option Z
}.
End Procedimento.

Module SRub.
Record t : Type := {
  id : string;
  codigo : string;
  descricao : string;
  tipoFinanciamento : string;
  status : bool;
  createdAt : option Z;
  updatedAt : option Z
}.
End SRub.

Module ConsultaProd.
Record t : Type := {
  id : string;
  prdDtcomp : Z;
  prdDtreal : Z;
  prdCbo : option string;
  prdPrest : option string;
  prdProc : option string;
  prdQtd : Z;
  prdVlP : string;
  prdRub : option string;
  prdCidpri : option string;
  createdAt : option Z;
  updatedAt : option Z
}.
End ConsultaProd.

Module AuditLog.
Record t : Type := {
  id : string;
  userId : option string;
  action : string;
  tableName : string;
  recordId : option string;
  oldValues : option string;
  newValues : option string;
  createdAt : option Z
}.
End AuditLog.

(** The insert types: the row without the columns the schemas [omit];
    a column with a default or without [notNull()] is optional. *)
Module InsertUser.
Record t : Type := {
  username : string;
  password : string;
  email : option string;
  firstName : option string;
  lastName : option string;
  role : option string;
  active : option bool
}.
End InsertUser.

(** [Partial<InsertUser>]: every property may be absent; a nullable column
    may also be set to [null] (the inner [None]). *)
Module PartialUser.
Record t : Type := {
  username : option string;
  password : option string;
  email : option (option string);
  firstName : option (option string);
  lastName : option (option string);
  role : option string;
  active : option bool
}.
End PartialUser.

Module InsertCBO.
Record t : Type := {
  codigo : string;
  descricao : string;
  status : option bool
}.
End InsertCBO.

Module InsertAuditLog.
Record t : Type := {
  userId : option string;
  action : string;
  tableName : string;
  recordId : option string;
  oldValues : option string;
  newValues : option string
}.
End InsertAuditLog.

(** The database: one list of rows per table. *)
Record Db : Type := {
  users : list User.t;
  cbo : list CBO.t;
  prestador : list Prestador.t;
  procedimento : list Procedimento.t;
  sRub : list SRub.t;
  consultaProd : list ConsultaProd.t;
  auditLog : list AuditLog.t
}.

Definition set_users (db : Db) (rows : list User.t) : Db :=
  {| users := rows; cbo := cbo db; prestador := prestador db;
     procedimento := procedimento db; sRub := sRub db;
     consultaProd := consultaProd db; auditLog := auditLog db |}.

Definition set_cbo (db : Db) (rows : list CBO.t) : Db :=
  {| users := users db; cbo := rows; prestador := prestador db;
     procedimento := procedimento db; sRub := sRub db;
     consultaProd := consultaProd db; auditLog := auditLog db |}.

Definition set_prestador (db : Db) (rows : list Prestador.t) : Db :=
  {| users := users db; cbo := cbo db; prestador := rows;
     procedimento := procedimento db; sRub := sRub db;
     consultaProd := consultaProd db; auditLog := auditLog db |}.

Definition set_auditLog (db : Db) (rows : list AuditLog.t) : Db :=
  {| users := users db; cbo := cbo db; prestador := prestador db;
     procedimento := procedimento db; sRub := sRub db;
     consultaProd := consultaProd db; auditLog := rows |}.

(** The principal a verified token carries ([req.user]). *)
Record ReqUser : Type := {
  ru_id : string;
  ru_username : string;
  ru_role : string
}.

Inductive JwtError : Type :=
| TokenExpiredError
| JsonWebTokenError
| NotBeforeError.

(* ------------------------------------------------------------------ *)
(** ** Library code *)

Class Runtime : Type := {
  (** [new Date(v)]; [None] is an Invalid Date *)
  newDate : JsVal -> option Z;
  (** the text node-postgres sends for a parameter that is not a string *)
  pg_prepareValue : JsVal -> string;
  (** [string LIKE pattern] *)
  pg_like : string -> string -> bool;
  (** [JSON.parse]; [None] is a [SyntaxError] *)
  JSON_parse : string -> option JsVal;
  JSON_stringify : JsVal -> string;
  (** [parseInt]; [None] is [NaN] *)
  parseInt : string -> option Z;
  (** [bcrypt.hash(data, rounds)] with the salt it draws *)
  bcrypt_hash : string -> Z -> string -> string;
  bcrypt_compare : string -> string -> bool;
  (** [jwt.sign(payload, secret, { expiresIn })] at a time, the lifetime in
      seconds, and [jwt.verify(token, secret)] at a time *)
  jwt_sign : ReqUser -> string -> Z -> Z -> string;
  jwt_verify : string -> string -> Z -> ReqUser + JwtError;
  (** [process.env.JWT_SECRET] *)
  env_JWT_SECRET : option string;
  (** [schema.parse(body)]; [None] is a [ZodError] *)
  insertUserSchema_parse : JsVal -> option InsertUser.t;
  insertCboSchema_parse : JsVal -> option InsertCBO.t
}.

(* ------------------------------------------------------------------ *)
(** ** Relational helpers *)

Definition default {A} (d : A) (o : option A) : A :=
  match o with Some a => a | None => d end.

(** [column = value] for a nullable column: NULL equals nothing. *)
Definition fkEq (fk : option string) (id : string) : bool :=
  match fk with Some k => String.eqb k id | None => false end.

(** some row already holds [v] in a [unique()] column *)
Definition taken {A} (col : A -> string) (v : string) (rows : list A) : bool :=
  existsb (fun r => String.eqb (col r) v) rows.

(** the same for a nullable column: NULLs never conflict *)
Definition takenOpt {A} (col : A -> option string) (v : option string)
  (rows : list A) : bool :=
  match v with
  | Some s => existsb (fun r => fkEq (col r) s) rows
  | None => false
  end.

Definition countBy {A} (p : A -> bool) (rows : list A) : Z :=
  Z.of_nat (length (filter p rows)).

(** [a LEFT JOIN b ON on]: every left row is kept; one without a partner
    is paired with NULLs. *)
Definition leftJoin {L R} (on : L -> R -> bool) (ls : list L) (rs : list R)
  : list (L * option R) :=
  flat_map (fun l => match filter (on l) rs with
                     | [] => [(l, None)]
                     | ms => map (fun r => (l, Some r)) ms
                     end) ls.

(** A stable sort by insertion.  [gtb x y] says that [x] sorts strictly
    before [y]; rows of which neither sorts before the other keep their
    order. *)
Fixpoint insertDesc {A} (gtb : A -> A -> bool) (x : A) (l : list A) : list A :=
  match l with
  | [] => [x]
  | y :: t => if gtb y x then y :: insertDesc gtb x t else x :: y :: t
  end.

Definition sortStable {A} (gtb : A -> A -> bool) (l : list A) : list A :=
  fold_right (insertDesc gtb) [] l.

Fixpoint indexed {A} (i : nat) (l : list A) : list (nat * A) :=
  match l with
  | [] => []
  | x :: t => (i, x) :: indexed (S i) t
  end.

(** The order in which the rows of one execution reach the sort: [tie]
    ranks the rows by their position, the lower rank first. *)
Definition arrange {A} (tie : nat -> nat) (l : list A) : list A :=
  map snd (sortStable (fun a b => (tie (fst a) <? tie (fst b))%nat) (indexed 0 l)).

(** [ORDER BY key DESC]: sorted by the key; rows with equal keys, whose
    order PostgreSQL leaves open, come in the order of this execution. *)
Definition orderByDesc {A} (gtb : A -> A -> bool) (tie : nat -> nat) (l : list A)
  : list A :=
  sortStable gtb (arrange tie l).

(** a nullable time stamp in descending order: NULLs first *)
Definition tsGtb (a b : option Z) : bool :=
  match a, b with
  | None, Some _ => true
  | Some x, Some y => y <? x
  | _, None => false
  end.

(** [Number.MAX_SAFE_INTEGER] *)
Definition maxSafe : Z := 2 ^ 53 - 1.

(** The double nearest to an integer (ties to even): the integer itself
    up to 2^53, a multiple of a power of two beyond. *)
Definition toDouble (n : Z) : Z :=
  let a := Z.abs n in
  if a <=? maxSafe then n
  else
    let e := Z.log2 a - 52 in
    let q := a / 2 ^ e in
    let r := a mod 2 ^ e in
    let q' := if (2 ^ e <? 2 * r) || ((2 * r =? 2 ^ e) && Z.odd q) then q + 1 else q in
    Z.sgn n * (q' * 2 ^ e).

(** A number bound to a [bigint] parameter.  node-postgres sends its
    text: from 1e21 on that is in exponent notation, which PostgreSQL does
    not read as an integer, and below that the digits must be in the range
    of [bigint].  (Beyond 2^53 the digits JavaScript prints are those of a
    number that rounds to the double, less than 2^10 away from it below
    2^63; the model takes the double.) *)
Definition pgBigint (n : Z) : Result Z :=
  if 10 ^ 21 <=? Z.abs n then Throw (PgError invalid_text_representation)
  else if (n <? - 2 ^ 63) || (2 ^ 63 <=? n)
       then Throw (PgError numeric_value_out_of_range)
       else Ok n.

(** [.limit(limit).offset(offset)].  drizzle-orm writes the LIMIT clause
    for a number that is [>= 0] and the OFFSET clause for a truthy number;
    PostgreSQL reads the parameters, refuses a negative OFFSET, skips and
    takes. *)
Definition limitOffset {A} (limit offset : Z) (rows : list A) : Result (list A) :=
  take <- (if 0 <=? limit then n <- pgBigint limit ;; Ok (Some n) else Ok None) ;;
  skip <- (if truthy (JNum offset) then n <- pgBigint offset ;; Ok (Some n)
           else Ok None) ;;
  rows <- match skip with
          | Some n =>
              if n <? 0 then Throw (PgError invalid_row_count_in_result_offset_clause)
              else Ok (skipn (Z.to_nat n) rows)
          | None => Ok rows
          end ;;
  match take with
  | Some n => Ok (firstn (Z.to_nat n) rows)
  | None => Ok rows
  end.

Fixpoint allSpaces (s : string) : bool :=
  match s with
  | EmptyString => true
  | String c rest => Ascii.eqb c " " && allSpaces rest
  end.

(** A value stored into a [varchar(n)] column: characters beyond the
    width are cut off when they are all spaces and refused otherwise. *)
Definition varchar (n : nat) (s : string) : Result string :=
  if (String.length s <=? n)%nat then Ok s
  else if allSpaces (String.substring n (String.length s - n) s)
       then Ok (String.substring 0 n s)
       else Throw (PgError string_data_right_truncation).

Definition varcharOpt (n : nat) (o : option string) : Result (option string) :=
  match o with
  | Some s => s' <- varchar n s ;; Ok (Some s')
  | None => Ok None
  end.

(* ------------------------------------------------------------------ *)
(** ** The report query: conditions and result shape *)

(** The conditions [getConsultaProdData] builds with drizzle's [gte], [lte]
    and [eq]; a list of them stands for [and(...conditions)]. *)
Inductive SqlCond : Type :=
| gte_prdDtcomp (d : option Z)
| lte_prdDtcomp (d : option Z)
| eq_prdPrest (v : JsVal)
| eq_prdProc (v : JsVal).

Module RefDescricao.
Record t : Type := { id : string; codigo : string; descricao : string }.
End RefDescricao.

Module RefPrestador.
Record t : Type := { id : string; codigo : string; nomeRazaoSocial : string }.
End RefPrestador.

Module ReportRow.
Record t : Type := {
  id : string;
  prdDtcomp : Z;
  prdDtreal : Z;
  prdQtd : Z;
  prdVlP : string;
  prdCidpri : option string;
  cbo : option RefDescricao.t;
  prestador : option RefPrestador.t;
  procedimento : option RefDescricao.t;
  sRub : option RefDescricao.t
}.
End ReportRow.

Record Page (A : Type) : Type := { data : list A; total : Z }.

Definition Joined : Type :=
  ConsultaProd.t * option CBO.t * option Prestador.t * option Procedimento.t
  * option SRub.t.

Definition base (j : Joined) : ConsultaProd.t := fst (fst (fst (fst j))).

(** the [select({...})] projection; a nested object whose columns are all
    NULL is [null] *)
Definition selectReport (j : Joined) : ReportRow.t :=
  let '(r, c, p, pr, s) := j in
  {| ReportRow.id := ConsultaProd.id r;
     ReportRow.prdDtcomp := ConsultaProd.prdDtcomp r;
     ReportRow.prdDtreal := ConsultaProd.prdDtreal r;
     ReportRow.prdQtd := ConsultaProd.prdQtd r;
     ReportRow.prdVlP := ConsultaProd.prdVlP r;
     ReportRow.prdCidpri := ConsultaProd.prdCidpri r;
     ReportRow.cbo :=
       option_map (fun x => {| RefDescricao.id := CBO.id x;
                               RefDescricao.codigo := CBO.codigo x;
                               RefDescricao.descricao := CBO.descricao x |}) c;
     ReportRow.prestador :=
       option_map (fun x => {| RefPrestador.id := Prestador.id x;
                               RefPrestador.codigo := Prestador.codigo x;
                               RefPrestador.nomeRazaoSocial :=
                                 Prestador.nomeRazaoSocial x |}) p;
     ReportRow.procedimento :=
       option_map (fun x => {| RefDescricao.id := Procedimento.id x;
                               RefDescricao.codigo := Procedimento.codigo x;
                               RefDescricao.descricao :=
                                 Procedimento.descricao x |}) pr;
     ReportRow.sRub :=
       option_map (fun x => {| RefDescricao.id := SRub.id x;
                               RefDescricao.codigo := SRub.codigo x;
                               RefDescricao.descricao := SRub.descricao x |}) s |}.

(** [consultaProd] left-joined with its four reference tables *)
Definition fromJoined (db : Db) : list Joined :=
  leftJoin (fun j s => fkEq (ConsultaProd.prdRub (fst (fst (fst j)))) (SRub.id s))
    (leftJoin (fun j pr => fkEq (ConsultaProd.prdProc (fst (fst j))) (Procedimento.id pr))
       (leftJoin (fun j p => fkEq (ConsultaProd.prdPrest (fst j)) (Prestador.id p))
          (leftJoin (fun r c => fkEq (ConsultaProd.prdCbo r) (CBO.id c))
             (consultaProd db) (cbo db))
          (prestador db))
       (procedimento db))
    (sRub db).

(** drizzle encodes a [Date] bound to a timestamp column with
    [toISOString], which throws on an Invalid Date. *)
Definition toISOString (d : option Z) : Result Z :=
  match d with
  | Some t => Ok t
  | None => Throw (RangeError "Invalid time value")
  end.

(* ------------------------------------------------------------------ *)
(** ** [server/storage.ts]: class [DatabaseStorage] *)

Section Storage.
Context {rt : Runtime}.

(** *** Table statements *)

Definition users_insert (db : Db) (row : User.t) : Result Db :=
  if taken User.id (User.id row) (users db)
     || taken User.username (User.username row) (users db)
     || takenOpt User.email (User.email row) (users db)
  then Throw (PgError unique_violation)
  else Ok (set_users db (users db ++ [row])).

(** [UPDATE users SET ... WHERE ... RETURNING *] *)
Definition users_update (db : Db) (where_ : User.t -> bool) (set : User.t -> User.t)
  : Result (Db * list User.t) :=
  let rows' := map (fun u => if where_ u then set u else u) (users db) in
  let returning := map set (filter where_ (users db)) in
  if existsb (fun u' =>
        (1 <? countBy (fun r => String.eqb (User.username r) (User.username u')) rows')
        || match User.email u' with
           | Some e => 1 <? countBy (fun r => fkEq (User.email r) e) rows'
           | None => false
           end) returning
  then Throw (PgError unique_violation)
  else Ok (set_users db rows', returning).

(** [DELETE FROM users WHERE id = $1]; [audit_log.user_id] references the
    table.  The number is [rowCount]. *)
Definition users_delete (db : Db) (id : string) : Result (Db * Z) :=
  let victims := filter (fun u => String.eqb (User.id u) id) (users db) in
  if existsb (fun v => existsb (fun a => fkEq (AuditLog.userId a) (User.id v))
                         (auditLog db)) victims
  then Throw (PgError foreign_key_violation)
  else Ok (set_users db (filter (fun u => negb (String.eqb (User.id u) id)) (users db)),
           Z.of_nat (length victims)).

Definition with_codigo (c : CBO.t) (codigo : string) : CBO.t :=
  {| CBO.id := CBO.id c;
     CBO.codigo := codigo;
     CBO.descricao := CBO.descricao c;
     CBO.status := CBO.status c;
     CBO.createdAt := CBO.createdAt c;
     CBO.updatedAt := CBO.updatedAt c |}.

(** [INSERT INTO cbo ... RETURNING *]: [codigo] is a [varchar(20)], the
    primary key and [codigo] are unique; the row returned is the row
    stored. *)
Definition cbo_insert (db : Db) (row : CBO.t) : Result (Db * CBO.t) :=
  codigo <- varchar 20 (CBO.codigo row) ;;
  let stored := with_codigo row codigo in
  if taken CBO.id (CBO.id stored) (cbo db)
     || taken CBO.codigo (CBO.codigo stored) (cbo db)
  then Throw (PgError unique_violation)
  else Ok (set_cbo db (cbo db ++ [stored]), stored).

(** [DELETE FROM prestador WHERE id = $1]; [consulta_prod.prd_prest]
    references the table. *)
Definition prestador_delete (db : Db) (id : string) : Result (Db * Z) :=
  let victims := filter (fun p => String.eqb (Prestador.id p) id) (prestador db) in
  if existsb (fun v => existsb (fun r => fkEq (ConsultaProd.prdPrest r) (Prestador.id v))
                         (consultaProd db)) victims
  then Throw (PgError foreign_key_violation)
  else Ok (set_prestador db
             (filter (fun p => negb (String.eqb (Prestador.id p) id)) (prestador db)),
           Z.of_nat (length victims)).

Definition auditLog_insert (db : Db) (row : AuditLog.t) : Result Db :=
  if taken AuditLog.id (AuditLog.id row) (auditLog db)
  then Throw (PgError unique_violation)
  else match AuditLog.userId row with
       | Some u =>
           if taken User.id u (users db)
           then Ok (set_auditLog db (auditLog db ++ [row]))
           else Throw (PgError foreign_key_violation)
       | None => Ok (set_auditLog db (auditLog db ++ [row]))
       end.

(** *** User operations *)

Definition getUserByUsername (db : Db) (username : string) : option User.t :=
  hd_error (filter (fun u => String.eqb (User.username u) username) (users db)).

(** [id] and [now] are what [gen_random_uuid()] and [defaultNow()] give
    the new row, [salt] the salt bcrypt draws. *)
Definition createUser (db : Db) (id : string) (now : Z) (salt : string)
  (userData : InsertUser.t) : Result (Db * User.t) :=
  let hashedPassword := bcrypt_hash (InsertUser.password userData) 10 salt in
  let user :=
    {| User.id := id;
       User.username := InsertUser.username userData;
       User.password := hashedPassword;
       User.email := InsertUser.email userData;
       User.firstName := InsertUser.firstName userData;
       User.lastName := InsertUser.lastName userData;
       User.role := default "operator" (InsertUser.role userData);
       User.active := default true (InsertUser.active userData);
       User.createdAt := Some now;
       User.updatedAt := Some now |} in
  db' <- users_insert db user ;;
  Ok (db', user).

Definition with_password (d : PartialUser.t) (p : string) : PartialUser.t :=
  {| PartialUser.username := PartialUser.username d;
     PartialUser.password := Some p;
     PartialUser.email := PartialUser.email d;
     PartialUser.firstName := PartialUser.firstName d;
     PartialUser.lastName := PartialUser.lastName d;
     PartialUser.role := PartialUser.role d;
     PartialUser.active := PartialUser.active d |}.

(** [.set({ ...updateData, updatedAt })]: absent properties leave their
    column alone *)
Definition setUser (d : PartialUser.t) (updatedAt : Z) (u : User.t) : User.t :=
  {| User.id := User.id u;
     User.username := default (User.username u) (PartialUser.username d);
     User.password := default (User.password u) (PartialUser.password d);
     User.email := default (User.email u) (PartialUser.email d);
     User.firstName := default (User.firstName u) (PartialUser.firstName d);
     User.lastName := default (User.lastName u) (PartialUser.lastName d);
     User.role := default (User.role u) (PartialUser.role d);
     User.active := default (User.active u) (PartialUser.active d);
     User.createdAt := User.createdAt u;
     User.updatedAt := Some updatedAt |}.

Definition updateUser (db : Db) (id : string) (userData : PartialUser.t)
  (now : Z) (salt : string) : Result (Db * option User.t) :=
  let updateData := userData in
  let updateData :=
    match PartialUser.password updateData with
    | Some p =>
        if truthy (JStr p)
        then with_password updateData (bcrypt_hash p 10 salt)
        else updateData
    | None => updateData
    end in
  r <- users_update db (fun u => String.eqb (User.id u) id) (setUser updateData now) ;;
  Ok (fst r, hd_error (snd r)).

Definition deleteUser (db : Db) (id : string) : Result (Db * bool) :=
  result <- users_delete db id ;;
  Ok (fst result, 0 <? snd result).

(** *** CBO operations *)

Definition getCBOs (db : Db) (tie : nat -> nat) (page limit : option Z)
  (search : option string) : Result (Page CBO.t) :=
  let page := default 1 page in
  let limit := default 10 limit in
  let offset := toDouble (toDouble (page - 1) * limit) in
  let whereCondition : option (CBO.t -> bool) :=
    match search with
    | Some s =>
        if truthy (JStr s)
        then Some (fun c =>
                     pg_like (CBO.codigo c) (String.append "%" (String.append s "%"))
                     || pg_like (CBO.descricao c)
                          (String.append "%" (String.append s "%")))
        else None
    | None => None
    end in
  let matching :=
    match whereCondition with
    | Some p => filter p (cbo db)
    | None => cbo db
    end in
  data <- limitOffset limit offset
            (orderByDesc (fun a b => tsGtb (CBO.createdAt a) (CBO.createdAt b)) tie
               matching) ;;
  Ok {| data := data; total := Z.of_nat (length matching) |}.

Definition createCBO (db : Db) (id : string) (now : Z) (cboData : InsertCBO.t)
  : Result (Db * CBO.t) :=
  let result :=
    {| CBO.id := id;
       CBO.codigo := InsertCBO.codigo cboData;
       CBO.descricao := InsertCBO.descricao cboData;
       CBO.status := default true (InsertCBO.status cboData);
       CBO.createdAt := Some now;
       CBO.updatedAt := Some now |} in
  cbo_insert db result.

(** *** Prestador operations *)

Definition getPrestador (db : Db) (id : string) : option Prestador.t :=
  hd_error (filter (fun p => String.eqb (Prestador.id p) id) (prestador db)).

Definition deletePrestador (db : Db) (id : string) : Result (Db * bool) :=
  result <- prestador_delete db id ;;
  Ok (fst result, 0 <? snd result).

(** *** ConsultaProd operations *)

(** the text a bound parameter is compared as *)
Definition paramText (v : JsVal) : string :=
  match v with
  | JStr s => s
  | _ => pg_prepareValue v
  end.

(** Binding the parameters of one condition gives its test on a row; a
    comparison with a NULL column is not true. *)
Definition bindCond (c : SqlCond) : Result (ConsultaProd.t -> bool) :=
  match c with
  | gte_prdDtcomp d =>
      t <- toISOString d ;; Ok (fun row => t <=? ConsultaProd.prdDtcomp row)
  | lte_prdDtcomp d =>
      t <- toISOString d ;; Ok (fun row => ConsultaProd.prdDtcomp row <=? t)
  | eq_prdPrest v => Ok (fun row => fkEq (ConsultaProd.prdPrest row) (paramText v))
  | eq_prdProc v => Ok (fun row => fkEq (ConsultaProd.prdProc row) (paramText v))
  end.

Fixpoint bindAnd (cs : list SqlCond) : Result (ConsultaProd.t -> bool) :=
  match cs with
  | [] => Ok (fun _ => true)
  | c :: rest =>
      p <- bindCond c ;;
      q <- bindAnd rest ;;
      Ok (fun row => p row && q row)
  end.

(** [.where(whereCondition)]; [undefined] is no WHERE clause *)
Definition bindWhere (whereCondition : option (list SqlCond))
  : Result (ConsultaProd.t -> bool) :=
  match whereCondition with
  | Some cs => bindAnd cs
  | None => Ok (fun _ => true)
  end.

Definition push {A} (l : list A) (x : A) : list A := l ++ [x].

Definition whereConditions (filters : JsVal) : list SqlCond :=
  let whereConditions := [] in
  if truthy filters then
    let whereConditions :=
      if truthy (getProp filters "dateFrom")
      then push whereConditions (gte_prdDtcomp (newDate (getProp filters "dateFrom")))
      else whereConditions in
    let whereConditions :=
      if truthy (getProp filters "dateTo")
      then push whereConditions (lte_prdDtcomp (newDate (getProp filters "dateTo")))
      else whereConditions in
    let whereConditions :=
      if truthy (getProp filters "prestador")
      then push whereConditions (eq_prdPrest (getProp filters "prestador"))
      else whereConditions in
    let whereConditions :=
      if truthy (getProp filters "procedimento")
      then push whereConditions (eq_prdProc (getProp filters "procedimento"))
      else whereConditions in
    whereConditions
  else whereConditions.

Definition whereCondition (filters : JsVal) : option (list SqlCond) :=
  let whereConditions := whereConditions filters in
  if 0 <? Z.of_nat (length whereConditions) then Some whereConditions else None.

Definition dtcompGtb (a b : Joined) : bool :=
  ConsultaProd.prdDtcomp (base b) <? ConsultaProd.prdDtcomp (base a).

Definition getConsultaProdData (db : Db) (tie : nat -> nat) (filters : JsVal)
  (page limit : option Z) : Result (Page ReportRow.t) :=
  let page := default 1 page in
  let limit := default 50 limit in
  let offset := toDouble (toDouble (page - 1) * limit) in
  let whereCondition := whereCondition filters in
  data <- (p <- bindWhere whereCondition ;;
           rows <- limitOffset limit offset
                     (orderByDesc dtcompGtb tie
                        (filter (fun j => p (base j)) (fromJoined db))) ;;
           Ok (map selectReport rows)) ;;
  totalResult <- (p <- bindWhere whereCondition ;;
                  Ok (countBy p (consultaProd db))) ;;
  Ok {| data := data; total := totalResult |}.

(** *** Audit log *)

Definition createAuditLog (db : Db) (id : string) (now : Z)
  (auditLogData : InsertAuditLog.t) : Result (Db * AuditLog.t) :=
  let result :=
    {| AuditLog.id := id;
       AuditLog.userId := InsertAuditLog.userId auditLogData;
       AuditLog.action := InsertAuditLog.action auditLogData;
       AuditLog.tableName := InsertAuditLog.tableName auditLogData;
       AuditLog.recordId := InsertAuditLog.recordId auditLogData;
       AuditLog.oldValues := InsertAuditLog.oldValues auditLogData;
       AuditLog.newValues := InsertAuditLog.newValues auditLogData;
       AuditLog.createdAt := Some now |} in
  db' <- auditLog_insert db result ;;
  Ok (db', result).

End Storage.

(* ------------------------------------------------------------------ *)
(** ** [server/routes.ts] *)

Record Request : Type := {
  headers_authorization : option string;
  params_id : string;
  query_page : option string;
  query_limit : option string;
  query_filters : option string;
  req_body : JsVal
}.

(** the status and the JSON body sent; [res.status(204).send()] has none *)
Record Response : Type := {
  res_status : Z;
  res_body : option JsVal
}.

(** What a request draws from outside the program: the clock, the
    identifiers [gen_random_uuid()] gives the entity row and the audit row,
    the bcrypt salt, and the order the executor gives rows with equal sort
    keys. *)
Record World : Type := {
  now : Z;
  uuid : string;
  audit_uuid : string;
  salt : string;
  tie : nat -> nat
}.

Definition json (status : Z) (v : JsVal) : Response :=
  {| res_status := status; res_body := Some (jsonOf v) |}.

Definition message (status : Z) (msg : string) : Response :=
  json status (JObj [("message", JStr msg)]).

Definition userJs (u : User.t) : JsVal :=
  JObj [("id", JStr (User.id u));
        ("username", JStr (User.username u));
        ("password", JStr (User.password u));
        ("email", optStr (User.email u));
        ("firstName", optStr (User.firstName u));
        ("lastName", optStr (User.lastName u));
        ("role", JStr (User.role u));
        ("active", JBool (User.active u));
        ("createdAt", optDate (User.createdAt u));
        ("updatedAt", optDate (User.updatedAt u))].

Definition cboJs (c : CBO.t) : JsVal :=
  JObj [("id", JStr (CBO.id c));
        ("codigo", JStr (CBO.codigo c));
        ("descricao", JStr (CBO.descricao c));
        ("status", JBool (CBO.status c));
        ("createdAt", optDate (CBO.createdAt c));
        ("updatedAt", optDate (CBO.updatedAt c))].

Definition prestadorJs (p : Prestador.t) : JsVal :=
  JObj [("id", JStr (Prestador.id p));
        ("codigo", JStr (Prestador.codigo p));
        ("nomeRazaoSocial", JStr (Prestador.nomeRazaoSocial p));
        ("cnpjCpf", JStr (Prestador.cnpjCpf p));
        ("tipo", JStr (Prestador.tipo p));
        ("status", JBool (Prestador.status p));
        ("createdAt", optDate (Prestador.createdAt p));
        ("updatedAt", optDate (Prestador.updatedAt p))].

Definition refDescricaoJs (o : option RefDescricao.t) : JsVal :=
  match o with
  | Some x => JObj [("id", JStr (RefDescricao.id x));
                    ("codigo", JStr (RefDescricao.codigo x));
                    ("descricao", JStr (RefDescricao.descricao x))]
  | None => JNull
  end.

Definition refPrestadorJs (o : option RefPrestador.t) : JsVal :=
  match o with
  | Some x => JObj [("id", JStr (RefPrestador.id x));
                    ("codigo", JStr (RefPrestador.codigo x));
                    ("nomeRazaoSocial", JStr (RefPrestador.nomeRazaoSocial x))]
  | None => JNull
  end.

Definition reportRowJs (r : ReportRow.t) : JsVal :=
  JObj [("id", JStr (ReportRow.id r));
        ("prdDtcomp", JDate (ReportRow.prdDtcomp r));
        ("prdDtreal", JDate (ReportRow.prdDtreal r));
        ("prdQtd", JNum (ReportRow.prdQtd r));
        ("prdVlP", JStr (ReportRow.prdVlP r));
        ("prdCidpri", optStr (ReportRow.prdCidpri r));
        ("cbo", refDescricaoJs (ReportRow.cbo r));
        ("prestador", refPrestadorJs (ReportRow.prestador r));
        ("procedimento", refDescricaoJs (ReportRow.procedimento r));
        ("sRub", refDescricaoJs (ReportRow.sRub r))].

Definition reportPageJs (p : Page ReportRow.t) : JsVal :=
  JObj [("data", JArr (map reportRowJs (data p))); ("total", JNum (total p))].

(** [loginSchema]: both properties are strings of at least one character *)
Definition loginSchema_parse (body : JsVal) : option (string * string) :=
  match getProp body "username", getProp body "password" with
  | JStr username, JStr password =>
      if negb (String.eqb username "") && negb (String.eqb password "")
      then Some (username, password)
      else None
  | _, _ => None
  end.

Section Routes.
Context {rt : Runtime}.

Definition JWT_SECRET : string :=
  match env_JWT_SECRET with
  | Some s => if truthy (JStr s) then s else "your-secret-key"
  | None => "your-secret-key"
  end.

(** a handler behind [authenticateToken], which has set [req.user] *)
Definition Handler : Type := ReqUser -> Db -> World -> Request -> Db * Response.

(** [authHeader && authHeader.split(' ')[1]]; [None] is [undefined] *)
Definition bearerToken (authHeader : option string) : option string :=
  match authHeader with
  | None => None
  | Some h => if truthy (JStr h) then nth_error (split " " h) 1 else Some h
  end.

Definition authenticateToken (next : Handler) (db : Db) (w : World) (req : Request)
  : Db * Response :=
  let authHeader := headers_authorization req in
  match bearerToken authHeader with
  | None => (db, message 401 "Access token required")
  | Some token =>
      if negb (truthy (JStr token)) then (db, message 401 "Access token required")
      else
        match jwt_verify token JWT_SECRET (now w) with
        | inr err => (db, message 403 "Invalid token")
        | inl user => next user db w req
        end
  end.

Definition requireAdmin (next : Handler) : Handler :=
  fun user db w req =>
    if negb (String.eqb (ru_role user) "admin")
    then (db, message 403 "Admin access required")
    else next user db w req.

(** [POST /api/auth/login] *)
Definition post_api_auth_login (db : Db) (w : World) (req : Request) : Db * Response :=
  match loginSchema_parse (req_body req) with
  | None => (db, message 400 "Invalid request data")
  | Some (username, password) =>
      match getUserByUsername db username with
      | None => (db, message 401 "Invalid credentials")
      | Some user =>
          if negb (User.active user) then (db, message 401 "Invalid credentials")
          else
            let isValidPassword := bcrypt_compare password (User.password user) in
            if negb isValidPassword then (db, message 401 "Invalid credentials")
            else
              let token :=
                jwt_sign {| ru_id := User.id user;
                            ru_username := User.username user;
                            ru_role := User.role user |}
                  JWT_SECRET (24 * 3600) (now w) in
              (db, json 200
                     (JObj [("token", JStr token);
                            ("user",
                             JObj [("id", JStr (User.id user));
                                   ("username", JStr (User.username user));
                                   ("email", optStr (User.email user));
                                   ("firstName", optStr (User.firstName user));
                                   ("lastName", optStr (User.lastName user));
                                   ("role", JStr (User.role user))])]))
      end
  end.

(** [POST /api/cbo], after [authenticateToken] *)
Definition post_api_cbo_handler : Handler :=
  fun user db w req =>
    match insertCboSchema_parse (req_body req) with
    | None => (db, message 400 "Invalid request data")
    | Some cboData =>
        match createCBO db (uuid w) (now w) cboData with
        | Throw _ => (db, message 400 "Invalid request data")
        | Ok (db1, cbo) =>
            match createAuditLog db1 (audit_uuid w) (now w)
                    {| InsertAuditLog.userId := Some (ru_id user);
                       InsertAuditLog.action := "create";
                       InsertAuditLog.tableName := "cbo";
                       InsertAuditLog.recordId := Some (CBO.id cbo);
                       InsertAuditLog.oldValues := None;
                       InsertAuditLog.newValues := Some (JSON_stringify (cboJs cbo)) |}
            with
            | Throw _ => (db1, message 400 "Invalid request data")
            | Ok (db2, _) => (db2, json 201 (cboJs cbo))
            end
        end
    end.

Definition post_api_cbo : Db -> World -> Request -> Db * Response :=
  authenticateToken post_api_cbo_handler.

(** [DELETE /api/prestador/:id], after [authenticateToken] *)
Definition delete_api_prestador_handler : Handler :=
  fun user db w req =>
    let oldPrestador := getPrestador db (params_id req) in
    match deletePrestador db (params_id req) with
    | Throw _ => (db, message 500 "Internal server error")
    | Ok (db1, success) =>
        if negb success then (db1, message 404 "Prestador not found")
        else
          match createAuditLog db1 (audit_uuid w) (now w)
                  {| InsertAuditLog.userId := Some (ru_id user);
                     InsertAuditLog.action := "delete";
                     InsertAuditLog.tableName := "prestador";
                     InsertAuditLog.recordId := Some (params_id req);
                     InsertAuditLog.oldValues :=
                       option_map (fun p => JSON_stringify (prestadorJs p)) oldPrestador;
                     InsertAuditLog.newValues := None |}
          with
          | Throw _ => (db1, message 500 "Internal server error")
          | Ok (db2, _) => (db2, {| res_status := 204; res_body := None |})
          end
    end.

Definition delete_api_prestador : Db -> World -> Request -> Db * Response :=
  authenticateToken delete_api_prestador_handler.

(** [parseInt(q) || d]; [parseInt(undefined)] is [NaN] *)
Definition parseIntOr (q : option string) (d : Z) : Z :=
  match q with
  | Some s =>
      match parseInt s with
      | Some n => if truthy (JNum n) then n else d
      | None => d
      end
  | None => d
  end.

(** [GET /api/reports/data], after [authenticateToken] *)
Definition get_api_reports_data_handler : Handler :=
  fun user db w req =>
    let page := parseIntOr (query_page req) 1 in
    let limit := parseIntOr (query_limit req) 50 in
    match (match query_filters req with
           | Some s => if truthy (JStr s) then JSON_parse s else Some (JObj [])
           | None => Some (JObj [])
           end) with
    | None => (db, message 500 "Internal server error")
    | Some filters =>
        match getConsultaProdData db (tie w) filters (Some page) (Some limit) with
        | Throw _ => (db, message 500 "Internal server error")
        | Ok result => (db, json 200 (reportPageJs result))
        end
    end.

Definition get_api_reports_data : Db -> World -> Request -> Db * Response :=
  authenticateToken get_api_reports_data_handler.

(** [POST /api/users], after [authenticateToken] and [requireAdmin] *)
Definition post_api_users_handler : Handler :=
  fun user_ db w req =>
    match insertUserSchema_parse (req_body req) with
    | None => (db, message 400 "Invalid request data")
    | Some userData =>
        match createUser db (uuid w) (now w) (salt w) userData with
        | Throw _ => (db, message 400 "Invalid request data")
        | Ok (db1, user) =>
            match createAuditLog db1 (audit_uuid w) (now w)
                    {| InsertAuditLog.userId := Some (ru_id user_);
                       InsertAuditLog.action := "create";
                       InsertAuditLog.tableName := "users";
                       InsertAuditLog.recordId := Some (User.id user);
                       InsertAuditLog.oldValues := None;
                       InsertAuditLog.newValues :=
                         Some (JSON_stringify
                                 (setProp "password" (JStr "[HIDDEN]") (userJs user))) |}
            with
            | Throw _ => (db1, message 400 "Invalid request data")
            | Ok (db2, _) => (db2, json 201 (setProp "password" JUndefined (userJs user)))
            end
        end
    end.

Definition post_api_users : Db -> World -> Request -> Db * Response :=
  authenticateToken (requireAdmin post_api_users_handler).

End Routes.

(* ------------------------------------------------------------------ *)
(** ** The report filter as the specification words it *)

Definition recognizedKeys : list string :=
  ["dateFrom"; "dateTo"; "prestador"; "procedimento"].

(** a key is present and non-empty *)
Definition present (filters : JsVal) (k : string) : bool :=
  truthy (getProp filters k).

Section FilterSpec.
Context {rt : Runtime}.

(** the date values that are present parse *)
Definition datesWellFormed (filters : JsVal) : bool :=
  (if present filters "dateFrom"
   then match newDate (getProp filters "dateFrom") with Some _ => true | None => false end
   else true)
  && (if present filters "dateTo"
      then match newDate (getProp filters "dateTo") with Some _ => true | None => false end
      else true).

(** "foreign key = value": the key is not NULL and is the value, a string
    itself or, for a value of another type, the text it is sent as *)
Definition keyIs (fk : option string) (v : JsVal) : bool :=
  match fk, v with
  | Some k, JStr s => String.eqb k s
  | Some k, _ => String.eqb k (pg_prepareValue v)
  | None, _ => false
  end.

(** The logical AND of one predicate per recognized key that is present:
    competence date >= dateFrom, competence date <= dateTo, provider
    foreign key = prestador, procedure foreign key = procedimento. *)
Definition specPredicate (filters : JsVal) (row : ConsultaProd.t) : bool :=
  (if present filters "dateFrom"
   then match newDate (getProp filters "dateFrom") with
        | Some d => d <=? ConsultaProd.prdDtcomp row
        | None => false
        end
   else true)
  && (if present filters "dateTo"
      then match newDate (getProp filters "dateTo") with
           | Some d => ConsultaProd.prdDtcomp row <=? d
           | None => false
           end
      else true)
  && (if present filters "prestador"
      then keyIs (ConsultaProd.prdPrest row) (getProp filters "prestador")
      else true)
  && (if present filters "procedimento"
      then keyIs (ConsultaProd.prdProc row) (getProp filters "procedimento")
      else true).

(** the production records that match *)
Definition matching (filters : JsVal) (db : Db) : list ConsultaProd.t :=
  filter (specPredicate filters) (consultaProd db).

(** the matching production records in the order of one execution of the
    report *)
Definition reportOrder (tie : nat -> nat) (filters : JsVal) (db : Db)
  : list ConsultaProd.t :=
  orderByDesc
    (fun a b => ConsultaProd.prdDtcomp b <? ConsultaProd.prdDtcomp a) tie
    (matching filters db).

End FilterSpec.

Section PasswordSpec.
Context {rt : Runtime}.

(** the stored password is a bcrypt hash (ten rounds) of some password *)
Definition hashed (u : User.t) : Prop :=
  exists p s, User.password u = bcrypt_hash p 10 s.

Definition allHashed (db : Db) : Prop := Forall hashed (users db).

End PasswordSpec.

(** descending in an integer key *)
Definition descending {A} (key : A -> Z) : list A -> Prop :=
  StronglySorted (fun a b => key b <= key a).

(** the foreign key is not NULL and is the id *)
Definition names (fk : option string) (id : string) : bool :=
  match fk with
  | Some k => String.eqb k id
  | None => false
  end.

(** some production record names the provider *)
Definition prestadorReferenced (db : Db) (id : string) : bool :=
  existsb (fun r => names (ConsultaProd.prdPrest r) id) (consultaProd db).

(** the elements at the indices of the half-open range [lo, hi) *)
Definition slice {A} (lo hi : nat) (l : list A) : list A :=
  firstn (hi - lo) (skipn lo l).

Fixpoint distinct (l : list string) : bool :=
  match l with
  | [] => true
  | x :: t => negb (existsb (String.eqb x) t) && distinct t
  end.

(** the primary keys of the four reference tables *)
Definition refKeysUnique (db : Db) : bool :=
  distinct (map CBO.id (cbo db))
  && distinct (map Prestador.id (prestador db))
  && distinct (map Procedimento.id (procedimento db))
  && distinct (map SRub.id (sRub db)).

(** a production record with the rows its foreign keys name *)
Definition joinOne (db : Db) (r : ConsultaProd.t) : Joined :=
  (r,
   find (fun c => names (ConsultaProd.prdCbo r) (CBO.id c)) (cbo db),
   find (fun p => names (ConsultaProd.prdPrest r) (Prestador.id p)) (prestador db),
   find (fun pr => names (ConsultaProd.prdProc r) (Procedimento.id pr)) (procedimento db),
   find (fun s => names (ConsultaProd.prdRub r) (SRub.id s)) (sRub db)).

(** The row of the report for a production record: its own columns and,
    for each foreign key, the id, code and description (name) of the row
    it names, or null when it names none. *)
Definition reportOf (db : Db) (r : ConsultaProd.t) : ReportRow.t :=
  {| ReportRow.id := ConsultaProd.id r;
     ReportRow.prdDtcomp := ConsultaProd.prdDtcomp r;
     ReportRow.prdDtreal := ConsultaProd.prdDtreal r;
     ReportRow.prdQtd := ConsultaProd.prdQtd r;
     ReportRow.prdVlP := ConsultaProd.prdVlP r;
     ReportRow.prdCidpri := ConsultaProd.prdCidpri r;
     ReportRow.cbo :=
       match find (fun c => names (ConsultaProd.prdCbo r) (CBO.id c)) (cbo db) with
       | Some c => Some {| RefDescricao.id := CBO.id c;
                           RefDescricao.codigo := CBO.codigo c;
                           RefDescricao.descricao := CBO.descricao c |}
       | None => None
       end;
     ReportRow.prestador :=
       match find (fun p => names (ConsultaProd.prdPrest r) (Prestador.id p))
               (prestador db) with
       | Some p => Some {| RefPrestador.id := Prestador.id p;
                           RefPrestador.codigo := Prestador.codigo p;
                           RefPrestador.nomeRazaoSocial := Prestador.nomeRazaoSocial p |}
       | None => None
       end;
     ReportRow.procedimento :=
       match find (fun pr => names (ConsultaProd.prdProc r) (Procedimento.id pr))
               (procedimento db) with
       | Some pr => Some {| RefDescricao.id := Procedimento.id pr;
                            RefDescricao.codigo := Procedimento.codigo pr;
                            RefDescricao.descricao := Procedimento.descricao pr |}
       | None => None
       end;
     ReportRow.sRub :=
       match find (fun f => names (ConsultaProd.prdRub r) (SRub.id f)) (sRub db) with
       | Some f => Some {| RefDescricao.id := SRub.id f;
                           RefDescricao.codigo := SRub.codigo f;
                           RefDescricao.descricao := SRub.descricao f |}
       | None => None
       end |}.

(** a foreign key that is NULL or names no row of the table *)
Definition unmatched {R} (fk : option string) (key : R -> string) (rows : list R) : bool :=
  negb (existsb (fun x => names fk (key x)) rows).

(** the columns of the production record that the report row carries *)
Definition represents (j : ReportRow.t) (r : ConsultaProd.t) : Prop :=
  ReportRow.id j = ConsultaProd.id r
  /\ ReportRow.prdDtcomp j = ConsultaProd.prdDtcomp r
  /\ ReportRow.prdDtreal j = ConsultaProd.prdDtreal r
  /\ ReportRow.prdQtd j = ConsultaProd.prdQtd r
  /\ ReportRow.prdVlP j = ConsultaProd.prdVlP r
  /\ ReportRow.prdCidpri j = ConsultaProd.prdCidpri r.

(** a response that reports a validation failure (status 400) and names
    the field *)
Definition isValidationError (field : string) (r : Response) : Prop :=
  res_status r = 400
  /\ exists msg, res_body r = Some (JObj [("message", JStr msg)])
                 /\ String.index 0 field msg <> None.

(* ------------------------------------------------------------------ *)
(** ** A concrete runtime and database, used to run the model *)

Module Sample.

Definition dq : string := String "034"%char EmptyString.

(** the text [{"dateFrom":"not-a-date"}] *)
Definition badDateText : string :=
  String.concat "" ["{"; dq; "dateFrom"; dq; ":"; dq; "not-a-date"; dq; "}"].

(** the text [{"dateFrom":"2024-01-01","filter_0":{"field":"prdQtd"}}] *)
Definition goodDateText : string :=
  String.concat ""
    ["{"; dq; "dateFrom"; dq; ":"; dq; "2024-01-01"; dq; ","; dq; "filter_0"; dq;
     ":{"; dq; "field"; dq; ":"; dq; "prdQtd"; dq; "}}"].

Definition badDateFilters : JsVal := JObj [("dateFrom", JStr "not-a-date")].

Definition goodDateFilters : JsVal :=
  JObj [("dateFrom", JStr "2024-01-01");
        ("filter_0", JObj [("field", JStr "prdQtd")])].

Definition fourKeyFilters : JsVal :=
  JObj [("dateFrom", JStr "2024-01-01"); ("dateTo", JStr "2024-12-31");
        ("prestador", JStr "p-1"); ("procedimento", JStr "x-1")].

Definition lateFilters : JsVal := JObj [("dateFrom", JStr "2024-12-31")].
Definition earlyFilters : JsVal := JObj [("dateTo", JStr "2024-01-01")].
Definition providerFilters : JsVal := JObj [("prestador", JStr "p-1")].
Definition procedureFilters : JsVal := JObj [("procedimento", JStr "x-2")].

(** a code of 21 characters *)
Definition longCode : string := "123456789012345678901".

Definition noKeyFilters : JsVal :=
  JObj [("filter_0", JObj [("field", JStr "prdQtd"); ("operator", JStr "equals");
                           ("value", JStr "2")])].

Definition jan01 : Z := 1704067200000.
Definition dec31 : Z := 1735603200000.

Definition admin : ReqUser :=
  {| ru_id := "u-1"; ru_username := "admin"; ru_role := "admin" |}.

Definition operator : ReqUser :=
  {| ru_id := "u-2"; ru_username := "maria"; ru_role := "operator" |}.

Definition strOpt (v : JsVal) : option string :=
  match v with JStr s => Some s | _ => None end.

Definition boolOpt (v : JsVal) : option bool :=
  match v with JBool b => Some b | _ => None end.

(** Each library function on the inputs used below: two ISO dates and
    epoch numbers as dates, patterns of the form %text%, three JSON texts,
    six numerals (the last one is the double 1e20), four tokens; the hash
    is not a real bcrypt. *)
Definition runtime : Runtime :=
  {| newDate := fun v =>
       match v with
       | JNum n => Some n
       | JDate t => Some t
       | JStr s =>
           if String.eqb s "2024-01-01" then Some jan01
           else if String.eqb s "2024-12-31" then Some dec31
           else None
       | _ => None
       end;
     pg_prepareValue := fun _ => "";
     pg_like := fun s pat =>
       match pat with
       | String "%" rest =>
           match String.index 0 (String.substring 0 (String.length rest - 1) rest) s with
           | Some _ => true
           | None => false
           end
       | _ => String.eqb s pat
       end;
     JSON_parse := fun s =>
       if String.eqb s "{}" then Some (JObj [])
       else if String.eqb s badDateText then Some badDateFilters
       else if String.eqb s goodDateText then Some goodDateFilters
       else None;
     JSON_stringify := fun _ => "{}";
     parseInt := fun s =>
       if String.eqb s "1" then Some 1
       else if String.eqb s "2" then Some 2
       else if String.eqb s "10" then Some 10
       else if String.eqb s "-1" then Some (-1)
       else if String.eqb s "-5" then Some (-5)
       else if String.eqb s "99999999999999999999" then Some (10 ^ 20)
       else None;
     bcrypt_hash := fun p _ salt =>
       String.append "$2b$10$" (String.append salt (String.append "$" p));
     bcrypt_compare := fun p h =>
       String.eqb h (String.append "$2b$10$" (String.append "salt" (String.append "$" p)));
     jwt_sign := fun u _ _ _ => String.append "token-of-" (ru_username u);
     jwt_verify := fun token _ _ =>
       if String.eqb token "token-of-admin" then inl admin
       else if String.eqb token "token-of-maria" then inl operator
       else if String.eqb token "expired-token" then inr TokenExpiredError
       else inr JsonWebTokenError;
     env_JWT_SECRET := None;
     insertUserSchema_parse := fun body =>
       match getProp body "username", getProp body "password" with
       | JStr u, JStr p =>
           Some {| InsertUser.username := u;
                   InsertUser.password := p;
                   InsertUser.email := strOpt (getProp body "email");
                   InsertUser.firstName := strOpt (getProp body "firstName");
                   InsertUser.lastName := strOpt (getProp body "lastName");
                   InsertUser.role := strOpt (getProp body "role");
                   InsertUser.active := boolOpt (getProp body "active") |}
       | _, _ => None
       end;
     insertCboSchema_parse := fun body =>
       match getProp body "codigo", getProp body "descricao" with
       | JStr c, JStr d =>
           Some {| InsertCBO.codigo := c;
                   InsertCBO.descricao := d;
                   InsertCBO.status := boolOpt (getProp body "status") |}
       | _, _ => None
       end |}.

Definition mkUser (id username role : string) (active : bool) : User.t :=
  {| User.id := id; User.username := username;
     User.password := "$2b$10$salt$admin123";
     User.email := None; User.firstName := None; User.lastName := None;
     User.role := role; User.active := active;
     User.createdAt := Some jan01; User.updatedAt := Some jan01 |}.

Definition mkPrestador (id codigo nome : string) : Prestador.t :=
  {| Prestador.id := id; Prestador.codigo := codigo;
     Prestador.nomeRazaoSocial := nome; Prestador.cnpjCpf := "12.345.678/0001-90";
     Prestador.tipo := "pessoa_juridica"; Prestador.status := true;
     Prestador.createdAt := Some jan01; Prestador.updatedAt := Some jan01 |}.

Definition mkRecord (id : string) (dtcomp : Z) (cbo prest proc rub : option string)
  : ConsultaProd.t :=
  {| ConsultaProd.id := id; ConsultaProd.prdDtcomp := dtcomp;
     ConsultaProd.prdDtreal := dtcomp; ConsultaProd.prdCbo := cbo;
     ConsultaProd.prdPrest := prest; ConsultaProd.prdProc := proc;
     ConsultaProd.prdQtd := 2; ConsultaProd.prdVlP := "20.00";
     ConsultaProd.prdRub := rub; ConsultaProd.prdCidpri := None;
     ConsultaProd.createdAt := Some jan01; ConsultaProd.updatedAt := Some jan01 |}.

Definition medico : CBO.t :=
  {| CBO.id := "c-1"; CBO.codigo := "225125"; CBO.descricao := "Medico clinico";
     CBO.status := true; CBO.createdAt := Some jan01; CBO.updatedAt := Some jan01 |}.

Definition consulta : Procedimento.t :=
  {| Procedimento.id := "x-1"; Procedimento.codigo := "X";
     Procedimento.descricao := "Consulta medica"; Procedimento.valor := "10.00";
     Procedimento.complexidade := "baixa"; Procedimento.status := true;
     Procedimento.createdAt := Some jan01; Procedimento.updatedAt := Some jan01 |}.

(** "r-3" has no occupation and a financing key that names no row *)
Definition db : Db :=
  {| users := [mkUser "u-1" "admin" "admin" true;
               mkUser "u-2" "maria" "operator" true;
               mkUser "u-3" "joao" "operator" false];
     cbo := [medico];
     prestador := [mkPrestador "p-1" "001" "Hospital Municipal";
                   mkPrestador "p-2" "002" "Clinica Santa Maria"];
     procedimento := [consulta];
     sRub := [];
     consultaProd :=
       [mkRecord "r-1" jan01 (Some "c-1") (Some "p-1") (Some "x-1") None;
        mkRecord "r-2" dec31 (Some "c-1") (Some "p-1") (Some "x-1") None;
        mkRecord "r-3" (jan01 + 1) None None (Some "x-1") (Some "s-9")];
     auditLog := [] |}.

(** an execution that leaves rows with equal keys in table order, and
    one that reverses them *)
Definition tableOrder : nat -> nat := fun i => i.
Definition reversed : nat -> nat := fun i => (100 - i)%nat.

Definition world : World :=
  {| now := dec31; uuid := "n-1"; audit_uuid := "a-1"; salt := "salt";
     tie := tableOrder |}.

Definition worldReversed : World :=
  {| now := dec31; uuid := "n-1"; audit_uuid := "a-1"; salt := "salt";
     tie := reversed |}.

(** the sample database with "r-3" moved to the competence date of "r-1" *)
Definition tied : Db :=
  {| users := users db; cbo := cbo db; prestador := prestador db;
     procedimento := procedimento db; sRub := sRub db;
     consultaProd :=
       [mkRecord "r-1" jan01 (Some "c-1") (Some "p-1") (Some "x-1") None;
        mkRecord "r-2" dec31 (Some "c-1") (Some "p-1") (Some "x-1") None;
        mkRecord "r-3" jan01 None None (Some "x-1") (Some "s-9")];
     auditLog := [] |}.

Definition request (auth : option string) (id : string) (filters : option string)
  (body : JsVal) : Request :=
  {| headers_authorization := auth; params_id := id;
     query_page := Some "1"; query_limit := Some "10";
     query_filters := filters; req_body := body |}.

Definition asAdmin : option string := Some "Bearer token-of-admin".
Definition asMaria : option string := Some "Bearer token-of-maria".

Definition newCbo (codigo : string) : JsVal :=
  JObj [("codigo", JStr codigo); ("descricao", JStr "Enfermeiro")].

Definition newUser : JsVal :=
  JObj [("username", JStr "ana"); ("password", JStr "segredo")].

End Sample.

(* ------------------------------------------------------------------ *)
(** ** More of [server/storage.ts] and [server/routes.ts] *)

Module PartialCBO.
Record t : Type := {
  codigo : option string;
  descricao : option string;
  status : option bool
}.
End PartialCBO.

Module InsertPrestador.
Record t : Type := {
  codigo : string;
  nomeRazaoSocial : string;
  cnpjCpf : string;
  tipo : string;
  status : option bool
}.
End InsertPrestador.

Module InsertConsultaProd.
Record t : Type := {
  prdDtcomp : Z;
  prdDtreal : Z;
  prdCbo : option string;
  prdPrest : option string;
  prdProc : option string;
  prdQtd : Z;
  prdVlP : string;
  prdRub : option string;
  prdCidpri : option string
}.
End InsertConsultaProd.

Definition set_consultaProd (db : Db) (rows : list ConsultaProd.t) : Db :=
  {| users := users db; cbo := cbo db; prestador := prestador db;
     procedimento := procedimento db; sRub := sRub db;
     consultaProd := rows; auditLog := auditLog db |}.

(** a foreign key is NULL or names a row of the referenced table *)
Definition fkOk {R} (fk : option string) (key : R -> string) (rows : list R) : bool :=
  match fk with
  | Some k => taken key k rows
  | None => true
  end.

Definition getUser (db : Db) (id : string) : option User.t :=
  hd_error (filter (fun u => String.eqb (User.id u) id) (users db)).

Definition getCBO (db : Db) (id : string) : option CBO.t :=
  hd_error (filter (fun c => String.eqb (CBO.id c) id) (cbo db)).

(** [UPDATE cbo SET ... WHERE ... RETURNING *] *)
Definition cbo_update (db : Db) (where_ : CBO.t -> bool) (set : CBO.t -> CBO.t)
  : Result (Db * list CBO.t) :=
  let rows' := map (fun c => if where_ c then set c else c) (cbo db) in
  let returning := map set (filter where_ (cbo db)) in
  if existsb (fun c' =>
        1 <? countBy (fun r => String.eqb (CBO.codigo r) (CBO.codigo c')) rows')
       returning
  then Throw (PgError unique_violation)
  else Ok (set_cbo db rows', returning).

Definition setCBO (d : PartialCBO.t) (updatedAt : Z) (c : CBO.t) : CBO.t :=
  {| CBO.id := CBO.id c;
     CBO.codigo := default (CBO.codigo c) (PartialCBO.codigo d);
     CBO.descricao := default (CBO.descricao c) (PartialCBO.descricao d);
     CBO.status := default (CBO.status c) (PartialCBO.status d);
     CBO.createdAt := CBO.createdAt c;
     CBO.updatedAt := Some updatedAt |}.

(** the values of the SET clause as the statement stores them; they are
    coerced when the statement is planned, whether or not a row matches *)
Definition storedCBO (d : PartialCBO.t) : Result PartialCBO.t :=
  codigo <- varcharOpt 20 (PartialCBO.codigo d) ;;
  Ok {| PartialCBO.codigo := codigo;
        PartialCBO.descricao := PartialCBO.descricao d;
        PartialCBO.status := PartialCBO.status d |}.

Definition updateCBO (db : Db) (id : string) (cboData : PartialCBO.t) (now : Z)
  : Result (Db * option CBO.t) :=
  values <- storedCBO cboData ;;
  r <- cbo_update db (fun c => String.eqb (CBO.id c) id) (setCBO values now) ;;
  Ok (fst r, hd_error (snd r)).

(** [DELETE FROM cbo WHERE id = $1]; [consulta_prod.prd_cbo] references
    the table. *)
Definition cbo_delete (db : Db) (id : string) : Result (Db * Z) :=
  let victims := filter (fun c => String.eqb (CBO.id c) id) (cbo db) in
  if existsb (fun v => existsb (fun r => fkEq (ConsultaProd.prdCbo r) (CBO.id v))
                         (consultaProd db)) victims
  then Throw (PgError foreign_key_violation)
  else Ok (set_cbo db (filter (fun c => negb (String.eqb (CBO.id c) id)) (cbo db)),
           Z.of_nat (length victims)).

Definition deleteCBO (db : Db) (id : string) : Result (Db * bool) :=
  result <- cbo_delete db id ;;
  Ok (fst result, 0 <? snd result).

(** [INSERT INTO prestador ... RETURNING *], with the widths of its
    [varchar] columns *)
Definition prestador_insert (db : Db) (row : Prestador.t) : Result (Db * Prestador.t) :=
  codigo <- varchar 20 (Prestador.codigo row) ;;
  nomeRazaoSocial <- varchar 255 (Prestador.nomeRazaoSocial row) ;;
  cnpjCpf <- varchar 20 (Prestador.cnpjCpf row) ;;
  tipo <- varchar 50 (Prestador.tipo row) ;;
  let stored :=
    {| Prestador.id := Prestador.id row;
       Prestador.codigo := codigo;
       Prestador.nomeRazaoSocial := nomeRazaoSocial;
       Prestador.cnpjCpf := cnpjCpf;
       Prestador.tipo := tipo;
       Prestador.status := Prestador.status row;
       Prestador.createdAt := Prestador.createdAt row;
       Prestador.updatedAt := Prestador.updatedAt row |} in
  if taken Prestador.id (Prestador.id stored) (prestador db)
     || taken Prestador.codigo (Prestador.codigo stored) (prestador db)
  then Throw (PgError unique_violation)
  else Ok (set_prestador db (prestador db ++ [stored]), stored).

Definition createPrestador (db : Db) (id : string) (now : Z)
  (prestadorData : InsertPrestador.t) : Result (Db * Prestador.t) :=
  let result :=
    {| Prestador.id := id;
       Prestador.codigo := InsertPrestador.codigo prestadorData;
       Prestador.nomeRazaoSocial := InsertPrestador.nomeRazaoSocial prestadorData;
       Prestador.cnpjCpf := InsertPrestador.cnpjCpf prestadorData;
       Prestador.tipo := InsertPrestador.tipo prestadorData;
       Prestador.status := default true (InsertPrestador.status prestadorData);
       Prestador.createdAt := Some now;
       Prestador.updatedAt := Some now |} in
  prestador_insert db result.

(** [INSERT INTO consulta_prod ... RETURNING *]: the widths of the
    [varchar] columns, the primary key and the four foreign keys are
    checked. *)
Definition consultaProd_insert (db : Db) (row : ConsultaProd.t)
  : Result (Db * ConsultaProd.t) :=
  prdCbo <- varcharOpt 255 (ConsultaProd.prdCbo row) ;;
  prdPrest <- varcharOpt 255 (ConsultaProd.prdPrest row) ;;
  prdProc <- varcharOpt 255 (ConsultaProd.prdProc row) ;;
  prdRub <- varcharOpt 255 (ConsultaProd.prdRub row) ;;
  prdCidpri <- varcharOpt 20 (ConsultaProd.prdCidpri row) ;;
  let stored :=
    {| ConsultaProd.id := ConsultaProd.id row;
       ConsultaProd.prdDtcomp := ConsultaProd.prdDtcomp row;
       ConsultaProd.prdDtreal := ConsultaProd.prdDtreal row;
       ConsultaProd.prdCbo := prdCbo;
       ConsultaProd.prdPrest := prdPrest;
       ConsultaProd.prdProc := prdProc;
       ConsultaProd.prdQtd := ConsultaProd.prdQtd row;
       ConsultaProd.prdVlP := ConsultaProd.prdVlP row;
       ConsultaProd.prdRub := prdRub;
       ConsultaProd.prdCidpri := prdCidpri;
       ConsultaProd.createdAt := ConsultaProd.createdAt row;
       ConsultaProd.updatedAt := ConsultaProd.updatedAt row |} in
  if taken ConsultaProd.id (ConsultaProd.id stored) (consultaProd db)
  then Throw (PgError unique_violation)
  else if fkOk (ConsultaProd.prdCbo stored) CBO.id (cbo db)
          && fkOk (ConsultaProd.prdPrest stored) Prestador.id (prestador db)
          && fkOk (ConsultaProd.prdProc stored) Procedimento.id (procedimento db)
          && fkOk (ConsultaProd.prdRub stored) SRub.id (sRub db)
  then Ok (set_consultaProd db (consultaProd db ++ [stored]), stored)
  else Throw (PgError foreign_key_violation).

Definition createConsultaProd (db : Db) (id : string) (now : Z)
  (consultaProdData : InsertConsultaProd.t) : Result (Db * ConsultaProd.t) :=
  let result :=
    {| ConsultaProd.id := id;
       ConsultaProd.prdDtcomp := InsertConsultaProd.prdDtcomp consultaProdData;
       ConsultaProd.prdDtreal := InsertConsultaProd.prdDtreal consultaProdData;
       ConsultaProd.prdCbo := InsertConsultaProd.prdCbo consultaProdData;
       ConsultaProd.prdPrest := InsertConsultaProd.prdPrest consultaProdData;
       ConsultaProd.prdProc := InsertConsultaProd.prdProc consultaProdData;
       ConsultaProd.prdQtd := InsertConsultaProd.prdQtd consultaProdData;
       ConsultaProd.prdVlP := InsertConsultaProd.prdVlP consultaProdData;
       ConsultaProd.prdRub := InsertConsultaProd.prdRub consultaProdData;
       ConsultaProd.prdCidpri := InsertConsultaProd.prdCidpri consultaProdData;
       ConsultaProd.createdAt := Some now;
       ConsultaProd.updatedAt := Some now |} in
  consultaProd_insert db result.

(** Library code used by the routes below: the partial insert schema of
    [PUT /api/cbo/:id] and the string a template literal makes of a value
    that is neither a string nor [undefined], [null] or a boolean. *)
Class RuntimeExt : Type := {
  insertCboSchema_partial_parse : JsVal -> option PartialCBO.t;
  js_toString : JsVal -> string
}.

Section MoreRoutes.
Context {rt : Runtime} {ext : RuntimeExt}.

(** [`${v}`] *)
Definition templateText (v : JsVal) : string :=
  match v with
  | JStr s => s
  | JUndefined => "undefined"
  | JNull => "null"
  | JBool true => "true"
  | JBool false => "false"
  | _ => js_toString v
  end.

(** [GET /api/auth/me], after [authenticateToken] *)
Definition get_api_auth_me_handler : Handler :=
  fun user_ db w req =>
    match getUser db (ru_id user_) with
    | None => (db, message 404 "User not found")
    | Some user =>
        (db, json 200
               (JObj [("id", JStr (User.id user));
                      ("username", JStr (User.username user));
                      ("email", optStr (User.email user));
                      ("firstName", optStr (User.firstName user));
                      ("lastName", optStr (User.lastName user));
                      ("role", JStr (User.role user))]))
    end.

Definition get_api_auth_me : Db -> World -> Request -> Db * Response :=
  authenticateToken get_api_auth_me_handler.

(** [GET /api/cbo/:id], after [authenticateToken] *)
Definition get_api_cbo_id_handler : Handler :=
  fun user db w req =>
    match getCBO db (params_id req) with
    | None => (db, message 404 "CBO not found")
    | Some cbo => (db, json 200 (cboJs cbo))
    end.

(** [PUT /api/cbo/:id], after [authenticateToken] *)
Definition put_api_cbo_handler : Handler :=
  fun user db w req =>
    match insertCboSchema_partial_parse (req_body req) with
    | None => (db, message 400 "Invalid request data")
    | Some cboData =>
        let oldCbo := getCBO db (params_id req) in
        match updateCBO db (params_id req) cboData (now w) with
        | Throw _ => (db, message 400 "Invalid request data")
        | Ok (db1, None) => (db1, message 404 "CBO not found")
        | Ok (db1, Some cbo) =>
            match createAuditLog db1 (audit_uuid w) (now w)
                    {| InsertAuditLog.userId := Some (ru_id user);
                       InsertAuditLog.action := "update";
                       InsertAuditLog.tableName := "cbo";
                       InsertAuditLog.recordId := Some (CBO.id cbo);
                       InsertAuditLog.oldValues :=
                         option_map (fun c => JSON_stringify (cboJs c)) oldCbo;
                       InsertAuditLog.newValues := Some (JSON_stringify (cboJs cbo)) |}
            with
            | Throw _ => (db1, message 400 "Invalid request data")
            | Ok (db2, _) => (db2, json 200 (cboJs cbo))
            end
        end
    end.

(** [DELETE /api/cbo/:id], after [authenticateToken] *)
Definition delete_api_cbo_handler : Handler :=
  fun user db w req =>
    let oldCbo := getCBO db (params_id req) in
    match deleteCBO db (params_id req) with
    | Throw _ => (db, message 500 "Internal server error")
    | Ok (db1, success) =>
        if negb success then (db1, message 404 "CBO not found")
        else
          match createAuditLog db1 (audit_uuid w) (now w)
                  {| InsertAuditLog.userId := Some (ru_id user);
                     InsertAuditLog.action := "delete";
                     InsertAuditLog.tableName := "cbo";
                     InsertAuditLog.recordId := Some (params_id req);
                     InsertAuditLog.oldValues :=
                       option_map (fun c => JSON_stringify (cboJs c)) oldCbo;
                     InsertAuditLog.newValues := None |}
          with
          | Throw _ => (db1, message 500 "Internal server error")
          | Ok (db2, _) => (db2, {| res_status := 204; res_body := None |})
          end
    end.

(** [POST /api/reports/export], after [authenticateToken]; destructuring
    a body that is [undefined] or [null] throws *)
Definition post_api_reports_export_handler : Handler :=
  fun user db w req =>
    match req_body req with
    | JUndefined | JNull => (db, message 500 "Internal server error")
    | body =>
        let format := getProp body "format" in
        let filters := getProp body "filters" in
        let fields := getProp body "fields" in
        match getConsultaProdData db (tie w) filters (Some 1) (Some 10000) with
        | Throw _ => (db, message 500 "Internal server error")
        | Ok result =>
            match createAuditLog db (audit_uuid w) (now w)
                    {| InsertAuditLog.userId := Some (ru_id user);
                       InsertAuditLog.action := "export";
                       InsertAuditLog.tableName := "consulta_prod";
                       InsertAuditLog.recordId := None;
                       InsertAuditLog.oldValues := None;
                       InsertAuditLog.newValues :=
                         Some (JSON_stringify
                                 (JObj [("format", format);
                                        ("filters", filters);
                                        ("fields", fields);
                                        ("recordCount", JNum (total result))])) |}
            with
            | Throw _ => (db, message 500 "Internal server error")
            | Ok (db1, _) =>
                (db1, json 200
                        (JObj [("success", JBool true);
                               ("message",
                                JStr (String.append "Export in "
                                        (String.append (templateText format)
                                           " format initiated")));
                               ("data",
                                JArr (map reportRowJs (firstn 100 (data result))))]))
            end
        end
    end.

End MoreRoutes.

(* ------------------------------------------------------------------ *)
(** ** The client: [lib/authUtils.ts], the report generator, the data table *)

(** the decimal numeral a template literal makes of an index or a status *)
Definition natText (n : nat) : string :=
  NilEmpty.string_of_uint (Nat.to_uint n).

(** [getAuthHeaders]; [token] is what [localStorage.getItem("token")]
    returns, [None] for [null] *)
Definition getAuthHeaders (token : option string) : JsVal :=
  match token with
  | Some t =>
      if truthy (JStr t)
      then JObj [("Authorization", JStr (String.append "Bearer " t))]
      else JObj []
  | None => JObj []
  end.

(** [isUnauthorizedError], on [error.message]: the two regular
    expressions [/^401: .*/] and [/^403: .*/] test a prefix *)
Definition isUnauthorizedError (message : string) : bool :=
  String.prefix "401: " message || String.prefix "403: " message.

(** the message of the error the query functions throw for a response
    that is not ok: [`${response.status}: ${response.statusText}`] *)
Definition errorMessage (status : Z) (statusText : string) : string :=
  String.append (natText (Z.to_nat status)) (String.append ": " statusText).

Module ReportFilter.
Record t : Type := {
  field : string;
  operator : string;
  value : JsVal;
  logicalOperator : option string
}.
End ReportFilter.

Definition clauseJs (f : ReportFilter.t) : JsVal :=
  JObj [("field", JStr (ReportFilter.field f));
        ("operator", JStr (ReportFilter.operator f));
        ("value", ReportFilter.value f);
        ("logicalOperator",
         match ReportFilter.logicalOperator f with
         | Some s => JStr s
         | None => JUndefined
         end)].

(** [`filter_${index}`] *)
Definition filterKey (index : nat) : string :=
  String.append "filter_" (natText index).

(** the [forEach] of [buildFilterObject], from a given index on *)
Fixpoint forEachFilter (index : nat) (filterList : list ReportFilter.t)
  (filterObj : list (string * JsVal)) : list (string * JsVal) :=
  match filterList with
  | [] => filterObj
  | filter :: rest =>
      forEachFilter (S index) rest
        (if truthy (JStr (ReportFilter.field filter))
            && truthy (ReportFilter.value filter)
         then assignProp (filterKey index) (clauseJs filter) filterObj
         else filterObj)
  end.

Definition buildFilterObject (filterList : list ReportFilter.t) : JsVal :=
  JObj (forEachFilter 0 filterList []).

(** [addFilter]: the new state *)
Definition addFilter (filters : list ReportFilter.t) : list ReportFilter.t :=
  filters ++
  [{| ReportFilter.field := "";
      ReportFilter.operator := "equals";
      ReportFilter.value := JStr "";
      ReportFilter.logicalOperator :=
        if (0 <? length filters)%nat then Some "AND" else None |}].

(** [array.filter((_, i) => keep(i))], from a given index on *)
Fixpoint filterIndex {A} (keep : nat -> bool) (i : nat) (l : list A) : list A :=
  match l with
  | [] => []
  | x :: rest =>
      if keep i then x :: filterIndex keep (S i) rest
      else filterIndex keep (S i) rest
  end.

(** [removeFilter]: the new state and the object given to
    [onFiltersChange] *)
Definition removeFilter (index : nat) (filters : list ReportFilter.t)
  : list ReportFilter.t * JsVal :=
  let newFilters := filterIndex (fun i => negb (i =? index)%nat) 0 filters in
  (newFilters, buildFilterObject newFilters).

(** [handleFieldToggle]: the new selection *)
Definition handleFieldToggle (fieldKey : string) (checked : bool)
  (selectedFields : list string) : list string :=
  if checked then selectedFields ++ [fieldKey]
  else filter (fun f => negb (String.eqb f fieldKey)) selectedFields.

(** the two numbers of "Mostrando a .. b de total" in the data table *)
Definition showingFrom (page limit : Z) : Z := (page - 1) * limit + 1.

Definition showingTo (page limit total : Z) : Z := Z.min (page * limit) total.

(* ------------------------------------------------------------------ *)
(** ** Notions used by the further properties *)

(** the header a request made with [headers: getAuthHeaders()] carries *)
Definition sentAuthorization (headers : JsVal) : option string :=
  match getProp headers "Authorization" with
  | JStr s => Some s
  | _ => None
  end.

(** the characters of a compact JWT: base64url and the dot *)
Definition jwtChar (c : ascii) : bool :=
  let n := nat_of_ascii c in
  ((65 <=? n) && (n <=? 90) || (97 <=? n) && (n <=? 122) || (48 <=? n) && (n <=? 57)
   || (n =? 45) || (n =? 95) || (n =? 46))%nat.

Fixpoint jwtAlphabet (s : string) : bool :=
  match s with
  | EmptyString => true
  | String c rest => jwtChar c && jwtAlphabet rest
  end.

(** a string of decimal digits *)
Fixpoint digitsOnly (s : string) : bool :=
  match s with
  | EmptyString => true
  | String c rest =>
      ((48 <=? nat_of_ascii c) && (nat_of_ascii c <=? 57))%nat && digitsOnly rest
  end.

Definition fits (n : nat) (s : string) : bool := (String.length s <=? n)%nat.

Definition fitsOpt (n : nat) (o : option string) : bool :=
  match o with
  | Some s => fits n s
  | None => true
  end.

(** the widths of the [varchar(n)] columns of [cbo], [prestador] and
    [consulta_prod] *)
Definition widthsHold (db : Db) : bool :=
  forallb (fun c => fits 20 (CBO.codigo c)) (cbo db)
  && forallb (fun p =>
        fits 20 (Prestador.codigo p)
        && fits 255 (Prestador.nomeRazaoSocial p)
        && fits 20 (Prestador.cnpjCpf p)
        && fits 50 (Prestador.tipo p)) (prestador db)
  && forallb (fun r =>
        fitsOpt 255 (ConsultaProd.prdCbo r)
        && fitsOpt 255 (ConsultaProd.prdPrest r)
        && fitsOpt 255 (ConsultaProd.prdProc r)
        && fitsOpt 255 (ConsultaProd.prdRub r)
        && fitsOpt 20 (ConsultaProd.prdCidpri r)) (consultaProd db).

(** the constraints of [shared/schema.ts] the model enforces: primary
    keys, the unique codes of [cbo] and [prestador], the four foreign
    keys of [consulta_prod], and the widths *)
Definition constraintsHold (db : Db) : bool :=
  refKeysUnique db
  && distinct (map ConsultaProd.id (consultaProd db))
  && distinct (map CBO.codigo (cbo db))
  && distinct (map Prestador.codigo (prestador db))
  && forallb (fun r =>
        fkOk (ConsultaProd.prdCbo r) CBO.id (cbo db)
        && fkOk (ConsultaProd.prdPrest r) Prestador.id (prestador db)
        && fkOk (ConsultaProd.prdProc r) Procedimento.id (procedimento db)
        && fkOk (ConsultaProd.prdRub r) SRub.id (sRub db)) (consultaProd db)
  && widthsHold db.

(** a call of a mutating storage method on the reference and fact tables *)
Inductive StorageCall : Type :=
| CallCreateCBO (id : string) (now : Z) (cboData : InsertCBO.t)
| CallUpdateCBO (id : string) (cboData : PartialCBO.t) (now : Z)
| CallDeleteCBO (id : string)
| CallCreatePrestador (id : string) (now : Z) (prestadorData : InsertPrestador.t)
| CallDeletePrestador (id : string)
| CallCreateConsultaProd (id : string) (now : Z) (consultaProdData : InsertConsultaProd.t).

Definition settled {A} (db : Db) (r : Result (Db * A)) : Db :=
  match r with
  | Ok (db', _) => db'
  | Throw _ => db
  end.

Section Calls.
Context {rt : Runtime}.

(** the database after the call, whether it returned or threw *)
Definition afterCall (db : Db) (c : StorageCall) : Db :=
  match c with
  | CallCreateCBO id now d => settled db (createCBO db id now d)
  | CallUpdateCBO id d now => settled db (updateCBO db id d now)
  | CallDeleteCBO id => settled db (deleteCBO db id)
  | CallCreatePrestador id now d => settled db (createPrestador db id now d)
  | CallDeletePrestador id => settled db (deletePrestador db id)
  | CallCreateConsultaProd id now d => settled db (createConsultaProd db id now d)
  end.

Definition afterCalls (db : Db) (cs : list StorageCall) : Db :=
  fold_left afterCall cs db.

(** the rows a list call with this [search] selects *)
Definition cboMatching (db : Db) (search : option string) : list CBO.t :=
  match search with
  | Some s =>
      if String.eqb s "" then cbo db
      else filter (fun c =>
                     pg_like (CBO.codigo c) (String.append "%" (String.append s "%"))
                     || pg_like (CBO.descricao c)
                          (String.append "%" (String.append s "%"))) (cbo db)
  | None => cbo db
  end.

End Calls.

(** some production record names the occupation *)
Definition cboReferenced (db : Db) (id : string) : bool :=
  existsb (fun r => names (ConsultaProd.prdCbo r) id) (consultaProd db).

(** a foreign key is NULL or among the given primary keys *)
Definition refers (fk : option string) (ids : list string) : Prop :=
  forall k, fk = Some k -> In k ids.

(** [constraintsHold] as a proposition *)
Definition Constraints (db : Db) : Prop :=
  NoDup (map CBO.id (cbo db))
  /\ NoDup (map Prestador.id (prestador db))
  /\ NoDup (map Procedimento.id (procedimento db))
  /\ NoDup (map SRub.id (sRub db))
  /\ NoDup (map ConsultaProd.id (consultaProd db))
  /\ NoDup (map CBO.codigo (cbo db))
  /\ NoDup (map Prestador.codigo (prestador db))
  /\ Forall (fun r =>
               refers (ConsultaProd.prdCbo r) (map CBO.id (cbo db))
               /\ refers (ConsultaProd.prdPrest r) (map Prestador.id (prestador db))
               /\ refers (ConsultaProd.prdProc r) (map Procedimento.id (procedimento db))
               /\ refers (ConsultaProd.prdRub r) (map SRub.id (sRub db)))
       (consultaProd db)
  /\ widthsHold db = true.

(** no row sorts strictly before an earlier one *)
Definition sortedBy {A} (gtb : A -> A -> bool) : list A -> Prop :=
  StronglySorted (fun a b => gtb b a = false).

Module Sample2.

Definition ext : RuntimeExt :=
  {| insertCboSchema_partial_parse := fun body =>
       match body with
       | JObj _ =>
           Some {| PartialCBO.codigo := Sample.strOpt (getProp body "codigo");
                   PartialCBO.descricao := Sample.strOpt (getProp body "descricao");
                   PartialCBO.status := Sample.boolOpt (getProp body "status") |}
       | _ => None
       end;
     js_toString := fun _ => "[object Object]" |}.

(** the sample database without the record whose financing key names no
    row *)
Definition db : Db :=
  set_consultaProd Sample.db (firstn 2 (consultaProd Sample.db)).

Definition hospital : InsertPrestador.t :=
  {| InsertPrestador.codigo := "003"; InsertPrestador.nomeRazaoSocial := "Dr. Joao Silva";
     InsertPrestador.cnpjCpf := "123.456.789-01"; InsertPrestador.tipo := "pessoa_fisica";
     InsertPrestador.status := None |}.

Definition visita (prest : string) : InsertConsultaProd.t :=
  {| InsertConsultaProd.prdDtcomp := Sample.jan01;
     InsertConsultaProd.prdDtreal := Sample.jan01;
     InsertConsultaProd.prdCbo := None;
     InsertConsultaProd.prdPrest := Some prest;
     InsertConsultaProd.prdProc := Some "x-1";
     InsertConsultaProd.prdQtd := 1;
     InsertConsultaProd.prdVlP := "10.00";
     InsertConsultaProd.prdRub := None;
     InsertConsultaProd.prdCidpri := None |}.

Definition clause (field : string) (value : JsVal) (lo : option string)
  : ReportFilter.t :=
  {| ReportFilter.field := field; ReportFilter.operator := "equals";
     ReportFilter.value := value; ReportFilter.logicalOperator := lo |}.

(** three clauses, the second one still without a value *)
Definition clauses : list ReportFilter.t :=
  [clause "prdQtd" (JStr "2") None;
   clause "prdPrest" (JStr "") (Some "AND");
   clause "prdDtcomp" (JArr [JStr "2024-01-01"; JStr "2024-12-31"]) (Some "OR")].

Definition enfermeiro : InsertCBO.t :=
  {| InsertCBO.codigo := "223505"; InsertCBO.descricao := "Enfermeiro";
     InsertCBO.status := None |}.

Definition ana : InsertUser.t :=
  {| InsertUser.username := "ana"; InsertUser.password := "segredo";
     InsertUser.email := None; InsertUser.firstName := None;
     InsertUser.lastName := None; InsertUser.role := None;
     InsertUser.active := None |}.

Definition enfermeiroRow : CBO.t :=
  {| CBO.id := "c-2"; CBO.codigo := "223505"; CBO.descricao := "Enfermeiro";
     CBO.status := true; CBO.createdAt := Some Sample.dec31;
     CBO.updatedAt := Some Sample.dec31 |}.

(** two occupations, the older one first *)
Definition db2 : Db := set_cbo db [Sample.medico; enfermeiroRow].

(** the selection the report generator starts with *)
Definition initialFields : list string := ["prdDtcomp"; "prdPrest"; "prdProc"; "prdVlP"].

(** a caller whose account is no longer in [users] *)
Definition removed : ReqUser :=
  {| ru_id := "u-9"; ru_username := "pedro"; ru_role := "operator" |}.

Definition echo : Handler :=
  fun user db w req => (db, message 200 (ru_username user)).

(** the body of an export request *)
Definition exportBody (filters : JsVal) : JsVal :=
  JObj [("format", JStr "csv"); ("filters", filters);
        ("fields", JArr [JStr "prdDtcomp"; JStr "prdVlP"])].

Definition renamed : PartialCBO.t :=
  {| PartialCBO.codigo := None; PartialCBO.descricao := Some "Medico";
     PartialCBO.status := Some false |}.

Definition recoded (codigo : string) : PartialCBO.t :=
  {| PartialCBO.codigo := Some codigo; PartialCBO.descricao := None;
     PartialCBO.status := None |}.

End Sample2.

(* ================================================================== *)
(** * Properties *)

(** ** Lists: ordering, slices, joins *)

Section SortFacts.
Variables A B : Type.

Lemma insertDesc_perm (gtb : A -> A -> bool) (x : A) (l : list A) :
  Permutation (insertDesc gtb x l) (x :: l).
Proof.
  induction l as [|y t IH]; simpl.
  - apply Permutation_refl.
  - destruct (gtb y x).
    + eapply perm_trans; [apply perm_skip, IH | apply perm_swap].
    + apply Permutation_refl.
Qed.

Lemma sortStable_perm (gtb : A -> A -> bool) (l : list A) :
  Permutation (sortStable gtb l) l.
Proof.
  induction l as [|x t IH]; simpl.
  - constructor.
  - eapply perm_trans; [apply insertDesc_perm | apply perm_skip, IH].
Qed.

Lemma insertDesc_descending (key : A -> Z) (x : A) (l : list A) :
  descending key l ->
  descending key (insertDesc (fun a b => key b <? key a) x l).
Proof.
  unfold descending.
  induction 1 as [|y t St IH Fa]; simpl.
  - constructor; constructor.
  - destruct (key x <? key y) eqn:E.
    + apply Z.ltb_lt in E. constructor; [exact IH|].
      eapply Permutation_Forall; [apply Permutation_sym, insertDesc_perm|].
      constructor; [lia | exact Fa].
    + apply Z.ltb_ge in E. constructor.
      * constructor; assumption.
      * constructor; [exact E|].
        eapply Forall_impl; [|exact Fa]. simpl. intros; lia.
Qed.

Lemma sortStable_descending (key : A -> Z) (l : list A) :
  descending key (sortStable (fun a b => key b <? key a) l).
Proof.
  induction l as [|x t IH]; simpl.
  - constructor.
  - apply insertDesc_descending, IH.
Qed.

Lemma sortStable_map (f : A -> B) (gtbA : A -> A -> bool) (gtbB : B -> B -> bool)
  (l : list A) :
  (forall a b, gtbB (f a) (f b) = gtbA a b) ->
  sortStable gtbB (map f l) = map f (sortStable gtbA l).
Proof.
  intros H. induction l as [|x t IH]; simpl; [reflexivity|].
  rewrite IH. generalize (sortStable gtbA t) as s.
  induction s as [|y s IHs]; simpl; [reflexivity|].
  rewrite H. destruct (gtbA y x); simpl; [rewrite IHs|]; reflexivity.
Qed.

Lemma indexed_map (f : A -> B) (i : nat) (l : list A) :
  indexed i (map f l) = map (fun p => (fst p, f (snd p))) (indexed i l).
Proof.
  revert i. induction l as [|x t IH]; intros i; simpl; [reflexivity|].
  rewrite IH. reflexivity.
Qed.

Lemma indexed_snd (i : nat) (l : list A) : map snd (indexed i l) = l.
Proof.
  revert i. induction l as [|x t IH]; intros i; simpl; [reflexivity|].
  rewrite IH. reflexivity.
Qed.

End SortFacts.

Section ListFacts.
Variables A B : Type.

Lemma arrange_perm (tie : nat -> nat) (l : list A) : Permutation (arrange tie l) l.
Proof.
  unfold arrange. rewrite <- (indexed_snd 0 l) at 2.
  apply Permutation_map, sortStable_perm.
Qed.

Lemma arrange_map (f : A -> B) (tie : nat -> nat) (l : list A) :
  arrange tie (map f l) = map f (arrange tie l).
Proof.
  unfold arrange. rewrite indexed_map.
  rewrite (sortStable_map (fun p : nat * A => (fst p, f (snd p)))
             (fun a b => (tie (fst a) <? tie (fst b))%nat)
             (fun a b => (tie (fst a) <? tie (fst b))%nat)) by reflexivity.
  rewrite !map_map. reflexivity.
Qed.

(** an execution orders a permutation of the rows *)
Lemma orderByDesc_perm (gtb : A -> A -> bool) (tie : nat -> nat) (l : list A) :
  Permutation (orderByDesc gtb tie l) l.
Proof.
  unfold orderByDesc.
  eapply perm_trans; [apply sortStable_perm | apply arrange_perm].
Qed.

Lemma orderByDesc_length (gtb : A -> A -> bool) (tie : nat -> nat) (l : list A) :
  length (orderByDesc gtb tie l) = length l.
Proof. apply Permutation_length, orderByDesc_perm. Qed.

Lemma orderByDesc_In (gtb : A -> A -> bool) (tie : nat -> nat) (l : list A) (x : A) :
  In x l <-> In x (orderByDesc gtb tie l).
Proof.
  split; apply Permutation_in;
    [apply Permutation_sym|]; apply orderByDesc_perm.
Qed.

Lemma orderByDesc_descending (key : A -> Z) (tie : nat -> nat) (l : list A) :
  descending key (orderByDesc (fun a b => key b <? key a) tie l).
Proof. apply sortStable_descending. Qed.

Lemma orderByDesc_map (f : A -> B) (gtbA : A -> A -> bool) (gtbB : B -> B -> bool)
  (tie : nat -> nat) (l : list A) :
  (forall a b, gtbB (f a) (f b) = gtbA a b) ->
  orderByDesc gtbB tie (map f l) = map f (orderByDesc gtbA tie l).
Proof.
  intros H. unfold orderByDesc. rewrite arrange_map.
  apply sortStable_map, H.
Qed.

(** two descending orderings of the same rows agree when no two rows
    share a key *)
Lemma descending_unique (key : A -> Z) (l1 l2 : list A) :
  NoDup (map key l1) ->
  descending key l1 -> descending key l2 -> Permutation l1 l2 -> l1 = l2.
Proof.
  unfold descending. revert l2.
  induction l1 as [|a t1 IH]; intros l2 N S1 S2 P.
  - apply Permutation_nil in P. symmetry. exact P.
  - destruct l2 as [|b t2].
    + apply Permutation_sym, Permutation_nil in P. discriminate P.
    + inversion S1 as [|? ? S1' F1]; subst. inversion S2 as [|? ? S2' F2]; subst.
      inversion N as [|? ? Na Nt]; subst.
      assert (E : a = b).
      { assert (Ha : In a (b :: t2))
          by (eapply Permutation_in; [exact P | left; reflexivity]).
        assert (Hb : In b (a :: t1))
          by (eapply Permutation_in; [apply Permutation_sym, P | left; reflexivity]).
        destruct Ha as [Ha|Ha]; [symmetry; exact Ha|].
        destruct Hb as [Hb|Hb]; [exact Hb|].
        exfalso. apply Na.
        rewrite Forall_forall in F1, F2.
        specialize (F1 b Hb). specialize (F2 a Ha). simpl in F1, F2.
        assert (K : key b = key a) by lia.
        rewrite <- K. apply in_map, Hb. }
      subst b. f_equal.
      apply IH; try assumption.
      eapply Permutation_cons_inv. exact P.
Qed.

Lemma orderByDesc_unique (key : A -> Z) (tie tie' : nat -> nat) (l : list A) :
  NoDup (map key l) ->
  orderByDesc (fun a b => key b <? key a) tie l
  = orderByDesc (fun a b => key b <? key a) tie' l.
Proof.
  intros N. apply (@descending_unique key).
  - eapply Permutation_NoDup; [|exact N].
    apply Permutation_map, Permutation_sym, orderByDesc_perm.
  - apply orderByDesc_descending.
  - apply orderByDesc_descending.
  - eapply perm_trans; [apply orderByDesc_perm|].
    apply Permutation_sym, orderByDesc_perm.
Qed.

Lemma filter_map_comm (f : A -> B) (p : B -> bool) (l : list A) :
  filter p (map f l) = map f (filter (fun a => p (f a)) l).
Proof.
  induction l as [|x t IH]; simpl; [reflexivity|].
  destruct (p (f x)); simpl; rewrite IH; reflexivity.
Qed.

Lemma find_hd_filter (p : A -> bool) (l : list A) :
  find p l = hd_error (filter p l).
Proof.
  induction l as [|x t IH]; simpl; [reflexivity|].
  destruct (p x); simpl; [reflexivity | exact IH].
Qed.

(** a slice that starts at or after the end is empty *)
Lemma slice_beyond (lo hi : nat) (l : list A) :
  (length l <= lo)%nat -> slice lo hi l = [].
Proof.
  intros H. unfold slice. rewrite skipn_all2 by exact H. apply firstn_nil.
Qed.

(** the slice holds exactly the elements at the indices lo .. hi-1 *)
Lemma slice_nth_error (lo hi i : nat) (l : list A) :
  nth_error (slice lo hi l) i =
  if (lo + i <? hi)%nat then nth_error l (lo + i) else None.
Proof.
  unfold slice. destruct (lo + i <? hi)%nat eqn:E.
  - apply Nat.ltb_lt in E.
    rewrite nth_error_firstn.
    replace (i <? hi - lo)%nat with true by (symmetry; apply Nat.ltb_lt; lia).
    apply nth_error_skipn.
  - apply Nat.ltb_ge in E.
    apply nth_error_None. rewrite length_firstn. lia.
Qed.

End ListFacts.

Section JoinFacts.
Variables L R : Type.

(** a left join drops no left row, and pairs a row without a partner with
    NULL *)
Lemma leftJoin_keeps (on : L -> R -> bool) (ls : list L) (rs : list R) (l : L) :
  In l ls ->
  exists o, In (l, o) (leftJoin on ls rs)
            /\ (existsb (on l) rs = false -> o = None)
            /\ (forall x, o = Some x -> In x rs /\ on l x = true).
Proof.
  intros Hin. unfold leftJoin.
  destruct (filter (on l) rs) as [|m ms] eqn:F.
  - exists None. split; [|split].
    + apply in_flat_map. exists l. split; [exact Hin|]. rewrite F. left; reflexivity.
    + reflexivity.
    + discriminate.
  - exists (Some m). split; [|split].
    + apply in_flat_map. exists l. split; [exact Hin|]. rewrite F. left; reflexivity.
    + intros E. assert (Hm : In m (filter (on l) rs)) by (rewrite F; left; reflexivity).
      apply filter_In in Hm. destruct Hm as [Hm1 Hm2].
      assert (X : existsb (on l) rs = true) by (apply existsb_exists; eauto).
      congruence.
    + intros x Hx. injection Hx as <-.
      assert (Hm : In m (filter (on l) rs)) by (rewrite F; left; reflexivity).
      apply filter_In in Hm. exact Hm.
Qed.

(** when no left row has two partners, the join is a lookup *)
Lemma leftJoin_lookup (on : L -> R -> bool) (ls : list L) (rs : list R) :
  (forall l, In l ls -> (length (filter (on l) rs) <= 1)%nat) ->
  leftJoin on ls rs = map (fun l => (l, find (on l) rs)) ls.
Proof.
  unfold leftJoin. induction ls as [|l t IH]; intros H; [reflexivity|].
  cbn [flat_map].
  rewrite IH by (intros; apply H; right; assumption).
  cbn [map]. rewrite find_hd_filter.
  specialize (H l (or_introl eq_refl)).
  destruct (filter (on l) rs) as [|m [|m' ms]]; simpl in *; try reflexivity; lia.
Qed.

Lemma distinct_one_partner (key : R -> string) (rs : list R) (fk : option string) :
  distinct (map key rs) = true ->
  (length (filter (fun x => fkEq fk (key x)) rs) <= 1)%nat.
Proof.
  destruct fk as [k|]; simpl.
  2:{ intros _. induction rs; simpl; auto. }
  induction rs as [|x t IH]; simpl; intros D; [lia|].
  apply andb_true_iff in D. destruct D as [D1 D2].
  destruct (String.eqb k (key x)) eqn:E; simpl.
  - apply String.eqb_eq in E. subst k.
    assert (Z0 : filter (fun x0 => String.eqb (key x) (key x0)) t = []).
    { clear IH D2. apply negb_true_iff in D1.
      induction t as [|y t IHt]; simpl in *; [reflexivity|].
      apply orb_false_iff in D1. destruct D1 as [D1a D1b].
      rewrite D1a. apply IHt, D1b. }
    rewrite Z0. simpl. lia.
  - apply IH, D2.
Qed.

End JoinFacts.

(* ------------------------------------------------------------------ *)
(** ** The report filter *)

Lemma lookupProp_assignProp_other (k k' : string) (v : JsVal)
  (props : list (string * JsVal)) :
  k <> k' -> lookupProp k' (assignProp k v props) = lookupProp k' props.
Proof.
  intros N. induction props as [|[k0 v0] rest IH]; simpl.
  - destruct (String.eqb k' k) eqn:E; [|reflexivity].
    apply String.eqb_eq in E. congruence.
  - destruct (String.eqb k k0) eqn:E; simpl.
    + apply String.eqb_eq in E. subst k0.
      destruct (String.eqb k' k) eqn:E'; [|reflexivity].
      apply String.eqb_eq in E'. congruence.
    + rewrite IH. reflexivity.
Qed.

Lemma getProp_setProp_other (k k' : string) (v filters : JsVal) :
  k <> k' -> getProp (setProp k v filters) k' = getProp filters k'.
Proof.
  intros N. destruct filters; simpl; try reflexivity.
  apply lookupProp_assignProp_other, N.
Qed.

Lemma truthy_setProp (k : string) (v filters : JsVal) :
  truthy (setProp k v filters) = truthy filters.
Proof. destruct filters; reflexivity. Qed.

Lemma falsy_no_props (filters : JsVal) (k : string) :
  truthy filters = false -> getProp filters k = JUndefined.
Proof. destruct filters; simpl; try reflexivity; discriminate. Qed.

Section FilterFacts.
Context {rt : Runtime}.

(** the list the four pushes build, key by key *)
Lemma whereConditions_normal (filters : JsVal) :
  whereConditions filters =
    (if present filters "dateFrom"
     then [gte_prdDtcomp (newDate (getProp filters "dateFrom"))] else [])
    ++ (if present filters "dateTo"
        then [lte_prdDtcomp (newDate (getProp filters "dateTo"))] else [])
    ++ (if present filters "prestador"
        then [eq_prdPrest (getProp filters "prestador")] else [])
    ++ (if present filters "procedimento"
        then [eq_prdProc (getProp filters "procedimento")] else []).
Proof.
  unfold whereConditions, present, push.
  destruct (truthy filters) eqn:T.
  - destruct (truthy (getProp filters "dateFrom")),
             (truthy (getProp filters "dateTo")),
             (truthy (getProp filters "prestador")),
             (truthy (getProp filters "procedimento")); reflexivity.
  - rewrite !(falsy_no_props _ _ T). reflexivity.
Qed.

(** the comparison with a bound parameter is the equality of the
    specification *)
Lemma fkEq_paramText (fk : option string) (v : JsVal) :
  fkEq fk (paramText v) = keyIs fk v.
Proof. destruct fk, v; reflexivity. Qed.

Lemma bindWhere_spec (filters : JsVal) :
  datesWellFormed filters = true ->
  exists p, bindWhere (whereCondition filters) = Ok p
            /\ forall row, p row = specPredicate filters row.
Proof.
  unfold whereCondition, datesWellFormed, specPredicate.
  rewrite whereConditions_normal.
  destruct (present filters "dateFrom"), (present filters "dateTo"),
           (present filters "prestador"), (present filters "procedimento");
    destruct (newDate (getProp filters "dateFrom")),
             (newDate (getProp filters "dateTo"));
    simpl; intros W; try discriminate W;
    (eexists; split; [reflexivity|]);
    intros row; simpl; rewrite ?fkEq_paramText, ?andb_true_r, ?andb_assoc;
    reflexivity.
Qed.

(** a date that is present and does not parse makes the statement throw
    when its parameters are bound, whatever else the filter holds *)
Lemma bindWhere_invalid_date (filters : JsVal) :
  datesWellFormed filters = false ->
  bindWhere (whereCondition filters) = Throw (RangeError "Invalid time value").
Proof.
  unfold whereCondition, datesWellFormed.
  rewrite whereConditions_normal.
  destruct (present filters "dateFrom"), (present filters "dateTo"),
           (present filters "prestador"), (present filters "procedimento");
    destruct (newDate (getProp filters "dateFrom")),
             (newDate (getProp filters "dateTo"));
    simpl; intros W; try discriminate W; reflexivity.
Qed.

Lemma whereCondition_other_key (k : string) (v filters : JsVal) :
  ~ In k recognizedKeys ->
  whereCondition (setProp k v filters) = whereCondition filters.
Proof.
  intros N. unfold whereCondition, whereConditions.
  rewrite truthy_setProp.
  rewrite !getProp_setProp_other; [reflexivity| | | |];
    intros ->; apply N; simpl; auto.
Qed.

Lemma whereCondition_no_key (filters : JsVal) :
  forallb (fun k => negb (present filters k)) recognizedKeys = true ->
  whereCondition filters = None.
Proof.
  unfold whereCondition. rewrite whereConditions_normal. simpl.
  rewrite !andb_true_iff, !negb_true_iff.
  intros (-> & -> & -> & -> & _). reflexivity.
Qed.

(** C1.  The predicate compiled from a filters object is the logical AND
    of one predicate per recognized key that is present and non-empty (for
    a string value: not the empty string):
    competence date >= dateFrom, competence date <= dateTo, provider
    foreign key = prestador, procedure foreign key = procedimento.  Every
    other key, a [filter_N] clause object included, contributes nothing,
    and without any of the four keys there is no WHERE clause: the
    predicate holds of every production record. *)
Theorem filter_compiles_to_conjunction (filters : JsVal) :
  (forall k s, getProp filters k = JStr s ->
     present filters k = negb (String.eqb s ""))
  /\ (datesWellFormed filters = true ->
   exists p, bindWhere (whereCondition filters) = Ok p
             /\ forall row, p row = specPredicate filters row)
  /\ (forall k v, ~ In k recognizedKeys ->
        whereCondition (setProp k v filters) = whereCondition filters)
  /\ (forallb (fun k => negb (present filters k)) recognizedKeys = true ->
      whereCondition filters = None
      /\ exists p, bindWhere (whereCondition filters) = Ok p
                   /\ forall row, p row = true).
Proof.
  split; [intros k s E; unfold present; rewrite E; reflexivity|].
  split; [apply bindWhere_spec|]. split.
  - intros k v N. apply whereCondition_other_key, N.
  - intros H. rewrite (whereCondition_no_key _ H). split; [reflexivity|].
    exists (fun _ => true). split; reflexivity.
Qed.

End FilterFacts.

(* ------------------------------------------------------------------ *)
(** ** The report query *)

Lemma fromJoined_lookup (db : Db) :
  refKeysUnique db = true -> fromJoined db = map (joinOne db) (consultaProd db).
Proof.
  unfold refKeysUnique. rewrite !andb_true_iff. intros [[[U1 U2] U3] U4].
  unfold fromJoined.
  rewrite (leftJoin_lookup _ (consultaProd db) (cbo db)).
  2:{ intros l _. apply (distinct_one_partner CBO.id _ (ConsultaProd.prdCbo l) U1). }
  rewrite (leftJoin_lookup _ _ (prestador db)).
  2:{ intros l _.
      apply (distinct_one_partner Prestador.id _ (ConsultaProd.prdPrest (fst l)) U2). }
  rewrite (leftJoin_lookup _ _ (procedimento db)).
  2:{ intros l _.
      apply (distinct_one_partner Procedimento.id _
               (ConsultaProd.prdProc (fst (fst l))) U3). }
  rewrite (leftJoin_lookup _ _ (sRub db)).
  2:{ intros l _.
      apply (distinct_one_partner SRub.id _
               (ConsultaProd.prdRub (fst (fst (fst l)))) U4). }
  rewrite !map_map. reflexivity.
Qed.

(** a primary key finds its row *)
Lemma find_by_key (R : Type) (key : R -> string) (rows : list R) (x : R) :
  distinct (map key rows) = true -> In x rows ->
  find (fun y => names (Some (key x)) (key y)) rows = Some x.
Proof.
  induction rows as [|y t IH]; simpl; intros D Hin; [destruct Hin|].
  apply andb_true_iff in D. destruct D as [D1 D2].
  destruct Hin as [->|Hin].
  - rewrite String.eqb_refl. reflexivity.
  - destruct (String.eqb (key x) (key y)) eqn:E; [|apply IH; assumption].
    exfalso. apply String.eqb_eq in E. apply negb_true_iff in D1.
    assert (X : existsb (String.eqb (key y)) (map key t) = true).
    { apply existsb_exists. exists (key x). split; [apply in_map, Hin|].
      apply String.eqb_eq. symmetry. exact E. }
    congruence.
Qed.

Lemma find_unmatched (R : Type) (key : R -> string) (rows : list R)
  (fk : option string) :
  find (fun y => names fk (key y)) rows = None <-> unmatched fk key rows = true.
Proof.
  unfold unmatched. rewrite negb_true_iff. split.
  - intros F. apply not_true_is_false. intros E.
    apply existsb_exists in E. destruct E as (x & Hx & Hk).
    apply (find_none _ _ F) in Hx. congruence.
  - intros E. destruct (find _ rows) as [x|] eqn:F; [|reflexivity].
    apply find_some in F. destruct F as [Hx Hk].
    assert (X : existsb (fun x0 => names fk (key x0)) rows = true)
      by (apply existsb_exists; eauto).
    congruence.
Qed.

(** ** Page numbers *)

Lemma maxSafe_value : maxSafe = 9007199254740991.
Proof. reflexivity. Qed.

Lemma toDouble_safe (n : Z) : Z.abs n <= maxSafe -> toDouble n = n.
Proof.
  intros H. unfold toDouble.
  replace (Z.abs n <=? maxSafe) with true by (symmetry; apply Z.leb_le; exact H).
  reflexivity.
Qed.

Lemma pgBigint_safe (n : Z) : Z.abs n <= maxSafe -> pgBigint n = Ok n.
Proof.
  rewrite maxSafe_value. intros H. unfold pgBigint.
  change (10 ^ 21) with 1000000000000000000000.
  change (2 ^ 63) with 9223372036854775808.
  replace (1000000000000000000000 <=? Z.abs n) with false
    by (symmetry; apply Z.leb_gt; lia).
  replace (n <? - (9223372036854775808)) with false
    by (symmetry; apply Z.ltb_ge; lia).
  replace (9223372036854775808 <=? n) with false by (symmetry; apply Z.leb_gt; lia).
  reflexivity.
Qed.

(** within the safe integers the offset is exact and the two clauses
    cut the slice of the page *)
Lemma limitOffset_page (A : Type) (page limit : Z) (rows : list A) :
  1 <= page -> 0 < limit -> page * limit <= maxSafe ->
  limitOffset limit (toDouble (toDouble (page - 1) * limit)) rows
  = Ok (slice (Z.to_nat ((page - 1) * limit)) (Z.to_nat (page * limit)) rows).
Proof.
  intros Hp Hl Hs.
  assert (H1 : Z.abs (page - 1) <= maxSafe) by nia.
  assert (H2 : Z.abs ((page - 1) * limit) <= maxSafe) by nia.
  assert (H3 : Z.abs limit <= maxSafe) by nia.
  rewrite (toDouble_safe _ H1), (toDouble_safe _ H2).
  unfold limitOffset, slice.
  replace (0 <=? limit) with true by (symmetry; apply Z.leb_le; lia).
  rewrite (pgBigint_safe _ H3). cbn [bind].
  replace (Z.to_nat (page * limit) - Z.to_nat ((page - 1) * limit))%nat
    with (Z.to_nat limit) by nia.
  cbn [truthy]. destruct ((page - 1) * limit =? 0) eqn:E; cbn [negb bind].
  - apply Z.eqb_eq in E. rewrite E. reflexivity.
  - rewrite (pgBigint_safe _ H2). cbn [bind].
    replace ((page - 1) * limit <? 0) with false by (symmetry; apply Z.ltb_ge; nia).
    reflexivity.
Qed.

(** a number from 2^63 on is refused as a LIMIT and as an OFFSET *)
Lemma pgBigint_large (n : Z) : 2 ^ 63 <= n -> exists e, pgBigint n = Throw e.
Proof.
  intros H. unfold pgBigint.
  destruct (10 ^ 21 <=? Z.abs n); [eexists; reflexivity|].
  replace (2 ^ 63 <=? n) with true by (symmetry; apply Z.leb_le; exact H).
  rewrite orb_true_r. eexists; reflexivity.
Qed.

Section ReportFacts.
Context {rt : Runtime}.

Lemma getConsultaProdData_page (db : Db) (tie : nat -> nat) (filters : JsVal)
  (page limit : Z) :
  refKeysUnique db = true ->
  datesWellFormed filters = true ->
  1 <= page -> 0 < limit -> page * limit <= maxSafe ->
  getConsultaProdData db tie filters (Some page) (Some limit) =
    Ok {| data := map (reportOf db)
                    (slice (Z.to_nat ((page - 1) * limit)) (Z.to_nat (page * limit))
                       (reportOrder tie filters db));
          total := Z.of_nat (length (matching filters db)) |}.
Proof.
  intros U W Hp Hl Hs.
  destruct (bindWhere_spec filters W) as [p [Hb Hsp]].
  unfold getConsultaProdData, countBy. cbn [default].
  rewrite Hb. cbn [bind].
  rewrite (limitOffset_page _ Hp Hl Hs). cbn [bind].
  rewrite (fromJoined_lookup db U).
  rewrite filter_map_comm.
  rewrite (filter_ext (fun a => p (base (joinOne db a))) (specPredicate filters))
    by (intros a; apply Hsp).
  rewrite (filter_ext p (specPredicate filters)) by exact Hsp.
  rewrite (orderByDesc_map (joinOne db)
             (fun a b => ConsultaProd.prdDtcomp b <? ConsultaProd.prdDtcomp a)
             dtcompGtb) by reflexivity.
  unfold slice. rewrite skipn_map, firstn_map, map_map.
  reflexivity.
Qed.

(** a page whose offset does not fit a [bigint] is refused *)
Lemma getConsultaProdData_overflow (db : Db) (tie : nat -> nat) (filters : JsVal)
  (page limit : Z) :
  2 ^ 63 <= toDouble (toDouble (page - 1) * limit) ->
  exists e, getConsultaProdData db tie filters (Some page) (Some limit) = Throw e.
Proof.
  intros H. unfold getConsultaProdData. cbn [default].
  destruct (bindWhere (whereCondition filters)) as [p|e]; [|eexists; reflexivity].
  cbn [bind]. unfold limitOffset.
  destruct (0 <=? limit).
  - destruct (pgBigint limit) as [n|e]; [|eexists; reflexivity]. cbn [bind].
    replace (truthy (JNum (toDouble (toDouble (page - 1) * limit)))) with true
      by (symmetry; cbn [truthy]; apply negb_true_iff, Z.eqb_neq;
          assert (0 < 2 ^ 63) by reflexivity; lia).
    destruct (pgBigint_large H) as [e E]. rewrite E. eexists; reflexivity.
  - cbn [bind].
    replace (truthy (JNum (toDouble (toDouble (page - 1) * limit)))) with true
      by (symmetry; cbn [truthy]; apply negb_true_iff, Z.eqb_neq;
          assert (0 < 2 ^ 63) by reflexivity; lia).
    destruct (pgBigint_large H) as [e E]. rewrite E. eexists; reflexivity.
Qed.

(** C2, as the code has it.  For page >= 1 and limit > 0 with
    page * limit a safe integer, one execution of the query returns the
    matching production records in an order that is descending in the
    competence date, sliced to the half-open index range
    [(page-1)*limit, page*limit), with the number of all matching records
    as total; a page that starts at or after the last matching record has
    an empty data array and the same total.  The order of records with
    equal competence dates is that of the execution; when no two matching
    records share a competence date, every execution and every page slice
    the same ordering.  An offset (page-1)*limit that, as a double, is 2^63
    or more is refused by the database: the query throws. *)
Theorem report_page_is_slice_of_ordered_matches
  (db : Db) (tie : nat -> nat) (filters : JsVal) (page limit : Z) :
  (refKeysUnique db = true ->
   datesWellFormed filters = true ->
   1 <= page -> 0 < limit -> page * limit <= maxSafe ->
   exists (sorted : list ConsultaProd.t) (count : Z),
     Permutation sorted (matching filters db)
     /\ descending ConsultaProd.prdDtcomp sorted
     /\ count = Z.of_nat (length (matching filters db))
     /\ getConsultaProdData db tie filters (Some page) (Some limit) =
          Ok {| data := map (reportOf db)
                          (slice (Z.to_nat ((page - 1) * limit))
                                 (Z.to_nat (page * limit)) sorted);
                total := count |}
     /\ (count <= (page - 1) * limit ->
         getConsultaProdData db tie filters (Some page) (Some limit) =
           Ok {| data := []; total := count |})
     /\ (NoDup (map ConsultaProd.prdDtcomp (matching filters db)) ->
         forall tie' page', 1 <= page' -> page' * limit <= maxSafe ->
           getConsultaProdData db tie' filters (Some page') (Some limit) =
             Ok {| data := map (reportOf db)
                             (slice (Z.to_nat ((page' - 1) * limit))
                                    (Z.to_nat (page' * limit)) sorted);
                   total := count |}))
  /\ (2 ^ 63 <= toDouble (toDouble (page - 1) * limit) ->
      exists e, getConsultaProdData db tie filters (Some page) (Some limit) = Throw e).
Proof.
  split; [|apply getConsultaProdData_overflow].
  intros U W Hp Hl Hs.
  exists (reportOrder tie filters db), (Z.of_nat (length (matching filters db))).
  split; [apply orderByDesc_perm|].
  split; [apply orderByDesc_descending|].
  split; [reflexivity|].
  split; [apply getConsultaProdData_page; assumption|].
  split.
  - intros Hc. rewrite getConsultaProdData_page by assumption.
    rewrite slice_beyond; [reflexivity|].
    unfold reportOrder. rewrite orderByDesc_length. lia.
  - intros N tie' page' Hp' Hs'.
    rewrite getConsultaProdData_page by assumption.
    unfold reportOrder.
    rewrite (orderByDesc_unique ConsultaProd.prdDtcomp tie' tie _ N).
    reflexivity.
Qed.

(** C3.  The four joins are left joins.  Whatever the foreign keys of the
    matching production records are, one execution of the query orders
    all of them, returns the rows of those in the index range of the
    page and counts all of them in total: a matching record is returned
    when its position is in the range, and always when the limit covers
    the result.  Its row carries its own columns; a nested object is null
    exactly when the foreign key is NULL or names no row, and holds the
    id, code and description (name) of the referenced row otherwise. *)
Theorem matching_record_is_reported
  (db : Db) (tie : nat -> nat) (filters : JsVal) (page limit : Z) (r : ConsultaProd.t) :
  refKeysUnique db = true ->
  datesWellFormed filters = true ->
  1 <= page -> 0 < limit -> page * limit <= maxSafe ->
  In r (consultaProd db) ->
  specPredicate filters r = true ->
  exists (sorted : list ConsultaProd.t) (res : Page ReportRow.t),
    getConsultaProdData db tie filters (Some page) (Some limit) = Ok res
    /\ Permutation sorted (matching filters db)
    /\ In r sorted
    /\ data res = map (reportOf db)
                    (slice (Z.to_nat ((page - 1) * limit)) (Z.to_nat (page * limit))
                       sorted)
    /\ total res = Z.of_nat (length sorted)
    /\ 1 <= total res
    /\ (forall i, nth_error sorted i = Some r ->
          (page - 1) * limit <= Z.of_nat i < page * limit ->
          In (reportOf db r) (data res))
    /\ (page = 1 -> total res <= limit -> In (reportOf db r) (data res))
    /\ represents (reportOf db r) r
    /\ (ReportRow.cbo (reportOf db r) = None
        <-> unmatched (ConsultaProd.prdCbo r) CBO.id (cbo db) = true)
    /\ (ReportRow.prestador (reportOf db r) = None
        <-> unmatched (ConsultaProd.prdPrest r) Prestador.id (prestador db) = true)
    /\ (ReportRow.procedimento (reportOf db r) = None
        <-> unmatched (ConsultaProd.prdProc r) Procedimento.id (procedimento db) = true)
    /\ (ReportRow.sRub (reportOf db r) = None
        <-> unmatched (ConsultaProd.prdRub r) SRub.id (sRub db) = true)
    /\ (forall c, In c (cbo db) -> ConsultaProd.prdCbo r = Some (CBO.id c) ->
          ReportRow.cbo (reportOf db r)
          = Some {| RefDescricao.id := CBO.id c;
                    RefDescricao.codigo := CBO.codigo c;
                    RefDescricao.descricao := CBO.descricao c |})
    /\ (forall p, In p (prestador db) -> ConsultaProd.prdPrest r = Some (Prestador.id p) ->
          ReportRow.prestador (reportOf db r)
          = Some {| RefPrestador.id := Prestador.id p;
                    RefPrestador.codigo := Prestador.codigo p;
                    RefPrestador.nomeRazaoSocial := Prestador.nomeRazaoSocial p |})
    /\ (forall pr, In pr (procedimento db) ->
          ConsultaProd.prdProc r = Some (Procedimento.id pr) ->
          ReportRow.procedimento (reportOf db r)
          = Some {| RefDescricao.id := Procedimento.id pr;
                    RefDescricao.codigo := Procedimento.codigo pr;
                    RefDescricao.descricao := Procedimento.descricao pr |})
    /\ (forall f, In f (sRub db) -> ConsultaProd.prdRub r = Some (SRub.id f) ->
          ReportRow.sRub (reportOf db r)
          = Some {| RefDescricao.id := SRub.id f;
                    RefDescricao.codigo := SRub.codigo f;
                    RefDescricao.descricao := SRub.descricao f |}).
Proof.
  intros U W Hp Hl Hs Hin Hm.
  pose proof U as U'. unfold refKeysUnique in U'.
  rewrite !andb_true_iff in U'. destruct U' as [[[U1 U2] U3] U4].
  assert (Hr : In r (matching filters db)).
  { unfold matching. apply filter_In. split; assumption. }
  assert (Hr' : In r (reportOrder tie filters db)).
  { unfold reportOrder. apply orderByDesc_In. exact Hr. }
  assert (Hlen : length (reportOrder tie filters db) = length (matching filters db)).
  { unfold reportOrder. apply orderByDesc_length. }
  exists (reportOrder tie filters db). eexists.
  split; [apply getConsultaProdData_page; assumption|].
  cbn [data total].
  split; [apply orderByDesc_perm|].
  split; [exact Hr'|].
  split; [reflexivity|].
  split; [rewrite Hlen; reflexivity|].
  split.
  { destruct (matching filters db); [destruct Hr | simpl; lia]. }
  split.
  { intros i Hi Hrange. apply in_map.
    apply nth_error_In with (n := (i - Z.to_nat ((page - 1) * limit))%nat).
    rewrite slice_nth_error.
    replace (Z.to_nat ((page - 1) * limit) + (i - Z.to_nat ((page - 1) * limit)))%nat
      with i by lia.
    replace (i <? Z.to_nat (page * limit))%nat with true
      by (symmetry; apply Nat.ltb_lt; lia).
    exact Hi. }
  split.
  { intros -> Ht. apply in_map. unfold slice.
    replace (Z.to_nat ((1 - 1) * limit)) with 0%nat by lia.
    cbn [skipn]. rewrite firstn_all2; [exact Hr'|]. rewrite Hlen. lia. }
  split; [unfold represents; simpl; repeat split; reflexivity|].
  unfold reportOf, joinOne. cbn [selectReport ReportRow.cbo ReportRow.prestador
                                 ReportRow.procedimento ReportRow.sRub].
  repeat split.
  - intros E. apply find_unmatched.
    destruct (find _ (cbo db)); [discriminate E | reflexivity].
  - intros E. apply find_unmatched in E. rewrite E. reflexivity.
  - intros E. apply find_unmatched.
    destruct (find _ (prestador db)); [discriminate E | reflexivity].
  - intros E. apply find_unmatched in E. rewrite E. reflexivity.
  - intros E. apply find_unmatched.
    destruct (find _ (procedimento db)); [discriminate E | reflexivity].
  - intros E. apply find_unmatched in E. rewrite E. reflexivity.
  - intros E. apply find_unmatched.
    destruct (find _ (sRub db)); [discriminate E | reflexivity].
  - intros E. apply find_unmatched in E. rewrite E. reflexivity.
  - intros c Hc E. rewrite E, (find_by_key CBO.id _ c U1 Hc). reflexivity.
  - intros c Hc E. rewrite E, (find_by_key Prestador.id _ c U2 Hc). reflexivity.
  - intros c Hc E. rewrite E, (find_by_key Procedimento.id _ c U3 Hc). reflexivity.
  - intros c Hc E. rewrite E, (find_by_key SRub.id _ c U4 Hc). reflexivity.
Qed.

End ReportFacts.

(* ------------------------------------------------------------------ *)
(** ** Malformed dates *)

Section DateFacts.
Context {rt : Runtime}.

Lemma getConsultaProdData_invalid_date (db : Db) (tie : nat -> nat) (filters : JsVal)
  (page limit : option Z) :
  datesWellFormed filters = false ->
  getConsultaProdData db tie filters page limit
  = Throw (RangeError "Invalid time value").
Proof.
  intros W. unfold getConsultaProdData.
  rewrite (bindWhere_invalid_date filters W). reflexivity.
Qed.

(** C4, as the code has it.  A date that is present and does not parse is
    not rejected by a validation: the conditions are built, the query
    throws a [RangeError] when the parameters are bound, and
    [GET /api/reports/data] answers 500 "Internal server error", naming no
    field.  A filter whose present dates parse is queried without error
    for page >= 1 and limit > 0 with page * limit a safe integer. *)
Theorem malformed_date_is_internal_error (db : Db) (filters : JsVal) :
  (datesWellFormed filters = false ->
   (forall tie page limit,
      getConsultaProdData db tie filters page limit
      = Throw (RangeError "Invalid time value"))
   /\ (forall user w req s,
         query_filters req = Some s -> truthy (JStr s) = true ->
         JSON_parse s = Some filters ->
         get_api_reports_data_handler user db w req
         = (db, message 500 "Internal server error")))
  /\ (datesWellFormed filters = true ->
      forall tie page limit, 1 <= page -> 0 < limit -> page * limit <= maxSafe ->
        exists res, getConsultaProdData db tie filters (Some page) (Some limit) = Ok res).
Proof.
  split.
  - intros W. split.
    + intros tie page limit. apply getConsultaProdData_invalid_date, W.
    + intros user w req s Hq Ht Hj. unfold get_api_reports_data_handler.
      rewrite Hq, Ht, Hj.
      rewrite (@getConsultaProdData_invalid_date db (tie w) filters _ _ W). reflexivity.
  - intros W tie page limit Hp Hl Hs.
    destruct (bindWhere_spec filters W) as [p [Hb _]].
    unfold getConsultaProdData. cbn [default]. rewrite Hb. cbn [bind].
    rewrite (limitOffset_page _ Hp Hl Hs). cbn [bind]. eexists. reflexivity.
Qed.

End DateFacts.

(* ------------------------------------------------------------------ *)
(** ** Deleting a provider *)

Lemma filter_neg_none (A : Type) (f : A -> bool) (l : list A) :
  filter f (filter (fun x => negb (f x)) l) = [].
Proof.
  induction l as [|x t IH]; simpl; [reflexivity|].
  destruct (f x) eqn:E; simpl; [exact IH|]. rewrite E. exact IH.
Qed.

Lemma filter_idem (A : Type) (f : A -> bool) (l : list A) :
  filter f (filter f l) = filter f l.
Proof.
  induction l as [|x t IH]; simpl; [reflexivity|].
  destruct (f x) eqn:E; simpl; [rewrite E, IH|]; auto.
Qed.

Lemma existsb_filter_nonempty (A : Type) (f : A -> bool) (l : list A) :
  existsb f l = true -> (0 < length (filter f l))%nat.
Proof.
  induction l as [|x t IH]; simpl; [discriminate|].
  destruct (f x); simpl; [lia | exact IH].
Qed.

Lemma victims_unreferenced (db : Db) (id : string) :
  prestadorReferenced db id = false ->
  existsb (fun v => existsb (fun r => fkEq (ConsultaProd.prdPrest r) (Prestador.id v))
                      (consultaProd db))
    (filter (fun p => String.eqb (Prestador.id p) id) (prestador db)) = false.
Proof.
  intros H. apply not_true_is_false. intros E.
  apply existsb_exists in E. destruct E as (v & Hv & Hr).
  apply filter_In in Hv. destruct Hv as [_ Hv].
  apply String.eqb_eq in Hv. rewrite Hv in Hr.
  unfold prestadorReferenced, names in H. unfold fkEq in Hr. congruence.
Qed.

Lemma deletePrestador_first (db : Db) (id : string) :
  taken Prestador.id id (prestador db) = true ->
  prestadorReferenced db id = false ->
  deletePrestador db id =
    Ok (set_prestador db
          (filter (fun p => negb (String.eqb (Prestador.id p) id)) (prestador db)),
        true).
Proof.
  intros T R. unfold deletePrestador, prestador_delete.
  rewrite (victims_unreferenced db id R). simpl.
  apply existsb_filter_nonempty in T.
  replace (0 <? Z.of_nat _) with true by (symmetry; apply Z.ltb_lt; lia).
  reflexivity.
Qed.

Lemma deletePrestador_again (db : Db) (id : string) :
  getPrestador db id = None ->
  deletePrestador db id =
    Ok (set_prestador db
          (filter (fun p => negb (String.eqb (Prestador.id p) id)) (prestador db)),
        false).
Proof.
  unfold getPrestador, deletePrestador, prestador_delete.
  destruct (filter (fun p => String.eqb (Prestador.id p) id) (prestador db));
    [reflexivity | discriminate].
Qed.

Lemma deletePrestador_referenced (db : Db) (id : string) :
  taken Prestador.id id (prestador db) = true ->
  prestadorReferenced db id = true ->
  deletePrestador db id = Throw (PgError foreign_key_violation).
Proof.
  intros T R. unfold deletePrestador, prestador_delete.
  replace (existsb _ (filter _ (prestador db))) with true; [reflexivity|].
  symmetry. apply existsb_exists.
  apply existsb_exists in T. destruct T as (v & Hv & E).
  exists v. split; [apply filter_In; split; assumption|].
  apply String.eqb_eq in E. rewrite E. exact R.
Qed.

Section DeleteFacts.
Context {rt : Runtime}.

(** C5, as the code has it.  Deleting a provider that exists and that no
    production record names removes it: storage returns true and the
    route, for a caller whose account exists, answers 204.  Deleting the
    same id again removes nothing: storage returns false, the database is
    unchanged and the route answers 404 "Prestador not found".  Deleting a
    provider that exists and that a production record names throws a
    foreign-key violation: the route answers 500 "Internal server error"
    and the database is unchanged, the provider still in it. *)
Theorem delete_prestador_twice (user : ReqUser) (db : Db) (w w' : World) (req : Request) :
  taken Prestador.id (params_id req) (prestador db) = true ->
  (prestadorReferenced db (params_id req) = false ->
   taken User.id (ru_id user) (users db) = true ->
   taken AuditLog.id (audit_uuid w) (auditLog db) = false ->
   exists db1 db2,
     deletePrestador db (params_id req) = Ok (db1, true)
     /\ getPrestador db1 (params_id req) = None
     /\ deletePrestador db1 (params_id req) = Ok (db1, false)
     /\ delete_api_prestador_handler user db w req
        = (db2, {| res_status := 204; res_body := None |})
     /\ getPrestador db2 (params_id req) = None
     /\ deletePrestador db2 (params_id req) = Ok (db2, false)
     /\ delete_api_prestador_handler user db2 w' req
        = (db2, message 404 "Prestador not found"))
  /\ (prestadorReferenced db (params_id req) = true ->
      deletePrestador db (params_id req) = Throw (PgError foreign_key_violation)
      /\ delete_api_prestador_handler user db w req
         = (db, message 500 "Internal server error")
      /\ exists p, getPrestador db (params_id req) = Some p).
Proof.
  intros T. split.
  - intros R U F.
    pose proof (deletePrestador_first db (params_id req) T R) as D1.
    eexists. eexists.
    split; [exact D1|].
    assert (G1 : getPrestador
                   (set_prestador db
                      (filter (fun p => negb (String.eqb (Prestador.id p) (params_id req)))
                         (prestador db))) (params_id req) = None).
    { unfold getPrestador. simpl. rewrite filter_neg_none. reflexivity. }
    split; [exact G1|].
    split.
    { rewrite (deletePrestador_again _ _ G1). simpl. rewrite filter_idem. reflexivity. }
    split.
    { unfold delete_api_prestador_handler. rewrite D1. simpl negb. cbv iota.
      unfold createAuditLog, auditLog_insert. simpl.
      rewrite F, U. simpl. reflexivity. }
    assert (G2 : forall d, getPrestador (set_auditLog
                   (set_prestador db
                      (filter (fun p => negb (String.eqb (Prestador.id p) (params_id req)))
                         (prestador db))) d) (params_id req) = None).
    { intros d. unfold getPrestador. simpl. rewrite filter_neg_none. reflexivity. }
    split; [apply G2|].
    split.
    { rewrite (deletePrestador_again _ _ (G2 _)). simpl. rewrite filter_idem.
      reflexivity. }
    unfold delete_api_prestador_handler.
    rewrite (deletePrestador_again _ _ (G2 _)). simpl. rewrite filter_idem. reflexivity.
  - intros R.
    pose proof (deletePrestador_referenced db (params_id req) T R) as D.
    split; [exact D|]. split.
    + unfold delete_api_prestador_handler. rewrite D. reflexivity.
    + unfold getPrestador. apply existsb_filter_nonempty in T.
      destruct (filter _ (prestador db)) as [|p t]; [simpl in T; lia|].
      exists p. reflexivity.
Qed.

End DeleteFacts.

(* ------------------------------------------------------------------ *)
(** ** Creating an occupation *)

Lemma taken_app (A : Type) (col : A -> string) (v : string) (l l' : list A) :
  taken col v (l ++ l') = taken col v l || taken col v l'.
Proof. apply existsb_app. Qed.

Lemma varchar_fits (n : nat) (s : string) :
  (String.length s <= n)%nat -> varchar n s = Ok s.
Proof.
  intros H. unfold varchar.
  replace (String.length s <=? n)%nat with true by (symmetry; apply Nat.leb_le; exact H).
  reflexivity.
Qed.

Lemma varchar_too_long (n : nat) (s : string) :
  (n < String.length s)%nat ->
  allSpaces (String.substring n (String.length s - n) s) = false ->
  varchar n s = Throw (PgError string_data_right_truncation).
Proof.
  intros H E. unfold varchar.
  replace (String.length s <=? n)%nat with false by (symmetry; apply Nat.leb_gt; exact H).
  rewrite E. reflexivity.
Qed.

Lemma with_codigo_same (c : CBO.t) : with_codigo c (CBO.codigo c) = c.
Proof. destruct c; reflexivity. Qed.

Section CreateFacts.
Context {rt : Runtime}.

Lemma createCBO_duplicate (db : Db) (id : string) (t : Z) (cboData : InsertCBO.t) :
  (String.length (InsertCBO.codigo cboData) <= 20)%nat ->
  taken CBO.codigo (InsertCBO.codigo cboData) (cbo db) = true ->
  createCBO db id t cboData = Throw (PgError unique_violation).
Proof.
  intros L T. unfold createCBO, cbo_insert. cbn [CBO.codigo].
  rewrite (@varchar_fits 20 _ L). cbn [bind with_codigo CBO.codigo CBO.id].
  rewrite T, orb_true_r. reflexivity.
Qed.

Lemma createCBO_too_long (db : Db) (id : string) (t : Z) (cboData : InsertCBO.t) :
  (20 < String.length (InsertCBO.codigo cboData))%nat ->
  allSpaces (String.substring 20 (String.length (InsertCBO.codigo cboData) - 20)
               (InsertCBO.codigo cboData)) = false ->
  createCBO db id t cboData = Throw (PgError string_data_right_truncation).
Proof.
  intros L E. unfold createCBO, cbo_insert. cbn [CBO.codigo].
  rewrite (@varchar_too_long 20 _ L E). reflexivity.
Qed.

(** the list of occupations, when the limit covers the table *)
Lemma getCBOs_whole (db : Db) (tie : nat -> nat) (limit : Z) :
  Z.of_nat (length (cbo db)) <= limit -> 0 < limit -> limit <= maxSafe ->
  getCBOs db tie (Some 1) (Some limit) None
  = Ok {| data := orderByDesc (fun a b => tsGtb (CBO.createdAt a) (CBO.createdAt b))
                    tie (cbo db);
          total := Z.of_nat (length (cbo db)) |}.
Proof.
  intros Hl H0 Hs. unfold getCBOs. cbn [default].
  rewrite (@limitOffset_page _ 1 limit _ ltac:(lia) H0 ltac:(lia)). cbn [bind].
  unfold slice. replace (Z.to_nat ((1 - 1) * limit)) with 0%nat by lia.
  cbn [skipn]. rewrite firstn_all2; [reflexivity|].
  rewrite orderByDesc_length. lia.
Qed.

(** C6, as the code has it.  For a code of at most 20 characters, the
    width of [cbo.codigo]: creating an occupation whose code is already in
    the table fails with a unique violation, the route answers 400 and no
    row is inserted; with a fresh code the row is inserted and returned
    with the generated id and both time stamps, the route answers 201
    with it for a caller whose account exists, and a list call that asks
    for the whole table contains it.  A longer code whose excess is not
    blank is refused, fresh or not, and the route answers 400. *)
Theorem create_cbo_unique_code (db : Db) (id : string) (t : Z) (cboData : InsertCBO.t) :
  ((String.length (InsertCBO.codigo cboData) <= 20)%nat ->
   taken CBO.codigo (InsertCBO.codigo cboData) (cbo db) = true ->
   createCBO db id t cboData = Throw (PgError unique_violation)
   /\ forall user w req,
        insertCboSchema_parse (req_body req) = Some cboData ->
        post_api_cbo_handler user db w req = (db, message 400 "Invalid request data"))
  /\ ((String.length (InsertCBO.codigo cboData) <= 20)%nat ->
      taken CBO.codigo (InsertCBO.codigo cboData) (cbo db) = false ->
      taken CBO.id id (cbo db) = false ->
      exists row db1,
        createCBO db id t cboData = Ok (db1, row)
        /\ CBO.id row = id
        /\ CBO.codigo row = InsertCBO.codigo cboData
        /\ CBO.descricao row = InsertCBO.descricao cboData
        /\ CBO.createdAt row = Some t
        /\ CBO.updatedAt row = Some t
        /\ cbo db1 = cbo db ++ [row]
        /\ (forall tie limit,
              Z.of_nat (length (cbo db1)) <= limit -> limit <= maxSafe ->
              exists page,
                getCBOs db1 tie (Some 1) (Some limit) None = Ok page
                /\ In row (data page)
                /\ total page = Z.of_nat (length (cbo db1)))
        /\ (forall user w req,
              insertCboSchema_parse (req_body req) = Some cboData ->
              uuid w = id -> now w = t ->
              taken User.id (ru_id user) (users db) = true ->
              taken AuditLog.id (audit_uuid w) (auditLog db) = false ->
              exists db2,
                post_api_cbo_handler user db w req = (db2, json 201 (cboJs row))
                /\ cbo db2 = cbo db ++ [row]))
  /\ ((20 < String.length (InsertCBO.codigo cboData))%nat ->
      allSpaces (String.substring 20 (String.length (InsertCBO.codigo cboData) - 20)
                   (InsertCBO.codigo cboData)) = false ->
      createCBO db id t cboData = Throw (PgError string_data_right_truncation)
      /\ forall user w req,
           insertCboSchema_parse (req_body req) = Some cboData ->
           post_api_cbo_handler user db w req = (db, message 400 "Invalid request data")).
Proof.
  split; [|split].
  - intros L T. split; [apply createCBO_duplicate; assumption|].
    intros user w req P. unfold post_api_cbo_handler.
    rewrite P, (createCBO_duplicate db (uuid w) (now w) cboData L T). reflexivity.
  - intros L Fc Fi.
    assert (C : forall i n, i = id -> n = t ->
              createCBO db i n cboData =
              Ok (set_cbo db (cbo db ++
                    [{| CBO.id := id;
                        CBO.codigo := InsertCBO.codigo cboData;
                        CBO.descricao := InsertCBO.descricao cboData;
                        CBO.status := default true (InsertCBO.status cboData);
                        CBO.createdAt := Some t;
                        CBO.updatedAt := Some t |}]),
                  {| CBO.id := id;
                     CBO.codigo := InsertCBO.codigo cboData;
                     CBO.descricao := InsertCBO.descricao cboData;
                     CBO.status := default true (InsertCBO.status cboData);
                     CBO.createdAt := Some t;
                     CBO.updatedAt := Some t |})).
    { intros i n -> ->. unfold createCBO, cbo_insert. cbn [CBO.codigo].
      rewrite (@varchar_fits 20 _ L).
      cbn [bind with_codigo CBO.codigo CBO.id CBO.descricao CBO.status
           CBO.createdAt CBO.updatedAt].
      rewrite Fi, Fc. reflexivity. }
    eexists. eexists.
    split; [apply C; reflexivity|].
    repeat (split; [reflexivity|]).
    split.
    + intros tie limit Hl Hs. cbn [cbo set_cbo] in Hl. rewrite length_app in Hl.
      cbn [length] in Hl.
      rewrite getCBOs_whole;
        [|cbn [cbo set_cbo]; rewrite length_app; cbn [length]; lia | lia | exact Hs].
      eexists. split; [reflexivity|]. cbn [data total].
      split; [|reflexivity].
      apply orderByDesc_In. cbn [cbo set_cbo]. apply in_or_app. right. left. reflexivity.
    + intros user w req P Eu En U F. unfold post_api_cbo_handler.
      rewrite P, (C (uuid w) (now w) Eu En).
      unfold createAuditLog, auditLog_insert. simpl.
      rewrite F, U. simpl. eexists. split; reflexivity.
  - intros L E. split; [apply createCBO_too_long; assumption|].
    intros user w req P. unfold post_api_cbo_handler.
    rewrite P, (createCBO_too_long db (uuid w) (now w) cboData L E). reflexivity.
Qed.

End CreateFacts.

(* ------------------------------------------------------------------ *)
(** ** Authentication and authorization *)

Section AuthFacts.
Context {rt : Runtime}.

Lemma authenticateToken_verified (next : Handler) (db : Db) (w : World) (req : Request)
  (token : string) (user : ReqUser) :
  bearerToken (headers_authorization req) = Some token ->
  token <> "" ->
  jwt_verify token JWT_SECRET (now w) = inl user ->
  authenticateToken next db w req = next user db w req.
Proof.
  intros B N V. unfold authenticateToken. rewrite B. simpl.
  apply String.eqb_neq in N. rewrite N. simpl. rewrite V. reflexivity.
Qed.

(** C7, as the code has it.  On a protected route a request without a
    bearer token is answered 401 "Access token required"; one whose token
    fails verification, because it is invalid or because it has expired,
    is answered 403 "Invalid token"; a verified principal reaches the
    handler, and on an administrator route one whose role is not admin is
    answered 403 "Admin access required". *)
Theorem token_failures (next : Handler) (db : Db) (w : World) (req : Request) :
  (bearerToken (headers_authorization req) = None
   \/ bearerToken (headers_authorization req) = Some "" ->
   authenticateToken next db w req = (db, message 401 "Access token required"))
  /\ (forall token err,
        bearerToken (headers_authorization req) = Some token ->
        token <> "" ->
        jwt_verify token JWT_SECRET (now w) = inr err ->
        authenticateToken next db w req = (db, message 403 "Invalid token"))
  /\ (forall token user,
        bearerToken (headers_authorization req) = Some token ->
        token <> "" ->
        jwt_verify token JWT_SECRET (now w) = inl user ->
        authenticateToken next db w req = next user db w req
        /\ (ru_role user <> "admin" ->
            authenticateToken (requireAdmin next) db w req
            = (db, message 403 "Admin access required"))).
Proof.
  split; [|split].
  - unfold authenticateToken. intros [-> | ->]; reflexivity.
  - intros token err B N V. unfold authenticateToken. rewrite B. simpl.
    apply String.eqb_neq in N. rewrite N. simpl. rewrite V. reflexivity.
  - intros token user B N V. split.
    + apply (@authenticateToken_verified next db w req token user B N V).
    + intros R. rewrite (@authenticateToken_verified (requireAdmin next) db w req token user B N V).
      unfold requireAdmin. apply String.eqb_neq in R. rewrite R. reflexivity.
Qed.

Lemma no_password_in_created (u : User.t) :
  hasProp "password" (jsonOf (setProp "password" JUndefined (userJs u))) = false.
Proof.
  destruct u as [i un pw em fn ln ro ac ca ua].
  destruct em, fn, ln, ca, ua; vm_compute; reflexivity.
Qed.

Lemma post_api_users_handler_no_password (user : ReqUser) (db : Db) (w : World)
  (req : Request) (b : JsVal) :
  res_body (snd (post_api_users_handler user db w req)) = Some b ->
  hasProp "password" b = false.
Proof.
  unfold post_api_users_handler.
  destruct (insertUserSchema_parse (req_body req)) as [userData|].
  2:{ simpl. intros E. injection E as <-. reflexivity. }
  destruct (createUser db (uuid w) (now w) (salt w) userData) as [[db1 u]|e].
  2:{ simpl. intros E. injection E as <-. reflexivity. }
  match goal with
  | |- context [createAuditLog ?d ?i ?n ?x] => destruct (createAuditLog d i n x) as [[db2 a]|e]
  end.
  2:{ simpl. intros E. injection E as <-. reflexivity. }
  cbn [snd json res_body]. intros E. injection E as <-.
  apply no_password_in_created.
Qed.

(** C8.  On [POST /api/users] an authenticated caller whose role is not
    admin is answered 403 and no account is created.  For an
    administrator no response body has a password property, and a request
    that passes the schema, with a user name and e-mail not yet in the
    table, creates the account and is answered 201. *)
Theorem post_users_admin_only (db : Db) (w : World) (req : Request)
  (token : string) (user : ReqUser) :
  bearerToken (headers_authorization req) = Some token ->
  token <> "" ->
  jwt_verify token JWT_SECRET (now w) = inl user ->
  (ru_role user <> "admin" ->
   post_api_users db w req = (db, message 403 "Admin access required"))
  /\ (ru_role user = "admin" ->
      (forall b, res_body (snd (post_api_users db w req)) = Some b ->
                 hasProp "password" b = false)
      /\ (forall userData,
            insertUserSchema_parse (req_body req) = Some userData ->
            taken User.id (uuid w) (users db) = false ->
            taken User.username (InsertUser.username userData) (users db) = false ->
            takenOpt User.email (InsertUser.email userData) (users db) = false ->
            taken User.id (ru_id user) (users db) = true ->
            taken AuditLog.id (audit_uuid w) (auditLog db) = false ->
            exists db2 row,
              post_api_users db w req
              = (db2, json 201 (setProp "password" JUndefined (userJs row)))
              /\ users db2 = users db ++ [row]
              /\ User.id row = uuid w
              /\ User.username row = InsertUser.username userData
              /\ User.password row
                 = bcrypt_hash (InsertUser.password userData) 10 (salt w))).
Proof.
  intros B N V. unfold post_api_users.
  rewrite (@authenticateToken_verified (requireAdmin post_api_users_handler) db w req token user B N V).
  unfold requireAdmin. split.
  - intros R. apply String.eqb_neq in R. rewrite R. reflexivity.
  - intros R. rewrite R. simpl negb. cbv iota. split.
    + apply post_api_users_handler_no_password.
    + intros userData P Fi Fu Fe U F.
      unfold post_api_users_handler. rewrite P.
      unfold createUser, users_insert. simpl.
      rewrite Fi, Fu, Fe. simpl.
      unfold createAuditLog, auditLog_insert. simpl.
      rewrite F, taken_app, U. simpl.
      eexists.
      exists {| User.id := uuid w;
                User.username := InsertUser.username userData;
                User.password := bcrypt_hash (InsertUser.password userData) 10 (salt w);
                User.email := InsertUser.email userData;
                User.firstName := InsertUser.firstName userData;
                User.lastName := InsertUser.lastName userData;
                User.role := default "operator" (InsertUser.role userData);
                User.active := default true (InsertUser.active userData);
                User.createdAt := Some (now w);
                User.updatedAt := Some (now w) |}.
      split; [reflexivity|]. repeat split.
Qed.


End AuthFacts.

(* ------------------------------------------------------------------ *)
(** ** Stored passwords *)

Section PasswordFacts.
Context {rt : Runtime}.

Lemma createUser_stores_hash (db db' : Db) (id : string) (t : Z) (s : string)
  (userData : InsertUser.t) (u : User.t) :
  createUser db id t s userData = Ok (db', u) ->
  User.password u = bcrypt_hash (InsertUser.password userData) 10 s
  /\ users db' = users db ++ [u].
Proof.
  unfold createUser, users_insert. simpl.
  match goal with |- context [if ?c then _ else _] => destruct c end;
    simpl; intros E; [discriminate E|].
  injection E as <- <-. split; reflexivity.
Qed.

Lemma updateUser_stores_hash (db db' : Db) (id p : string) (d : PartialUser.t)
  (t : Z) (s : string) (u : User.t) :
  PartialUser.password d = Some p -> p <> "" ->
  updateUser db id d t s = Ok (db', Some u) ->
  User.password u = bcrypt_hash p 10 s.
Proof.
  intros P N. unfold updateUser, users_update. rewrite P. simpl.
  apply String.eqb_neq in N. rewrite N. simpl.
  match goal with |- context [if ?c then _ else _] => destruct c end;
    simpl; intros E; [discriminate E|].
  injection E as _ E.
  destruct (filter (fun u0 => String.eqb (User.id u0) id) (users db)) as [|u0 rest];
    simpl in E; [discriminate E|].
  injection E as <-. reflexivity.
Qed.

Lemma createUser_keeps_hashed (db db' : Db) (id : string) (t : Z) (s : string)
  (userData : InsertUser.t) (u : User.t) :
  allHashed db -> createUser db id t s userData = Ok (db', u) -> allHashed db'.
Proof.
  intros H E. destruct (createUser_stores_hash _ _ _ _ _ E) as [Hp Hu].
  unfold allHashed. rewrite Hu. apply Forall_app. split; [exact H|].
  constructor; [|constructor]. exists (InsertUser.password userData), s. exact Hp.
Qed.

Lemma deleteUser_keeps_hashed (db db' : Db) (id : string) (b : bool) :
  allHashed db -> deleteUser db id = Ok (db', b) -> allHashed db'.
Proof.
  unfold allHashed, deleteUser, users_delete. intros H.
  match goal with |- context [if ?c then _ else _] => destruct c end;
    simpl; intros E; [discriminate E|].
  injection E as <- _. simpl.
  apply Forall_forall. intros u Hu. apply filter_In in Hu.
  eapply Forall_forall in H; [exact H | exact (proj1 Hu)].
Qed.

(** every update but the one that supplies the empty password keeps the
    stored passwords hashed *)
Lemma updateUser_keeps_hashed (db db' : Db) (id : string) (d : PartialUser.t)
  (t : Z) (s : string) (o : option User.t) :
  PartialUser.password d <> Some "" ->
  allHashed db -> updateUser db id d t s = Ok (db', o) -> allHashed db'.
Proof.
  intros N H. unfold allHashed, updateUser.
  set (d' := match PartialUser.password d with
             | Some p => if truthy (JStr p)
                         then with_password d (bcrypt_hash p 10 s) else d
             | None => d
             end).
  assert (K : forall u0, hashed u0 -> hashed (setUser d' t u0)).
  { intros u0 H0. subst d'. destruct (PartialUser.password d) as [p|] eqn:P.
    - simpl. destruct (String.eqb p "") eqn:Ep; simpl.
      + apply String.eqb_eq in Ep. subst p. congruence.
      + exists p, s. reflexivity.
    - unfold hashed. simpl. rewrite P. exact H0. }
  cbv zeta. fold d'. unfold users_update.
  match goal with |- context [if ?c then _ else _] => destruct c end;
    simpl; intros E; [discriminate E|].
  injection E as <- _. simpl.
  apply Forall_forall. intros u Hu. apply in_map_iff in Hu.
  destruct Hu as (u0 & <- & Hu0).
  assert (H0 : hashed u0) by (eapply Forall_forall in H; eauto).
  destruct (String.eqb (User.id u0) id); [apply K, H0 | exact H0].
Qed.

(** C9, where the code departs from it.  [updateUser] with the empty
    string as the new password skips the hash, because the empty string is
    falsy, and writes the empty string into [users.password]; [createUser]
    hashes the same password. *)
Theorem updateUser_empty_password_stored_clear (u : User.t) (t : Z) (s : string) :
  let db := {| users := [u]; cbo := []; prestador := []; procedimento := [];
               sRub := []; consultaProd := []; auditLog := [] |} in
  let d := {| PartialUser.username := None; PartialUser.password := Some "";
              PartialUser.email := None; PartialUser.firstName := None;
              PartialUser.lastName := None; PartialUser.role := None;
              PartialUser.active := None |} in
  updateUser db (User.id u) d t s
  = Ok (set_users db [setUser d t u], Some (setUser d t u))
  /\ User.password (setUser d t u) = ""
  /\ users (set_users db [setUser d t u]) = [setUser d t u].
Proof.
  intros db d. split; [|split; reflexivity].
  subst db d. destruct u as [id un pw [e|] fn ln ro ac ca ua];
    unfold updateUser, users_update, countBy; simpl;
    repeat (rewrite String.eqb_refl; simpl); reflexivity.
Qed.

End PasswordFacts.

(* ------------------------------------------------------------------ *)
(** ** The model on the sample database *)

Lemma filter_compiles_to_conjunction_witness :
  present Sample.goodDateFilters "dateFrom" = true
  /\ datesWellFormed (rt := Sample.runtime) Sample.fourKeyFilters = true
  /\ (exists p,
        bindWhere (rt := Sample.runtime)
          (whereCondition (rt := Sample.runtime) Sample.fourKeyFilters) = Ok p
        /\ map p (consultaProd Sample.db) = [true; true; false])
  /\ (exists p,
        bindWhere (rt := Sample.runtime)
          (whereCondition (rt := Sample.runtime) Sample.lateFilters) = Ok p
        /\ map p (consultaProd Sample.db) = [false; true; false])
  /\ (exists p,
        bindWhere (rt := Sample.runtime)
          (whereCondition (rt := Sample.runtime) Sample.earlyFilters) = Ok p
        /\ map p (consultaProd Sample.db) = [true; false; false])
  /\ (exists p,
        bindWhere (rt := Sample.runtime)
          (whereCondition (rt := Sample.runtime) Sample.providerFilters) = Ok p
        /\ map p (consultaProd Sample.db) = [true; true; false])
  /\ (exists p,
        bindWhere (rt := Sample.runtime)
          (whereCondition (rt := Sample.runtime) Sample.procedureFilters) = Ok p
        /\ map p (consultaProd Sample.db) = [false; false; false])
  /\ whereCondition (rt := Sample.runtime)
       (setProp "filter_1" (JObj [("field", JStr "prdDtcomp")]) Sample.goodDateFilters)
     = whereCondition (rt := Sample.runtime) Sample.goodDateFilters
  /\ whereCondition (rt := Sample.runtime) Sample.noKeyFilters = None.
Proof.
  split.
  { apply (proj1 (@filter_compiles_to_conjunction Sample.runtime Sample.goodDateFilters)
             "dateFrom" "2024-01-01").
    reflexivity. }
  split; [reflexivity|].
  split.
  { destruct (proj1 (proj2 (@filter_compiles_to_conjunction Sample.runtime
                              Sample.fourKeyFilters)) eq_refl) as (p & Hb & Hs).
    exists p. split; [exact Hb|]. rewrite (map_ext _ _ Hs). reflexivity. }
  split.
  { destruct (proj1 (proj2 (@filter_compiles_to_conjunction Sample.runtime
                              Sample.lateFilters)) eq_refl) as (p & Hb & Hs).
    exists p. split; [exact Hb|]. rewrite (map_ext _ _ Hs). reflexivity. }
  split.
  { destruct (proj1 (proj2 (@filter_compiles_to_conjunction Sample.runtime
                              Sample.earlyFilters)) eq_refl) as (p & Hb & Hs).
    exists p. split; [exact Hb|]. rewrite (map_ext _ _ Hs). reflexivity. }
  split.
  { destruct (proj1 (proj2 (@filter_compiles_to_conjunction Sample.runtime
                              Sample.providerFilters)) eq_refl) as (p & Hb & Hs).
    exists p. split; [exact Hb|]. rewrite (map_ext _ _ Hs). reflexivity. }
  split.
  { destruct (proj1 (proj2 (@filter_compiles_to_conjunction Sample.runtime
                              Sample.procedureFilters)) eq_refl) as (p & Hb & Hs).
    exists p. split; [exact Hb|]. rewrite (map_ext _ _ Hs). reflexivity. }
  split.
  - apply (proj1 (proj2 (proj2 (@filter_compiles_to_conjunction Sample.runtime
                                  Sample.goodDateFilters)))).
    simpl. intros [H|[H|[H|[H|[]]]]]; discriminate H.
  - apply (proj2 (proj2 (proj2 (@filter_compiles_to_conjunction Sample.runtime
                                  Sample.noKeyFilters)))).
    reflexivity.
Defined.

Lemma report_page_is_slice_of_ordered_matches_witness :
  refKeysUnique Sample.tied = true
  /\ exists sorted,
       descending ConsultaProd.prdDtcomp sorted
       /\ Permutation sorted (consultaProd Sample.tied)
       /\ getConsultaProdData (rt := Sample.runtime) Sample.tied Sample.reversed (JObj [])
            (Some 2) (Some 2)
          = Ok {| data := map (reportOf Sample.tied) (slice 2 4 sorted); total := 3 |}.
Proof.
  split; [reflexivity|].
  destruct (proj1 (@report_page_is_slice_of_ordered_matches Sample.runtime Sample.tied
                     Sample.reversed (JObj []) 2 2) eq_refl eq_refl
              ltac:(lia) ltac:(lia) ltac:(rewrite maxSafe_value; lia))
    as (sorted & count & Hperm & Hdesc & Hc & Hpage & _).
  assert (E : count = 3) by (rewrite Hc; reflexivity).
  exists sorted. split; [exact Hdesc|]. split; [exact Hperm|].
  rewrite Hpage, E. reflexivity.
Defined.

(** C2 as stated fails.  The page number 99999999999999999999 with limit
    10 gives an offset that PostgreSQL does not read as a [bigint]: the
    query throws and [GET /api/reports/data] answers 500, not an empty
    page with the total.  And the pages of different executions need not
    slice one ordering: "r-1" and "r-3" have the same competence date,
    page 2 of an execution that keeps table order and page 3 of one that
    reverses it both hold "r-1", and "r-3" is on neither. *)
Lemma report_pages_overflow_and_repeat :
  getConsultaProdData (rt := Sample.runtime) Sample.db Sample.tableOrder (JObj [])
    (Some (10 ^ 20)) (Some 10)
  = Throw (PgError invalid_text_representation)
  /\ snd (get_api_reports_data (rt := Sample.runtime) Sample.db Sample.world
            {| headers_authorization := Sample.asAdmin; params_id := "";
               query_page := Some "99999999999999999999"; query_limit := Some "10";
               query_filters := None; req_body := JNull |})
     = message 500 "Internal server error"
  /\ (exists res,
        getConsultaProdData (rt := Sample.runtime) Sample.tied Sample.tableOrder (JObj [])
          (Some 1) (Some 1) = Ok res
        /\ map ReportRow.id (data res) = ["r-2"])
  /\ (exists res,
        getConsultaProdData (rt := Sample.runtime) Sample.tied Sample.tableOrder (JObj [])
          (Some 2) (Some 1) = Ok res
        /\ map ReportRow.id (data res) = ["r-1"])
  /\ (exists res,
        getConsultaProdData (rt := Sample.runtime) Sample.tied Sample.reversed (JObj [])
          (Some 3) (Some 1) = Ok res
        /\ map ReportRow.id (data res) = ["r-1"]).
Proof.
  split; [vm_compute; reflexivity|].
  split; [vm_compute; reflexivity|].
  repeat split; (eexists; split; [vm_compute; reflexivity | reflexivity]).
Qed.

Lemma matching_record_is_reported_witness :
  exists res,
    getConsultaProdData (rt := Sample.runtime) Sample.db Sample.tableOrder (JObj [])
      (Some 1) (Some 10) = Ok res
    /\ total res = 3
    /\ In (reportOf Sample.db
             (Sample.mkRecord "r-3" (Sample.jan01 + 1) None None (Some "x-1") (Some "s-9")))
          (data res)
    /\ ReportRow.cbo
         (reportOf Sample.db
            (Sample.mkRecord "r-3" (Sample.jan01 + 1) None None (Some "x-1") (Some "s-9")))
       = None
    /\ ReportRow.sRub
         (reportOf Sample.db
            (Sample.mkRecord "r-3" (Sample.jan01 + 1) None None (Some "x-1") (Some "s-9")))
       = None
    /\ ReportRow.procedimento
         (reportOf Sample.db
            (Sample.mkRecord "r-3" (Sample.jan01 + 1) None None (Some "x-1") (Some "s-9")))
       = Some {| RefDescricao.id := "x-1"; RefDescricao.codigo := "X";
                 RefDescricao.descricao := "Consulta medica" |}.
Proof.
  destruct (@matching_record_is_reported Sample.runtime Sample.db Sample.tableOrder
              (JObj []) 1 10
              (Sample.mkRecord "r-3" (Sample.jan01 + 1) None None (Some "x-1") (Some "s-9"))
              eq_refl eq_refl ltac:(lia) ltac:(lia) ltac:(rewrite maxSafe_value; lia)
              (or_intror (or_intror (or_introl eq_refl)))
              eq_refl)
    as (sorted & res & Hq & Hperm & _ & _ & Ht & _ & _ & Hwhole & _ & Hc & _ & _ & Hs
        & _ & _ & Hpr & _).
  assert (E : total res = 3).
  { rewrite Ht, (Permutation_length Hperm). reflexivity. }
  exists res.
  split; [exact Hq|]. split; [exact E|].
  split; [apply Hwhole; [reflexivity | rewrite E; lia]|].
  split; [apply Hc; reflexivity|].
  split; [apply Hs; reflexivity|].
  apply (Hpr Sample.consulta); [left; reflexivity | reflexivity].
Defined.

Lemma malformed_date_is_internal_error_witness :
  datesWellFormed (rt := Sample.runtime) Sample.badDateFilters = false
  /\ get_api_reports_data_handler (rt := Sample.runtime) Sample.admin Sample.db Sample.world
       (Sample.request Sample.asAdmin "" (Some Sample.badDateText) JNull)
     = (Sample.db, message 500 "Internal server error")
  /\ exists res,
       getConsultaProdData (rt := Sample.runtime) Sample.db Sample.tableOrder
         Sample.goodDateFilters (Some 1) (Some 10) = Ok res.
Proof.
  split; [reflexivity|]. split.
  - apply (proj2 (proj1 (@malformed_date_is_internal_error Sample.runtime Sample.db
                           Sample.badDateFilters) eq_refl)
             Sample.admin Sample.world
             (Sample.request Sample.asAdmin "" (Some Sample.badDateText) JNull)
             Sample.badDateText);
      reflexivity.
  - apply (proj2 (@malformed_date_is_internal_error Sample.runtime Sample.db
                    Sample.goodDateFilters) eq_refl Sample.tableOrder 1 10);
      [lia | lia | rewrite maxSafe_value; lia].
Defined.

(** C4 as stated fails: the malformed [dateFrom] of
    [{"dateFrom":"not-a-date"}] is answered 500 "Internal server error",
    which is no validation error and names no field. *)
Lemma malformed_date_not_validation_error :
  JSON_parse (Runtime := Sample.runtime) Sample.badDateText = Some Sample.badDateFilters
  /\ newDate (Runtime := Sample.runtime) (getProp Sample.badDateFilters "dateFrom") = None
  /\ whereConditions (rt := Sample.runtime) Sample.badDateFilters
     = [gte_prdDtcomp None]
  /\ snd (get_api_reports_data (rt := Sample.runtime) Sample.db Sample.world
            (Sample.request Sample.asAdmin "" (Some Sample.badDateText) JNull))
     = {| res_status := 500;
          res_body := Some (JObj [("message", JStr "Internal server error")]) |}
  /\ ~ isValidationError "dateFrom"
         (snd (get_api_reports_data (rt := Sample.runtime) Sample.db Sample.world
                 (Sample.request Sample.asAdmin "" (Some Sample.badDateText) JNull))).
Proof.
  repeat split; try reflexivity.
  intros [H _]. vm_compute in H. discriminate H.
Qed.

Lemma delete_prestador_twice_witness :
  (exists db1 db2,
     deletePrestador Sample.db "p-2" = Ok (db1, true)
     /\ deletePrestador db1 "p-2" = Ok (db1, false)
     /\ delete_api_prestador_handler (rt := Sample.runtime) Sample.admin Sample.db
          Sample.world (Sample.request Sample.asAdmin "p-2" None JNull)
        = (db2, {| res_status := 204; res_body := None |})
     /\ delete_api_prestador_handler (rt := Sample.runtime) Sample.admin db2
          Sample.world (Sample.request Sample.asAdmin "p-2" None JNull)
        = (db2, message 404 "Prestador not found"))
  /\ prestadorReferenced Sample.db "p-1" = true
  /\ deletePrestador Sample.db "p-1" = Throw (PgError foreign_key_violation)
  /\ delete_api_prestador_handler (rt := Sample.runtime) Sample.admin Sample.db
       Sample.world (Sample.request Sample.asAdmin "p-1" None JNull)
     = (Sample.db, message 500 "Internal server error").
Proof.
  split.
  - destruct (proj1 (@delete_prestador_twice Sample.runtime Sample.admin Sample.db
                       Sample.world Sample.world
                       (Sample.request Sample.asAdmin "p-2" None JNull) eq_refl)
                eq_refl eq_refl eq_refl)
      as (db1 & db2 & H1 & _ & H2 & H3 & _ & _ & H4).
    exists db1, db2. repeat split; assumption.
  - split; [reflexivity|].
    destruct (proj2 (@delete_prestador_twice Sample.runtime Sample.admin Sample.db
                       Sample.world Sample.world
                       (Sample.request Sample.asAdmin "p-1" None JNull) eq_refl)
                eq_refl) as (H1 & H2 & _).
    split; assumption.
Defined.

(** C5 as stated fails: provider "p-1" exists and two production records
    name it; the delete statement violates the foreign key, storage
    throws, the route answers 500 and the row stays. *)
Lemma delete_referenced_prestador_fails :
  taken Prestador.id "p-1" (prestador Sample.db) = true
  /\ prestadorReferenced Sample.db "p-1" = true
  /\ deletePrestador Sample.db "p-1" = Throw (PgError foreign_key_violation)
  /\ delete_api_prestador (rt := Sample.runtime) Sample.db Sample.world
       (Sample.request Sample.asAdmin "p-1" None JNull)
     = (Sample.db, {| res_status := 500;
                      res_body := Some (JObj [("message", JStr "Internal server error")]) |}).
Proof. repeat split; reflexivity. Qed.

Lemma create_cbo_unique_code_witness :
  (taken CBO.codigo "225125" (cbo Sample.db) = true
   /\ post_api_cbo_handler (rt := Sample.runtime) Sample.admin Sample.db Sample.world
        (Sample.request Sample.asAdmin "" None (Sample.newCbo "225125"))
      = (Sample.db, message 400 "Invalid request data"))
  /\ (taken CBO.codigo "223505" (cbo Sample.db) = false
      /\ exists row db2,
           CBO.id row = "n-1" /\ CBO.codigo row = "223505"
           /\ post_api_cbo_handler (rt := Sample.runtime) Sample.admin Sample.db Sample.world
                (Sample.request Sample.asAdmin "" None (Sample.newCbo "223505"))
              = (db2, json 201 (cboJs row))
           /\ cbo db2 = cbo Sample.db ++ [row]
           /\ exists db1 page,
                createCBO Sample.db "n-1" Sample.dec31
                  {| InsertCBO.codigo := "223505"; InsertCBO.descricao := "Enfermeiro";
                     InsertCBO.status := None |} = Ok (db1, row)
                /\ getCBOs (rt := Sample.runtime) db1 Sample.reversed (Some 1) (Some 2) None
                   = Ok page
                /\ In row (data page))
  /\ createCBO Sample.db "n-1" Sample.dec31
       {| InsertCBO.codigo := Sample.longCode; InsertCBO.descricao := "Enfermeiro";
          InsertCBO.status := None |}
     = Throw (PgError string_data_right_truncation).
Proof.
  split; [|split].
  - split; [reflexivity|].
    apply (proj2 (proj1 (@create_cbo_unique_code Sample.runtime Sample.db "n-1" Sample.dec31
                           {| InsertCBO.codigo := "225125";
                              InsertCBO.descricao := "Enfermeiro";
                              InsertCBO.status := None |})
                    ltac:(simpl; lia) eq_refl)).
    reflexivity.
  - split; [reflexivity|].
    destruct (proj1 (proj2 (@create_cbo_unique_code Sample.runtime Sample.db "n-1"
                              Sample.dec31
                              {| InsertCBO.codigo := "223505";
                                 InsertCBO.descricao := "Enfermeiro";
                                 InsertCBO.status := None |}))
                ltac:(simpl; lia) eq_refl eq_refl)
      as (row & db1 & Hcr & Hi & Hc & _ & _ & _ & Hrows & Hl & Hr).
    destruct (Hr Sample.admin Sample.world
                (Sample.request Sample.asAdmin "" None (Sample.newCbo "223505"))
                eq_refl eq_refl eq_refl eq_refl eq_refl) as (db2 & Hp & Hd).
    destruct (Hl Sample.reversed 2) as (page & Hg & Hin & _).
    { rewrite Hrows. simpl. lia. }
    { rewrite maxSafe_value. lia. }
    exists row, db2. split; [exact Hi|]. split; [exact Hc|].
    split; [exact Hp|]. split; [exact Hd|].
    exists db1, page. repeat split; assumption.
  - apply (proj1 (proj2 (proj2 (@create_cbo_unique_code Sample.runtime Sample.db "n-1"
                                  Sample.dec31
                                  {| InsertCBO.codigo := Sample.longCode;
                                     InsertCBO.descricao := "Enfermeiro";
                                     InsertCBO.status := None |}))
                    ltac:(simpl; lia) eq_refl)).
Defined.

(** C6 as stated fails: the code "123456789012345678901" is in no row, yet
    creating an occupation with it does not succeed; it is wider than
    [varchar(20)], the insert is refused, the route answers 400 and no row
    is inserted. *)
Lemma long_fresh_code_is_refused :
  taken CBO.codigo Sample.longCode (cbo Sample.db) = false
  /\ String.length Sample.longCode = 21%nat
  /\ createCBO Sample.db "n-1" Sample.dec31
       {| InsertCBO.codigo := Sample.longCode; InsertCBO.descricao := "Enfermeiro";
          InsertCBO.status := None |}
     = Throw (PgError string_data_right_truncation)
  /\ post_api_cbo (rt := Sample.runtime) Sample.db Sample.world
       (Sample.request Sample.asAdmin "" None (Sample.newCbo Sample.longCode))
     = (Sample.db, message 400 "Invalid request data").
Proof. repeat split; reflexivity. Qed.

Lemma token_failures_witness :
  authenticateToken (rt := Sample.runtime)
    (get_api_reports_data_handler (rt := Sample.runtime)) Sample.db Sample.world
    (Sample.request None "" None JNull)
  = (Sample.db, message 401 "Access token required")
  /\ authenticateToken (rt := Sample.runtime)
       (get_api_reports_data_handler (rt := Sample.runtime)) Sample.db Sample.world
       (Sample.request (Some "Bearer expired-token") "" None JNull)
     = (Sample.db, message 403 "Invalid token")
  /\ authenticateToken (rt := Sample.runtime)
       (requireAdmin (get_api_reports_data_handler (rt := Sample.runtime)))
       Sample.db Sample.world (Sample.request Sample.asMaria "" None JNull)
     = (Sample.db, message 403 "Admin access required").
Proof.
  split; [|split].
  - apply (proj1 (@token_failures Sample.runtime _ Sample.db Sample.world
                    (Sample.request None "" None JNull))).
    left. reflexivity.
  - apply (proj1 (proj2 (@token_failures Sample.runtime _ Sample.db Sample.world
                           (Sample.request (Some "Bearer expired-token") "" None JNull)))
             "expired-token" TokenExpiredError);
      [reflexivity | discriminate | reflexivity].
  - apply (proj2 (proj2 (@token_failures Sample.runtime _ Sample.db Sample.world
                           (Sample.request Sample.asMaria "" None JNull)))
             "token-of-maria" Sample.operator);
      [reflexivity | discriminate | reflexivity | discriminate].
Defined.

(** C7 as stated fails: an invalid and an expired bearer token are both
    answered 403, not 401. *)
Lemma invalid_token_is_not_401 :
  res_status (snd (get_api_reports_data (rt := Sample.runtime) Sample.db Sample.world
                     (Sample.request (Some "Bearer not-a-jwt") "" None JNull))) = 403
  /\ res_status (snd (get_api_reports_data (rt := Sample.runtime) Sample.db Sample.world
                        (Sample.request (Some "Bearer expired-token") "" None JNull))) = 403
  /\ res_status (snd (get_api_reports_data (rt := Sample.runtime) Sample.db Sample.world
                        (Sample.request (Some "Bearer not-a-jwt") "" None JNull))) <> 401.
Proof. repeat split; try reflexivity. vm_compute. discriminate. Qed.

Lemma post_users_admin_only_witness :
  post_api_users (rt := Sample.runtime) Sample.db Sample.world
    (Sample.request Sample.asMaria "" None Sample.newUser)
  = (Sample.db, message 403 "Admin access required")
  /\ exists db2 row,
       post_api_users (rt := Sample.runtime) Sample.db Sample.world
         (Sample.request Sample.asAdmin "" None Sample.newUser)
       = (db2, json 201 (setProp "password" JUndefined (userJs row)))
       /\ users db2 = users Sample.db ++ [row]
       /\ User.username row = "ana"
       /\ hasProp "password" (jsonOf (setProp "password" JUndefined (userJs row))) = false.
Proof.
  split.
  - apply (proj1 (@post_users_admin_only Sample.runtime Sample.db Sample.world
                    (Sample.request Sample.asMaria "" None Sample.newUser)
                    "token-of-maria" Sample.operator
                    eq_refl ltac:(discriminate) eq_refl)).
    discriminate.
  - destruct (proj2 (@post_users_admin_only Sample.runtime Sample.db Sample.world
                       (Sample.request Sample.asAdmin "" None Sample.newUser)
                       "token-of-admin" Sample.admin
                       eq_refl ltac:(discriminate) eq_refl) eq_refl) as [Hb Hc].
    destruct (Hc _ eq_refl eq_refl eq_refl eq_refl eq_refl eq_refl)
      as (db2 & row & Hp & Hu & _ & Hn & _).
    exists db2, row. split; [exact Hp|]. split; [exact Hu|]. split; [exact Hn|].
    apply Hb. rewrite Hp. reflexivity.
Defined.


(* ================================================================== *)
(** * Further properties *)

(** ** The constraints of the schema are kept *)

Lemma distinct_NoDup (l : list string) : distinct l = true <-> NoDup l.
Proof.
  induction l as [|a l IH]; simpl.
  - split; [constructor | reflexivity].
  - rewrite andb_true_iff, negb_true_iff, IH. split.
    + intros [H1 H2]. constructor; [|exact H2]. intros Hin.
      assert (E : existsb (String.eqb a) l = true).
      { apply existsb_exists. exists a. split; [exact Hin | apply String.eqb_refl]. }
      congruence.
    + intros H. inversion H as [|? ? Hn Hd]; subst. split; [|exact Hd].
      apply not_true_is_false. intros E. apply existsb_exists in E.
      destruct E as (x & Hx & E). apply String.eqb_eq in E. subst x. auto.
Qed.

Lemma taken_In (A : Type) (key : A -> string) (v : string) (rows : list A) :
  taken key v rows = true <-> In v (map key rows).
Proof.
  unfold taken. rewrite existsb_exists, in_map_iff.
  split; intros (x & H1 & H2).
  - exists x. split; [apply String.eqb_eq, H2 | exact H1].
  - exists x. split; [exact H2 | apply String.eqb_eq, H1].
Qed.

Lemma fkOk_refers (A : Type) (fk : option string) (key : A -> string) (rows : list A) :
  fkOk fk key rows = true <-> refers fk (map key rows).
Proof.
  unfold fkOk, refers. destruct fk as [k|].
  - rewrite taken_In. split.
    + intros H k' E. injection E as <-. exact H.
    + intros H. apply H. reflexivity.
  - split; [intros _ k E; discriminate E | reflexivity].
Qed.

Lemma constraintsHold_iff (db : Db) : constraintsHold db = true <-> Constraints db.
Proof.
  unfold constraintsHold, refKeysUnique, Constraints.
  rewrite !andb_true_iff, !distinct_NoDup, forallb_forall, Forall_forall.
  split.
  - intros [[[[[[[[H1 H2] H3] H4] H5] H6] H7] H8] H9].
    repeat (split; [assumption|]).
    split; [|exact H9].
    intros r Hr. specialize (H8 r Hr).
    rewrite !andb_true_iff, !fkOk_refers in H8. tauto.
  - intros (H1 & H2 & H3 & H4 & H5 & H6 & H7 & H8 & H9).
    repeat split; try assumption.
    intros r Hr. specialize (H8 r Hr).
    rewrite !andb_true_iff, !fkOk_refers. tauto.
Qed.

Lemma NoDup_map_snoc (A : Type) (key : A -> string) (l : list A) (x : A) :
  NoDup (map key l) -> taken key (key x) l = false -> NoDup (map key (l ++ [x])).
Proof.
  intros N T. rewrite map_app. simpl.
  apply (Permutation_NoDup (l := key x :: map key l)).
  - apply Permutation_cons_append.
  - constructor; [|exact N]. intros Hin. apply taken_In in Hin. congruence.
Qed.

Lemma NoDup_map_filter (A : Type) (key : A -> string) (p : A -> bool) (l : list A) :
  NoDup (map key l) -> NoDup (map key (filter p l)).
Proof.
  induction l as [|x l IH]; simpl; intros N; [constructor|].
  inversion N as [|? ? Hn Hd]; subst.
  destruct (p x); simpl; [|apply IH, Hd].
  constructor; [|apply IH, Hd].
  intros Hin. apply Hn. apply in_map_iff in Hin. destruct Hin as (y & Hy & Hf).
  apply filter_In in Hf. apply in_map_iff. exists y. tauto.
Qed.

Lemma In_map_filter_other (A : Type) (key : A -> string) (target k : string)
  (l : list A) :
  In k (map key l) -> k <> target ->
  In k (map key (filter (fun x => negb (String.eqb (key x) target)) l)).
Proof.
  intros Hin N. apply in_map_iff in Hin. destruct Hin as (x & Hx & Hl).
  apply in_map_iff. exists x. split; [exact Hx|].
  apply filter_In. split; [exact Hl|].
  apply negb_true_iff, String.eqb_neq. congruence.
Qed.

(** a delete that went through removed no row that a key still names *)
Lemma refers_after_delete (A : Type) (key : A -> string) (target : string)
  (rows : list A) (fkOf : ConsultaProd.t -> option string)
  (records : list ConsultaProd.t) (r : ConsultaProd.t) :
  existsb (fun v => existsb (fun r => fkEq (fkOf r) (key v)) records)
    (filter (fun x => String.eqb (key x) target) rows) = false ->
  In r records ->
  refers (fkOf r) (map key rows) ->
  refers (fkOf r)
    (map key (filter (fun x => negb (String.eqb (key x) target)) rows)).
Proof.
  intros V Hr R k E. specialize (R k E).
  destruct (String.eqb k target) eqn:Ek.
  - apply String.eqb_eq in Ek. subst k. exfalso.
    apply in_map_iff in R. destruct R as (x & Hx & Hl).
    assert (T : existsb (fun v => existsb (fun r => fkEq (fkOf r) (key v)) records)
                  (filter (fun x => String.eqb (key x) target) rows) = true).
    { apply existsb_exists. exists x. split.
      - apply filter_In. split; [exact Hl | apply String.eqb_eq, Hx].
      - apply existsb_exists. exists r. split; [exact Hr|].
        rewrite E, Hx. simpl. apply String.eqb_refl. }
    congruence.
  - apply In_map_filter_other; [exact R | apply String.eqb_neq, Ek].
Qed.

Lemma refers_mono (fk : option string) (ids ids' : list string) :
  (forall k, In k ids -> In k ids') -> refers fk ids -> refers fk ids'.
Proof. intros H R k E. apply H, R, E. Qed.

Lemma countBy_count_occ (A : Type) (key : A -> string) (c : string) (l : list A) :
  countBy (fun r => String.eqb (key r) c) l
  = Z.of_nat (count_occ string_dec (map key l) c).
Proof.
  unfold countBy. f_equal.
  induction l as [|x l IH]; simpl; [reflexivity|].
  destruct (string_dec (key x) c) as [E|E].
  - apply String.eqb_eq in E. rewrite E. simpl. rewrite IH. reflexivity.
  - apply String.eqb_neq in E. rewrite E. exact IH.
Qed.

Lemma count_occ_map_le (A : Type) (key : A -> string) (g : A -> A) (k : string)
  (l : list A) :
  (forall u, In u l -> key (g u) = k -> key u = k) ->
  (count_occ string_dec (map key (map g l)) k
   <= count_occ string_dec (map key l) k)%nat.
Proof.
  induction l as [|x l IH]; simpl; intros H; [lia|].
  assert (IH' := IH (fun u Hu => H u (or_intror Hu))).
  destruct (string_dec (key (g x)) k) as [E|E].
  - rewrite (H x (or_introl eq_refl) E).
    destruct (string_dec k k); [lia | congruence].
  - destruct (string_dec (key x) k); lia.
Qed.

(** an update that went through leaves the unique column unique *)
Lemma NoDup_after_update (A : Type) (key : A -> string) (w : A -> bool) (s : A -> A)
  (rows : list A) :
  NoDup (map key rows) ->
  existsb (fun c' =>
     1 <? countBy (fun r => String.eqb (key r) (key c'))
            (map (fun c => if w c then s c else c) rows))
    (map s (filter w rows)) = false ->
  NoDup (map key (map (fun c => if w c then s c else c) rows)).
Proof.
  intros N C. apply (NoDup_count_occ string_dec). intros k.
  destruct (existsb (fun u => w u && String.eqb (key (s u)) k) rows) eqn:E.
  - apply existsb_exists in E. destruct E as (u & Hu & E).
    apply andb_true_iff in E. destruct E as [Ew Ek]. apply String.eqb_eq in Ek.
    assert (F : (1 <? countBy (fun r => String.eqb (key r) (key (s u)))
                        (map (fun c => if w c then s c else c) rows)) = false).
    { destruct (1 <? _) eqn:X; [|reflexivity].
      assert (T : existsb (fun c' =>
                    1 <? countBy (fun r => String.eqb (key r) (key c'))
                           (map (fun c => if w c then s c else c) rows))
                    (map s (filter w rows)) = true).
      { apply existsb_exists. exists (s u). split; [|exact X].
        apply in_map, filter_In. split; assumption. }
      congruence. }
    rewrite countBy_count_occ, Ek in F. apply Z.ltb_ge in F. lia.
  - eapply Nat.le_trans.
    + apply count_occ_map_le. intros u Hu Ek.
      destruct (w u) eqn:Ew; [|exact Ek]. exfalso.
      assert (T : existsb (fun u => w u && String.eqb (key (s u)) k) rows = true).
      { apply existsb_exists. exists u. split; [exact Hu|].
        rewrite Ew. simpl. apply String.eqb_eq, Ek. }
      congruence.
    + apply (NoDup_count_occ string_dec), N.
Qed.


Lemma substring_length (s : string) (n m : nat) :
  (String.length (String.substring n m s) <= m)%nat.
Proof.
  revert n m. induction s as [|c s IH]; intros n m.
  - destruct n, m; simpl; lia.
  - destruct n as [|n].
    + destruct m as [|m]; simpl; [lia|]. specialize (IH 0%nat m). lia.
    + simpl. apply IH.
Qed.

(** what a [varchar(n)] column stores fits the column *)
Lemma varchar_width (n : nat) (s s' : string) :
  varchar n s = Ok s' -> fits n s' = true.
Proof.
  unfold varchar, fits. destruct (String.length s <=? n)%nat eqn:E.
  - intros H. injection H as <-. exact E.
  - destruct (allSpaces _); [|discriminate].
    intros H. injection H as <-. apply Nat.leb_le, substring_length.
Qed.

Lemma varcharOpt_width (n : nat) (o o' : option string) :
  varcharOpt n o = Ok o' -> fitsOpt n o' = true.
Proof.
  destruct o as [s|]; simpl.
  - destruct (varchar n s) as [s'|e] eqn:V; simpl; [|discriminate].
    intros H. injection H as <-. simpl. eapply varchar_width, V.
  - intros H. injection H as <-. reflexivity.
Qed.

Lemma createCBO_keeps (db db' : Db) (id : string) (t : Z) (d : InsertCBO.t) (c : CBO.t) :
  Constraints db -> createCBO db id t d = Ok (db', c) -> Constraints db'.
Proof.
  intros (H1 & H2 & H3 & H4 & H5 & H6 & H7 & H8 & H9).
  unfold createCBO, cbo_insert. cbn [CBO.codigo].
  destruct (varchar 20 (InsertCBO.codigo d)) as [s|e] eqn:V; [|discriminate].
  cbn [bind with_codigo CBO.id CBO.codigo CBO.descricao CBO.status CBO.createdAt
       CBO.updatedAt].
  destruct (taken CBO.id id (cbo db)) eqn:Ti; [discriminate|].
  destruct (taken CBO.codigo s (cbo db)) eqn:Tc; [discriminate|].
  simpl. intros E. injection E as <- <-.
  unfold Constraints. simpl.
  split; [apply NoDup_map_snoc; assumption|].
  repeat (split; [assumption|]).
  split; [apply NoDup_map_snoc; assumption|].
  split; [assumption|].
  split.
  - eapply Forall_impl; [|exact H8]. simpl. intros r (R1 & R2).
    split; [|exact R2].
    eapply refers_mono; [|exact R1]. intros k Hk.
    rewrite map_app. apply in_or_app. left. exact Hk.
  - unfold widthsHold in *. simpl. rewrite !andb_true_iff in *.
    destruct H9 as [[W1 W2] W3]. repeat split; try assumption.
    rewrite forallb_app, W1. simpl. rewrite (varchar_width _ _ V). reflexivity.
Qed.

Lemma updateCBO_keeps (db db' : Db) (id : string) (d : PartialCBO.t) (t : Z)
  (o : option CBO.t) :
  Constraints db -> updateCBO db id d t = Ok (db', o) -> Constraints db'.
Proof.
  intros (H1 & H2 & H3 & H4 & H5 & H6 & H7 & H8 & H9).
  unfold updateCBO, storedCBO.
  destruct (varcharOpt 20 (PartialCBO.codigo d)) as [s|e] eqn:V; [|discriminate].
  cbn [bind]. unfold cbo_update.
  match goal with |- context [if ?c then _ else _] => destruct c eqn:C end;
    simpl; intros E; [discriminate E|].
  injection E as <- _.
  match goal with
  | |- context [setCBO ?v t] => set (values := v) in *
  end.
  assert (I : map CBO.id
                (map (fun c => if String.eqb (CBO.id c) id then setCBO values t c else c)
                   (cbo db)) = map CBO.id (cbo db)).
  { rewrite map_map. apply map_ext. intros c.
    destruct (String.eqb (CBO.id c) id); reflexivity. }
  unfold Constraints. simpl. rewrite I.
  repeat (split; [assumption|]).
  split; [apply NoDup_after_update; assumption|].
  split; [assumption|]. split; [assumption|].
  unfold widthsHold in *. simpl. rewrite !andb_true_iff in *.
  destruct H9 as [[W1 W2] W3]. repeat split; try assumption.
  apply forallb_forall. intros c Hc. apply in_map_iff in Hc.
  destruct Hc as (c0 & <- & Hc0).
  pose proof (proj1 (forallb_forall _ _) W1 c0 Hc0) as F0.
  destruct (String.eqb (CBO.id c0) id); [|exact F0].
  unfold setCBO, values. cbn [CBO.codigo PartialCBO.codigo].
  destruct s as [s|]; cbn [default]; [|exact F0].
  apply (varcharOpt_width _ _ V).
Qed.

Lemma deleteCBO_keeps (db db' : Db) (id : string) (b : bool) :
  Constraints db -> deleteCBO db id = Ok (db', b) -> Constraints db'.
Proof.
  intros (H1 & H2 & H3 & H4 & H5 & H6 & H7 & H8 & H9).
  unfold deleteCBO, cbo_delete.
  match goal with |- context [if ?c then _ else _] => destruct c eqn:C end;
    simpl; intros E; [discriminate E|].
  injection E as <- _.
  unfold Constraints. simpl.
  split; [apply NoDup_map_filter; assumption|].
  repeat (split; [assumption|]).
  split; [apply NoDup_map_filter; assumption|].
  split; [assumption|].
  split.
  - apply Forall_forall. intros r Hr.
    destruct (proj1 (Forall_forall _ _) H8 r Hr) as (R1 & R2).
    split; [|exact R2].
    apply (refers_after_delete CBO.id id (cbo db) ConsultaProd.prdCbo
             (consultaProd db) r C Hr R1).
  - unfold widthsHold in *. simpl. rewrite !andb_true_iff in *.
    destruct H9 as [[W1 W2] W3]. repeat split; try assumption.
    apply forallb_forall. intros c Hc. apply filter_In in Hc.
    apply (proj1 (forallb_forall _ _) W1 c (proj1 Hc)).
Qed.

Lemma createPrestador_keeps (db db' : Db) (id : string) (t : Z)
  (d : InsertPrestador.t) (p : Prestador.t) :
  Constraints db -> createPrestador db id t d = Ok (db', p) -> Constraints db'.
Proof.
  intros (H1 & H2 & H3 & H4 & H5 & H6 & H7 & H8 & H9).
  unfold createPrestador, prestador_insert.
  cbn [Prestador.codigo Prestador.nomeRazaoSocial Prestador.cnpjCpf Prestador.tipo].
  destruct (varchar 20 (InsertPrestador.codigo d)) as [s1|e] eqn:V1; [|discriminate].
  cbn [bind].
  destruct (varchar 255 (InsertPrestador.nomeRazaoSocial d)) as [s2|e] eqn:V2;
    [|discriminate].
  cbn [bind].
  destruct (varchar 20 (InsertPrestador.cnpjCpf d)) as [s3|e] eqn:V3; [|discriminate].
  cbn [bind].
  destruct (varchar 50 (InsertPrestador.tipo d)) as [s4|e] eqn:V4; [|discriminate].
  cbn [bind Prestador.id Prestador.codigo].
  destruct (taken Prestador.id id (prestador db)) eqn:Ti; [discriminate|].
  destruct (taken Prestador.codigo s1 (prestador db)) eqn:Tc; [discriminate|].
  simpl. intros E. injection E as <- <-.
  unfold Constraints. simpl.
  split; [assumption|].
  split; [apply NoDup_map_snoc; assumption|].
  repeat (split; [assumption|]).
  split; [apply NoDup_map_snoc; assumption|].
  split.
  - eapply Forall_impl; [|exact H8]. simpl. intros r (R1 & R2 & R3).
    split; [exact R1|]. split; [|exact R3].
    eapply refers_mono; [|exact R2]. intros k Hk.
    rewrite map_app. apply in_or_app. left. exact Hk.
  - unfold widthsHold in *. simpl. rewrite !andb_true_iff in *.
    destruct H9 as [[W1 W2] W3]. repeat split; try assumption.
    rewrite forallb_app, W2. simpl.
    rewrite (varchar_width _ _ V1), (varchar_width _ _ V2),
            (varchar_width _ _ V3), (varchar_width _ _ V4).
    reflexivity.
Qed.

Lemma deletePrestador_keeps (db db' : Db) (id : string) (b : bool) :
  Constraints db -> deletePrestador db id = Ok (db', b) -> Constraints db'.
Proof.
  intros (H1 & H2 & H3 & H4 & H5 & H6 & H7 & H8 & H9).
  unfold deletePrestador, prestador_delete.
  match goal with |- context [if ?c then _ else _] => destruct c eqn:C end;
    simpl; intros E; [discriminate E|].
  injection E as <- _.
  unfold Constraints. simpl.
  split; [assumption|].
  split; [apply NoDup_map_filter; assumption|].
  repeat (split; [assumption|]).
  split; [apply NoDup_map_filter; assumption|].
  split.
  - apply Forall_forall. intros r Hr.
    destruct (proj1 (Forall_forall _ _) H8 r Hr) as (R1 & R2 & R3).
    split; [exact R1|]. split; [|exact R3].
    apply (refers_after_delete Prestador.id id (prestador db) ConsultaProd.prdPrest
             (consultaProd db) r C Hr R2).
  - unfold widthsHold in *. simpl. rewrite !andb_true_iff in *.
    destruct H9 as [[W1 W2] W3]. repeat split; try assumption.
    apply forallb_forall. intros c Hc. apply filter_In in Hc.
    apply (proj1 (forallb_forall _ _) W2 c (proj1 Hc)).
Qed.

Lemma createConsultaProd_keeps (db db' : Db) (id : string) (t : Z)
  (d : InsertConsultaProd.t) (r : ConsultaProd.t) :
  Constraints db -> createConsultaProd db id t d = Ok (db', r) -> Constraints db'.
Proof.
  intros (H1 & H2 & H3 & H4 & H5 & H6 & H7 & H8 & H9).
  unfold createConsultaProd, consultaProd_insert.
  cbn [ConsultaProd.prdCbo ConsultaProd.prdPrest ConsultaProd.prdProc
       ConsultaProd.prdRub ConsultaProd.prdCidpri].
  destruct (varcharOpt 255 (InsertConsultaProd.prdCbo d)) as [k1|e] eqn:V1;
    [|discriminate].
  cbn [bind].
  destruct (varcharOpt 255 (InsertConsultaProd.prdPrest d)) as [k2|e] eqn:V2;
    [|discriminate].
  cbn [bind].
  destruct (varcharOpt 255 (InsertConsultaProd.prdProc d)) as [k3|e] eqn:V3;
    [|discriminate].
  cbn [bind].
  destruct (varcharOpt 255 (InsertConsultaProd.prdRub d)) as [k4|e] eqn:V4;
    [|discriminate].
  cbn [bind].
  destruct (varcharOpt 20 (InsertConsultaProd.prdCidpri d)) as [k5|e] eqn:V5;
    [|discriminate].
  cbn [bind ConsultaProd.id ConsultaProd.prdCbo ConsultaProd.prdPrest
       ConsultaProd.prdProc ConsultaProd.prdRub].
  destruct (taken ConsultaProd.id id (consultaProd db)) eqn:Ti; [discriminate|].
  match goal with |- context [if ?c then _ else _] => destruct c eqn:C end;
    simpl; intros E; [|discriminate E].
  injection E as <- <-.
  unfold Constraints. simpl.
  repeat (split; [assumption|]).
  split; [apply NoDup_map_snoc; assumption|].
  repeat (split; [assumption|]).
  split.
  - apply Forall_app. split; [exact H8|].
    constructor; [|constructor]. simpl.
    rewrite !andb_true_iff, !fkOk_refers in C. tauto.
  - unfold widthsHold in *. simpl. rewrite !andb_true_iff in *.
    destruct H9 as [[W1 W2] W3]. repeat split; try assumption.
    rewrite forallb_app, W3. simpl.
    rewrite (varcharOpt_width _ _ V1), (varcharOpt_width _ _ V2),
            (varcharOpt_width _ _ V3), (varcharOpt_width _ _ V4),
            (varcharOpt_width _ _ V5).
    reflexivity.
Qed.

Section ConstraintFacts.
Context {rt : Runtime}.

Lemma afterCall_keeps (db : Db) (c : StorageCall) :
  Constraints db -> Constraints (afterCall db c).
Proof.
  intros H. destruct c as [id t d|id d t|id|id t d|id|id t d]; simpl.
  - destruct (createCBO db id t d) as [[db' x]|e] eqn:E; simpl; [|exact H].
    eapply createCBO_keeps; eassumption.
  - destruct (updateCBO db id d t) as [[db' x]|e] eqn:E; simpl; [|exact H].
    eapply updateCBO_keeps; eassumption.
  - destruct (deleteCBO db id) as [[db' x]|e] eqn:E; simpl; [|exact H].
    eapply deleteCBO_keeps; eassumption.
  - destruct (createPrestador db id t d) as [[db' x]|e] eqn:E; simpl; [|exact H].
    eapply createPrestador_keeps; eassumption.
  - destruct (deletePrestador db id) as [[db' x]|e] eqn:E; simpl; [|exact H].
    eapply deletePrestador_keeps; eassumption.
  - destruct (createConsultaProd db id t d) as [[db' x]|e] eqn:E; simpl; [|exact H].
    eapply createConsultaProd_keeps; eassumption.
Qed.

(** X1.  Whatever sequence of createCBO, updateCBO, deleteCBO,
    createPrestador, deletePrestador and createConsultaProd calls is made,
    succeeding or throwing, a database that satisfies the constraints of
    the schema (distinct primary keys, distinct occupation and provider
    codes, every foreign key of a production record NULL or naming an
    existing row, every [varchar(n)] value within its width) still
    satisfies them afterwards. *)
Theorem constraints_kept_by_calls (db : Db) (cs : list StorageCall) :
  constraintsHold db = true -> constraintsHold (afterCalls db cs) = true.
Proof.
  rewrite !constraintsHold_iff. unfold afterCalls.
  revert db. induction cs as [|c cs IH]; intros db H; simpl; [exact H|].
  apply IH, afterCall_keeps, H.
Qed.

End ConstraintFacts.

(* ------------------------------------------------------------------ *)
(** ** Pages, the export and the numbers of the data table *)

Lemma In_slice (A : Type) (lo hi : nat) (l : list A) (x : A) :
  In x (slice lo hi l) -> In x l.
Proof.
  intros H. apply In_nth_error in H. destruct H as [i Hi].
  rewrite slice_nth_error in Hi.
  destruct (lo + i <? hi)%nat; [|discriminate Hi].
  exact (nth_error_In _ _ Hi).
Qed.

Lemma find_fk_none (A : Type) (key : A -> string) (fk : option string) (rows : list A) :
  refers fk (map key rows) ->
  (find (fun x => names fk (key x)) rows = None <-> fk = None).
Proof.
  intros R. split.
  - intros F. destruct fk as [k|]; [|reflexivity]. exfalso.
    specialize (R k eq_refl). apply in_map_iff in R. destruct R as (x & Hx & Hl).
    apply (find_none _ _ F) in Hl. simpl in Hl. rewrite Hx, String.eqb_refl in Hl.
    discriminate Hl.
  - intros ->. induction rows as [|x rows IH]; simpl; [reflexivity|].
    apply IH. intros k E. discriminate E.
Qed.

(** LIMIT and OFFSET return rows of their input *)
Lemma limitOffset_incl (A : Type) (limit offset : Z) (rows out : list A) :
  limitOffset limit offset rows = Ok out -> forall x, In x out -> In x rows.
Proof.
  unfold limitOffset.
  destruct (if 0 <=? limit then _ else _) as [take|e]; [|discriminate].
  cbn [bind].
  destruct (if truthy (JNum offset) then _ else _) as [skip|e]; [|discriminate].
  cbn [bind].
  assert (S : forall (l : list A) (x : A), In x (match take with
                                | Some n => firstn (Z.to_nat n) l
                                | None => l
                                end) -> In x l).
  { intros l x. destruct take as [n|]; [|trivial].
    intros H. rewrite <- (firstn_skipn (Z.to_nat n) l). apply in_or_app. left. exact H. }
  destruct skip as [n|].
  - destruct (n <? 0); [discriminate|]. cbn [bind].
    destruct take as [m|]; intros E; injection E as <-; intros x Hx;
      apply S in Hx; rewrite <- (firstn_skipn (Z.to_nat n) rows);
      apply in_or_app; right; exact Hx.
  - cbn [bind]. destruct take as [m|]; intros E; injection E as <-; intros x Hx;
      apply S in Hx; exact Hx.
Qed.

Section PageFacts.
Context {rt : Runtime} {ext : RuntimeExt}.

(** whatever the page and the limit, a result holds rows of matching
    records only, and counts the matching records *)
Lemma getConsultaProdData_rows (db : Db) (tie : nat -> nat) (filters : JsVal)
  (page limit : option Z) (res : Page ReportRow.t) :
  refKeysUnique db = true ->
  getConsultaProdData db tie filters page limit = Ok res ->
  datesWellFormed filters = true
  /\ total res = Z.of_nat (length (matching filters db))
  /\ forall j, In j (data res) ->
       exists r, In r (matching filters db) /\ j = reportOf db r.
Proof.
  intros U E.
  destruct (datesWellFormed filters) eqn:W.
  2:{ rewrite (getConsultaProdData_invalid_date db tie filters page limit W) in E.
      discriminate E. }
  split; [reflexivity|].
  destruct (bindWhere_spec filters W) as [p [Hb Hsp]].
  unfold getConsultaProdData, countBy in E. rewrite Hb in E. cbn [bind] in E.
  match type of E with
  | context [limitOffset ?l ?o ?rows] =>
      destruct (limitOffset l o rows) as [out|e] eqn:L; [|discriminate E]
  end.
  cbn [bind] in E. injection E as <-. cbn [data total].
  split.
  { rewrite (filter_ext p (specPredicate filters)) by exact Hsp. reflexivity. }
  intros j Hj. apply in_map_iff in Hj. destruct Hj as (x & <- & Hx).
  apply (limitOffset_incl _ _ _ L) in Hx.
  apply orderByDesc_In in Hx. apply filter_In in Hx. destruct Hx as [Hx Hp].
  rewrite (fromJoined_lookup db U) in Hx. apply in_map_iff in Hx.
  destruct Hx as (r & <- & Hr).
  exists r. split; [|reflexivity].
  unfold matching. apply filter_In. split; [exact Hr|].
  rewrite <- Hsp. exact Hp.
Qed.

(** X2.  In a database that satisfies the constraints of the schema no
    foreign key dangles: whatever the page and the limit, every row the
    report query returns is the report row of a production record that
    matches the filter, and a nested object of it is null exactly when
    the record's foreign key is NULL. *)
Theorem report_null_means_null_key
  (db : Db) (tie : nat -> nat) (filters : JsVal) (page limit : option Z)
  (res : Page ReportRow.t) :
  constraintsHold db = true ->
  getConsultaProdData db tie filters page limit = Ok res ->
  forall j, In j (data res) ->
    exists r, In r (consultaProd db)
      /\ specPredicate filters r = true
      /\ j = reportOf db r
      /\ (ReportRow.cbo j = None <-> ConsultaProd.prdCbo r = None)
      /\ (ReportRow.prestador j = None <-> ConsultaProd.prdPrest r = None)
      /\ (ReportRow.procedimento j = None <-> ConsultaProd.prdProc r = None)
      /\ (ReportRow.sRub j = None <-> ConsultaProd.prdRub r = None).
Proof.
  intros C E j Hj.
  assert (U : refKeysUnique db = true).
  { unfold constraintsHold in C. rewrite !andb_true_iff in C. tauto. }
  destruct (getConsultaProdData_rows db tie filters page limit U E) as (_ & _ & R).
  destruct (R j Hj) as (r & Hr & ->).
  unfold matching in Hr. apply filter_In in Hr. destruct Hr as [Hin Hm].
  exists r. split; [exact Hin|]. split; [exact Hm|]. split; [reflexivity|].
  apply constraintsHold_iff in C.
  destruct C as (_ & _ & _ & _ & _ & _ & _ & F & _).
  destruct (proj1 (Forall_forall _ _) F r Hin) as (R1 & R2 & R3 & R4).
  unfold reportOf, joinOne. simpl.
  repeat split; intros H.
  - apply (@find_fk_none _ CBO.id _ (cbo db) R1).
    destruct (find _ (cbo db)); [discriminate H | reflexivity].
  - apply (@find_fk_none _ CBO.id _ (cbo db) R1) in H. rewrite H. reflexivity.
  - apply (@find_fk_none _ Prestador.id _ (prestador db) R2).
    destruct (find _ (prestador db)); [discriminate H | reflexivity].
  - apply (@find_fk_none _ Prestador.id _ (prestador db) R2) in H. rewrite H. reflexivity.
  - apply (@find_fk_none _ Procedimento.id _ (procedimento db) R3).
    destruct (find _ (procedimento db)); [discriminate H | reflexivity].
  - apply (@find_fk_none _ Procedimento.id _ (procedimento db) R3) in H. rewrite H.
    reflexivity.
  - apply (@find_fk_none _ SRub.id _ (sRub db) R4).
    destruct (find _ (sRub db)); [discriminate H | reflexivity].
  - apply (@find_fk_none _ SRub.id _ (sRub db) R4) in H. rewrite H. reflexivity.
Qed.

(** X3.  For page >= 1 and limit > 0, with page * limit a safe integer,
    a report page holds min(limit, total - (page-1)*limit) rows, none
    when that is negative: it is the count b - a + 1 of the range
    "a .. b de total" the data table prints, and the page is empty
    exactly when the printed range is empty (a > b), as for an empty
    table, where it reads "1 a 0 de 0". *)
Theorem page_row_count_matches_range
  (db : Db) (tie : nat -> nat) (filters : JsVal) (page limit : Z)
  (res : Page ReportRow.t) :
  refKeysUnique db = true ->
  1 <= page -> 0 < limit -> page * limit <= maxSafe ->
  getConsultaProdData db tie filters (Some page) (Some limit) = Ok res ->
  Z.of_nat (length (data res))
  = Z.max 0 (showingTo page limit (total res) - showingFrom page limit + 1)
  /\ Z.of_nat (length (data res)) <= limit
  /\ (data res = [] <-> showingTo page limit (total res) < showingFrom page limit).
Proof.
  intros U Hp Hl Hs E.
  destruct (getConsultaProdData_rows db tie filters _ _ U E) as (W & _ & _).
  rewrite (@getConsultaProdData_page rt db tie filters page limit U W Hp Hl Hs) in E.
  injection E as <-. simpl data. simpl total.
  unfold showingTo, showingFrom.
  assert (L : Z.of_nat (length (map (reportOf db)
                 (slice (Z.to_nat ((page - 1) * limit)) (Z.to_nat (page * limit))
                    (reportOrder tie filters db))))
              = Z.max 0 (Z.min (page * limit)
                           (Z.of_nat (length (matching filters db)))
                         - ((page - 1) * limit + 1) + 1)).
  { rewrite length_map. unfold slice, reportOrder.
    rewrite length_firstn, length_skipn, orderByDesc_length. nia. }
  split; [exact L|]. split; [rewrite L; nia|].
  split.
  - intros Z0. rewrite Z0 in L. simpl in L. nia.
  - intros Z0. apply length_zero_iff_nil. nia.
Qed.

Lemma parseIntOr_nonzero (q : option string) (d : Z) :
  d <> 0 -> parseIntOr q d <> 0.
Proof.
  intros D. unfold parseIntOr. destruct q as [s|]; [|exact D].
  destruct (parseInt s) as [n|]; [|exact D]. simpl.
  destruct (n =? 0) eqn:E; simpl; [exact D | apply Z.eqb_neq, E].
Qed.

(** the joined rows of one execution are the rows of the matching records
    in the order of that execution *)
Lemma report_rows (db : Db) (tie : nat -> nat) (filters : JsVal)
  (p : ConsultaProd.t -> bool) :
  refKeysUnique db = true ->
  (forall row, p row = specPredicate filters row) ->
  orderByDesc dtcompGtb tie (filter (fun j => p (base j)) (fromJoined db))
  = map (joinOne db) (reportOrder tie filters db).
Proof.
  intros U Hsp.
  rewrite (fromJoined_lookup db U), filter_map_comm.
  rewrite (filter_ext (fun a => p (base (joinOne db a))) (specPredicate filters))
    by (intros a; apply Hsp).
  apply (orderByDesc_map (joinOne db)
           (fun a b => ConsultaProd.prdDtcomp b <? ConsultaProd.prdDtcomp a)
           dtcompGtb).
  reflexivity.
Qed.

(** X4.  Negative numbers in the paging are not checked.  A negative
    offset (page-1)*limit is refused by the database: the query throws
    and [GET /api/reports/data] answers 500.  A negative limit alone is
    no limit at all: with a page number of 1 or less the query returns
    every matching row from the offset on. *)
Theorem negative_paging_numbers (db : Db) (page limit : Z) :
  Z.abs (page - 1) <= maxSafe -> Z.abs limit <= maxSafe ->
  Z.abs ((page - 1) * limit) <= maxSafe ->
  ((page - 1) * limit < 0 ->
   (forall tie filters,
      exists e, getConsultaProdData db tie filters (Some page) (Some limit) = Throw e)
   /\ (forall user w req,
         parseIntOr (query_page req) 1 = page ->
         parseIntOr (query_limit req) 50 = limit ->
         get_api_reports_data_handler user db w req
         = (db, message 500 "Internal server error")))
  /\ (limit < 0 -> page <= 1 ->
      forall tie filters,
        refKeysUnique db = true -> datesWellFormed filters = true ->
        exists sorted,
          Permutation sorted (matching filters db)
          /\ descending ConsultaProd.prdDtcomp sorted
          /\ getConsultaProdData db tie filters (Some page) (Some limit)
             = Ok {| data := map (reportOf db)
                               (skipn (Z.to_nat ((page - 1) * limit)) sorted);
                     total := Z.of_nat (length (matching filters db)) |}).
Proof.
  intros S1 S2 S3.
  assert (T : (page - 1) * limit < 0 -> forall tie filters,
            exists e, getConsultaProdData db tie filters (Some page) (Some limit)
                      = Throw e).
  { intros N tie filters. unfold getConsultaProdData. cbn [default].
    rewrite (toDouble_safe _ S1), (toDouble_safe _ S3).
    destruct (bindWhere (whereCondition filters)) as [p|e]; cbn [bind];
      [|eexists; reflexivity].
    unfold limitOffset. rewrite (pgBigint_safe _ S2), (pgBigint_safe _ S3).
    cbn [truthy].
    replace ((page - 1) * limit =? 0) with false by (symmetry; apply Z.eqb_neq; lia).
    destruct (0 <=? limit); cbn [negb bind];
      (replace ((page - 1) * limit <? 0) with true by (symmetry; apply Z.ltb_lt; lia));
      cbn [bind]; eexists; reflexivity. }
  split.
  - intros N. split; [apply T, N|].
    intros user w req Ep El. unfold get_api_reports_data_handler.
    rewrite Ep, El.
    match goal with |- context [match ?f with Some _ => _ | None => _ end] =>
      destruct f as [filters|] end; [|reflexivity].
    destruct (T N (tie w) filters) as [e E]. rewrite E. reflexivity.
  - intros N Hp tie filters U W.
    exists (reportOrder tie filters db).
    split; [apply orderByDesc_perm|]. split; [apply orderByDesc_descending|].
    destruct (bindWhere_spec filters W) as [p [Hb Hsp]].
    unfold getConsultaProdData, countBy. cbn [default].
    rewrite (toDouble_safe _ S1), (toDouble_safe _ S3), Hb. cbn [bind].
    rewrite (@report_rows db tie filters p U Hsp).
    rewrite (filter_ext p (specPredicate filters)) by exact Hsp.
    unfold limitOffset.
    replace (0 <=? limit) with false by (symmetry; apply Z.leb_gt; lia).
    cbn [bind truthy].
    destruct ((page - 1) * limit =? 0) eqn:E0; cbn [negb bind].
    + apply Z.eqb_eq in E0. rewrite E0. cbn [Z.to_nat skipn].
      unfold reportOf. rewrite map_map. reflexivity.
    + rewrite (pgBigint_safe _ S3). cbn [bind].
      replace ((page - 1) * limit <? 0) with false by (symmetry; apply Z.ltb_ge; nia).
      cbn [bind]. rewrite skipn_map. unfold reportOf. rewrite map_map. reflexivity.
Qed.

Lemma first_hundred_of_export (A B : Type) (f : A -> B) (l : list A) :
  firstn 100 (map f (firstn (Z.to_nat 10000) l)) = map f (firstn 100 l).
Proof.
  rewrite firstn_map, firstn_firstn.
  replace (Init.Nat.min 100 (Z.to_nat 10000)) with 100%nat by lia.
  reflexivity.
Qed.

(** X5.  [POST /api/reports/export] with a body whose dates parse answers
    200 with the first hundred rows of the whole matching report, in an
    order descending in the competence date, whatever [format] and
    [fields] are, and
    appends one audit entry with action "export" for the caller and
    nothing else; with a date that does not parse it answers 500 and
    writes nothing. *)
Theorem export_sends_first_hundred
  (user : ReqUser) (db : Db) (w : World) (req : Request) :
  req_body req <> JUndefined -> req_body req <> JNull ->
  (refKeysUnique db = true ->
   datesWellFormed (getProp (req_body req) "filters") = true ->
   taken User.id (ru_id user) (users db) = true ->
   taken AuditLog.id (audit_uuid w) (auditLog db) = false ->
   exists entry sorted,
     Permutation sorted (matching (getProp (req_body req) "filters") db)
     /\ descending ConsultaProd.prdDtcomp sorted
     /\ post_api_reports_export_handler user db w req
        = (set_auditLog db (auditLog db ++ [entry]),
           json 200
             (JObj [("success", JBool true);
                    ("message",
                     JStr (String.append "Export in "
                             (String.append
                                (templateText (getProp (req_body req) "format"))
                                " format initiated")));
                    ("data",
                     JArr (map reportRowJs
                             (map (reportOf db) (firstn 100 sorted))))]))
     /\ AuditLog.id entry = audit_uuid w
     /\ AuditLog.userId entry = Some (ru_id user)
     /\ AuditLog.action entry = "export"
     /\ AuditLog.tableName entry = "consulta_prod"
     /\ AuditLog.recordId entry = None)
  /\ (datesWellFormed (getProp (req_body req) "filters") = false ->
      post_api_reports_export_handler user db w req
      = (db, message 500 "Internal server error")).
Proof.
  intros B1 B2. split.
  - intros U W T F.
    assert (G : getConsultaProdData db (tie w) (getProp (req_body req) "filters")
                  (Some 1) (Some 10000)
                = Ok {| data := map (reportOf db)
                                  (firstn (Z.to_nat 10000)
                                     (reportOrder (tie w)
                                        (getProp (req_body req) "filters") db));
                        total := Z.of_nat (length (matching
                                   (getProp (req_body req) "filters") db)) |}).
    { rewrite (@getConsultaProdData_page rt db (tie w) _ 1 10000 U W ltac:(lia) ltac:(lia)
                 ltac:(rewrite maxSafe_value; lia)).
      unfold slice.
      replace (Z.to_nat ((1 - 1) * 10000)) with 0%nat by lia.
      replace (Z.to_nat (1 * 10000) - 0)%nat with (Z.to_nat 10000) by lia.
      reflexivity. }
    unfold post_api_reports_export_handler.
    destruct (req_body req) eqn:Eb; try congruence;
      rewrite G; unfold createAuditLog, auditLog_insert; cbn [AuditLog.id AuditLog.userId];
      cbn [InsertAuditLog.userId bind]; rewrite F, T; cbn [bind data];
      rewrite first_hundred_of_export;
      (eexists; eexists;
       split; [apply orderByDesc_perm|];
       split; [apply orderByDesc_descending|];
       split; [reflexivity|]); repeat split.
  - intros W. unfold post_api_reports_export_handler.
    destruct (req_body req); try congruence;
      rewrite (@getConsultaProdData_invalid_date rt db (tie w) _ (Some 1) (Some 10000) W);
      reflexivity.
Qed.

End PageFacts.

(* ------------------------------------------------------------------ *)
(** ** The filter object of the report generator *)

Lemma lookupProp_assignProp_same (k : string) (v : JsVal)
  (props : list (string * JsVal)) :
  lookupProp k (assignProp k v props) = v.
Proof.
  induction props as [|[k0 v0] rest IH]; simpl.
  - rewrite String.eqb_refl. reflexivity.
  - destruct (String.eqb k k0) eqn:E; simpl; rewrite E; [reflexivity | exact IH].
Qed.

Lemma natText_inj (i j : nat) : natText i = natText j -> i = j.
Proof.
  unfold natText. intros E. apply Unsigned.to_uint_inj.
  assert (S : NilEmpty.uint_of_string (NilEmpty.string_of_uint (Nat.to_uint i))
              = NilEmpty.uint_of_string (NilEmpty.string_of_uint (Nat.to_uint j)))
    by (rewrite E; reflexivity).
  rewrite !NilEmpty.usu in S. injection S as S. exact S.
Qed.

Lemma filterKey_inj (i j : nat) : filterKey i = filterKey j -> i = j.
Proof.
  unfold filterKey. simpl. intros E. injection E as E. apply natText_inj, E.
Qed.

(** a key that is no [filter_j] of the positions walked is left alone *)
Lemma forEachFilter_other (k : string) (l : list ReportFilter.t) (s : nat)
  (acc : list (string * JsVal)) :
  (forall j, (s <= j < s + length l)%nat -> k <> filterKey j) ->
  lookupProp k (forEachFilter s l acc) = lookupProp k acc.
Proof.
  revert s acc. induction l as [|f l IH]; intros s acc H; simpl; [reflexivity|].
  rewrite IH by (intros j Hj; apply H; simpl; lia).
  match goal with |- context [if ?c then assignProp _ _ _ else _] => destruct c end;
    [|reflexivity].
  apply lookupProp_assignProp_other. intros E. apply (H s); [simpl; lia | auto].
Qed.

Lemma forEachFilter_at (l : list ReportFilter.t) (s i : nat)
  (acc : list (string * JsVal)) :
  (forall j, (s <= j)%nat -> lookupProp (filterKey j) acc = JUndefined) ->
  lookupProp (filterKey (s + i)) (forEachFilter s l acc)
  = match nth_error l i with
    | Some f =>
        if truthy (JStr (ReportFilter.field f)) && truthy (ReportFilter.value f)
        then clauseJs f else JUndefined
    | None => JUndefined
    end.
Proof.
  revert s i acc. induction l as [|f l IH]; intros s i acc H; simpl.
  - rewrite H by lia. destruct i; reflexivity.
  - destruct i as [|i]; simpl.
    + rewrite Nat.add_0_r.
      rewrite forEachFilter_other
        by (intros j Hj E; apply filterKey_inj in E; lia).
      match goal with |- context [if ?c then assignProp _ _ _ else _] => destruct c end.
      * apply lookupProp_assignProp_same.
      * apply H. lia.
    + replace (s + S i)%nat with (S s + i)%nat by lia.
      apply IH. intros j Hj.
      match goal with |- context [if ?c then assignProp _ _ _ else _] => destruct c end.
      * rewrite lookupProp_assignProp_other; [apply H; lia|].
        intros E. apply filterKey_inj in E. lia.
      * apply H. lia.
Qed.

Lemma filterIndex_remove_nth (A : Type) (index : nat) (l : list A) (s j : nat) :
  nth_error (filterIndex (fun i => negb (i =? s + index)%nat) s l) j
  = nth_error l (if (j <? index)%nat then j else S j).
Proof.
  revert index s j. induction l as [|x l IH]; intros index s j; simpl.
  - destruct (j <? index)%nat; destruct j; reflexivity.
  - destruct index as [|index]; simpl.
    + rewrite Nat.add_0_r, Nat.eqb_refl. simpl.
      replace (filterIndex (fun i => negb (i =? s)%nat) (S s) l) with l.
      * destruct j; reflexivity.
      * clear. generalize (Nat.lt_succ_diag_r s). generalize (S s) as m.
        induction l as [|y l IHl]; intros m Hm; simpl; [reflexivity|].
        replace (m =? s)%nat with false by (symmetry; apply Nat.eqb_neq; lia).
        simpl. f_equal. apply IHl. lia.
    + replace (s =? s + S index)%nat with false by (symmetry; apply Nat.eqb_neq; lia).
      simpl. destruct j as [|j]; simpl; [reflexivity|].
      replace (s + S index)%nat with (S s + index)%nat by lia.
      rewrite IH. change (S j <? S index)%nat with (j <? index)%nat.
      destruct (j <? index)%nat; reflexivity.
Qed.

Lemma assignProp_keys (k key : string) (v : JsVal) (props : list (string * JsVal)) :
  In key (map fst (assignProp k v props)) -> key = k \/ In key (map fst props).
Proof.
  induction props as [|[k0 v0] rest IH]; simpl.
  - intros [<-|[]]. left. reflexivity.
  - destruct (String.eqb k k0) eqn:E; simpl.
    + intros [<-|H]; right; [left; reflexivity | right; exact H].
    + intros [<-|H]; [right; left; reflexivity|].
      destruct (IH H) as [->|H']; [left; reflexivity | right; right; exact H'].
Qed.

Lemma forEachFilter_keys (key : string) (l : list ReportFilter.t) (s : nat)
  (acc : list (string * JsVal)) :
  In key (map fst (forEachFilter s l acc)) ->
  In key (map fst acc) \/ exists j, key = filterKey j.
Proof.
  revert s acc. induction l as [|f l IH]; intros s acc; simpl; [auto|].
  intros H. apply IH in H. destruct H as [H|H]; [|right; exact H].
  match type of H with context [if ?c then assignProp _ _ _ else _] => destruct c end;
    [|left; exact H].
  apply assignProp_keys in H. destruct H as [->|H]; [right; eauto | left; exact H].
Qed.

Lemma lookupProp_absent (k : string) (props : list (string * JsVal)) :
  ~ In k (map fst props) -> lookupProp k props = JUndefined.
Proof.
  induction props as [|[k0 v0] rest IH]; simpl; intros N; [reflexivity|].
  destruct (String.eqb k k0) eqn:E.
  - apply String.eqb_eq in E. exfalso. apply N. left. congruence.
  - apply IH. intros H. apply N. right. exact H.
Qed.

Lemma jsonOf_absent (k : string) (props : list (string * JsVal)) :
  ~ In k (map fst props) -> getProp (jsonOf (JObj props)) k = JUndefined.
Proof.
  simpl. induction props as [|[k0 v0] rest IH]; intros N; [reflexivity|].
  assert (N' : ~ In k (map fst rest)) by (intros H; apply N; right; exact H).
  assert (E : String.eqb k k0 = false).
  { apply String.eqb_neq. intros ->. apply N. left. reflexivity. }
  destruct v0; simpl; rewrite ?E; apply IH, N'.
Qed.

Section FilterObjectFacts.
Context {rt : Runtime}.

(** X6.  A filter object built by the report generator never filters:
    its keys are all of the form filter_N, the server reads none of them,
    so the query compiled from it, as built or as sent through JSON, has
    no WHERE clause and every execution of the report is that of the
    unfiltered one. *)
Theorem generator_filters_never_filter
  (filterList : list ReportFilter.t) (db : Db) (tie : nat -> nat)
  (page limit : option Z) :
  whereCondition (buildFilterObject filterList) = None
  /\ whereCondition (jsonOf (buildFilterObject filterList)) = None
  /\ getConsultaProdData db tie (jsonOf (buildFilterObject filterList)) page limit
     = getConsultaProdData db tie (JObj []) page limit.
Proof.
  assert (K : forall k, In k recognizedKeys ->
                ~ In k (map fst (forEachFilter 0 filterList []))).
  { intros k Hk H. apply forEachFilter_keys in H. destruct H as [[]|[j E]].
    unfold filterKey in E. simpl in Hk.
    destruct Hk as [<-|[<-|[<-|[<-|[]]]]]; discriminate E. }
  assert (W1 : whereCondition (buildFilterObject filterList) = None).
  { apply whereCondition_no_key. unfold present, buildFilterObject. simpl.
    rewrite !lookupProp_absent by (apply K; simpl; auto). reflexivity. }
  assert (W2 : whereCondition (jsonOf (buildFilterObject filterList)) = None).
  { apply whereCondition_no_key. unfold present, buildFilterObject.
    cbn [forallb recognizedKeys].
    rewrite !jsonOf_absent by (apply K; simpl; auto). reflexivity. }
  split; [exact W1|]. split; [exact W2|].
  unfold getConsultaProdData. rewrite W2. reflexivity.
Qed.

(** X7.  The filter object keeps every clause under its own position:
    filter_i holds clause i, with its field, operator, value and
    connector, when both its field and its value are non-empty, and is
    absent otherwise or when there is no clause i; dropped clauses leave
    gaps, the others are not renumbered. *)
Theorem filter_object_by_position (filterList : list ReportFilter.t) (i : nat) :
  getProp (buildFilterObject filterList) (filterKey i)
  = match nth_error filterList i with
    | Some f =>
        if truthy (JStr (ReportFilter.field f)) && truthy (ReportFilter.value f)
        then clauseJs f else JUndefined
    | None => JUndefined
    end.
Proof.
  unfold buildFilterObject. simpl.
  apply (@forEachFilter_at filterList 0 i []). reflexivity.
Qed.

(** X8.  Removing clause [index] hands [onFiltersChange] the object of
    the remaining clauses: a position before [index] keeps its clause,
    a position from [index] on now carries the clause that followed it,
    connector included. *)
Theorem removeFilter_shifts_positions
  (index : nat) (filters : list ReportFilter.t) (j : nat) :
  nth_error (fst (removeFilter index filters)) j
  = nth_error filters (if (j <? index)%nat then j else S j)
  /\ getProp (snd (removeFilter index filters)) (filterKey j)
     = match nth_error filters (if (j <? index)%nat then j else S j) with
       | Some f =>
           if truthy (JStr (ReportFilter.field f)) && truthy (ReportFilter.value f)
           then clauseJs f else JUndefined
       | None => JUndefined
       end.
Proof.
  unfold removeFilter. cbn [fst snd].
  pose proof (@filterIndex_remove_nth _ index filters 0 j) as R. simpl in R.
  split; [exact R|].
  unfold buildFilterObject. simpl.
  rewrite (@forEachFilter_at _ 0 j []) by reflexivity. simpl. rewrite R. reflexivity.
Qed.

End FilterObjectFacts.

(* ------------------------------------------------------------------ *)
(** ** The client's token and the client's reading of a refusal *)

Lemma jwtAlphabet_split (t : string) :
  jwtAlphabet t = true -> split " " t = [t].
Proof.
  induction t as [|a t IH]; simpl; intros H; [reflexivity|].
  apply andb_true_iff in H. destruct H as [Ha Ht].
  destruct (Ascii.eqb a " ") eqn:E.
  - apply Ascii.eqb_eq in E. subst a. discriminate Ha.
  - rewrite (IH Ht). reflexivity.
Qed.

Lemma bearerToken_of_header (t : string) :
  jwtAlphabet t = true ->
  bearerToken (Some (String.append "Bearer " t)) = Some t.
Proof.
  intros H. unfold bearerToken. simpl. rewrite (jwtAlphabet_split t H). reflexivity.
Qed.

Section ClientAuthFacts.
Context {rt : Runtime}.

(** X9.  The token the client keeps is the token the server verifies: a
    request sent with the headers of [getAuthHeaders] for a stored token
    made of JWT characters is handled as [jwt.verify] of that very token
    decides, and with no stored token, or an empty one, no header is sent
    and the request is answered 401. *)
Theorem stored_token_reaches_verify
  (next : Handler) (db : Db) (w : World) (req : Request) (token : option string) :
  headers_authorization req = sentAuthorization (getAuthHeaders token) ->
  (forall t, token = Some t -> t <> "" -> jwtAlphabet t = true ->
     authenticateToken next db w req
     = match jwt_verify t JWT_SECRET (now w) with
       | inl user => next user db w req
       | inr _ => (db, message 403 "Invalid token")
       end)
  /\ (token = None \/ token = Some "" ->
      headers_authorization req = None
      /\ authenticateToken next db w req = (db, message 401 "Access token required")).
Proof.
  intros H. split.
  - intros t -> N A.
    assert (S : sentAuthorization (getAuthHeaders (Some t))
                = Some (String.append "Bearer " t)).
    { unfold getAuthHeaders, sentAuthorization. simpl.
      apply String.eqb_neq in N. rewrite N. reflexivity. }
    unfold authenticateToken. rewrite H, S, (bearerToken_of_header t A).
    simpl truthy. apply String.eqb_neq in N. rewrite N. simpl negb. cbv iota.
    destruct (jwt_verify t JWT_SECRET (now w)); reflexivity.
  - intros [-> | ->]; unfold authenticateToken; rewrite H; split; reflexivity.
Qed.

End ClientAuthFacts.


Lemma natText_digits (n : nat) : digitsOnly (natText n) = true.
Proof.
  unfold natText. generalize (Nat.to_uint n) as d.
  induction d; cbn [NilEmpty.string_of_uint digitsOnly]; auto.
Qed.

(** a numeral followed by ": " starts with "abc: " only if it is "abc" *)
Lemma status_prefix (a b c : ascii) (d txt : string) :
  digitsOnly (String a (String b (String c EmptyString))) = true ->
  digitsOnly d = true ->
  String.prefix (String a (String b (String c ": ")))
    (String.append d (String.append ": " txt)) = true ->
  d = String a (String b (String c EmptyString)).
Proof.
  intros Dabc Dd P.
  cbn [digitsOnly] in Dabc. rewrite !andb_true_iff in Dabc.
  destruct Dabc as [[Ha1 Ha2] [[Hb1 Hb2] [[Hc1 Hc2] _]]].
  assert (Col : forall x, ((48 <=? nat_of_ascii x) && (nat_of_ascii x <=? 57))%nat = true ->
                 x <> ":"%char).
  { intros x Hx ->. vm_compute in Hx. discriminate Hx. }
  destruct d as [|x d]; cbn [String.prefix String.append] in P.
  { destruct (ascii_dec a ":") as [E|E]; [|discriminate P].
    exfalso. apply (Col a); [rewrite Ha1, Ha2; reflexivity | exact E]. }
  destruct (ascii_dec a x) as [<-|]; [|discriminate P].
  destruct d as [|y d]; cbn [String.prefix String.append] in P.
  { destruct (ascii_dec b ":") as [E|E]; [|discriminate P].
    exfalso. apply (Col b); [rewrite Hb1, Hb2; reflexivity | exact E]. }
  destruct (ascii_dec b y) as [<-|]; [|discriminate P].
  destruct d as [|z d]; cbn [String.prefix String.append] in P.
  { destruct (ascii_dec c ":") as [E|E]; [|discriminate P].
    exfalso. apply (Col c); [rewrite Hc1, Hc2; reflexivity | exact E]. }
  destruct (ascii_dec c z) as [<-|]; [|discriminate P].
  destruct d as [|u d]; [reflexivity|]. cbn [String.prefix String.append] in P.
  destruct (ascii_dec ":" u) as [<-|]; [|discriminate P].
  cbn [digitsOnly] in Dd. rewrite !andb_true_iff in Dd.
  destruct Dd as (_ & _ & _ & Du & _). destruct Du as [_ Du].
  vm_compute in Du. discriminate Du.
Qed.

Lemma errorMessage_prefix (code : nat) (a b c : ascii) (st : Z) (txt : string) :
  natText code = String a (String b (String c EmptyString)) ->
  0 <= st ->
  (String.prefix (String a (String b (String c ": "))) (errorMessage st txt) = true
   <-> st = Z.of_nat code).
Proof.
  intros Ec Hs. unfold errorMessage. split.
  - intros P. apply status_prefix in P.
    + rewrite <- Ec in P. apply natText_inj in P. lia.
    + rewrite <- Ec. apply natText_digits.
    + apply natText_digits.
  - intros ->. rewrite Nat2Z.id, Ec. simpl.
    destruct (ascii_dec a a); [|congruence].
    destruct (ascii_dec b b); [|congruence].
    destruct (ascii_dec c c); [|congruence].
    destruct txt; reflexivity.
Qed.

Section RefusalFacts.
Context {rt : Runtime}.

(** X10.  The client reads an error as "not authorized" exactly for the
    statuses 401 and 403, whatever the status text: so it reads every
    refusal of [authenticateToken] (no token, a token that fails
    verification) and of [requireAdmin] that way, and no 400, 404 or
    500. *)
Theorem refusals_read_as_unauthorized (statusText : string) :
  (forall st, 0 <= st ->
     (isUnauthorizedError (errorMessage st statusText) = true
      <-> st = 401 \/ st = 403))
  /\ (forall next db w req,
        (bearerToken (headers_authorization req) = None
         \/ bearerToken (headers_authorization req) = Some ""
         \/ exists token err,
              bearerToken (headers_authorization req) = Some token
              /\ jwt_verify token JWT_SECRET (now w) = inr err) ->
        isUnauthorizedError
          (errorMessage (res_status (snd (authenticateToken next db w req))) statusText)
        = true)
  /\ (forall next user db w req,
        ru_role user <> "admin" ->
        isUnauthorizedError
          (errorMessage (res_status (snd (requireAdmin next user db w req))) statusText)
        = true).
Proof.
  assert (C : forall st, 0 <= st ->
            (isUnauthorizedError (errorMessage st statusText) = true
             <-> st = 401 \/ st = 403)).
  { intros st Hs. unfold isUnauthorizedError. rewrite orb_true_iff.
    rewrite (@errorMessage_prefix 401 "4"%char "0"%char "1"%char st statusText eq_refl Hs).
    rewrite (@errorMessage_prefix 403 "4"%char "0"%char "3"%char st statusText eq_refl Hs).
    reflexivity. }
  split; [exact C|]. split.
  - intros next db w req H. unfold authenticateToken.
    destruct H as [-> | [-> | (token & err & -> & V)]].
    + apply C; simpl; lia.
    + apply C; simpl; lia.
    + destruct (negb (truthy (JStr token))); [apply C; simpl; lia|].
      rewrite V. apply C; simpl; lia.
  - intros next user db w req R. unfold requireAdmin.
    apply String.eqb_neq in R. rewrite R. apply C; simpl; lia.
Qed.

End RefusalFacts.

(* ------------------------------------------------------------------ *)
(** ** Accounts: creation, login, the audit trail *)

Lemma filter_none_taken (A : Type) (key : A -> string) (v : string) (rows : list A) :
  taken key v rows = false -> filter (fun r => String.eqb (key r) v) rows = [].
Proof.
  unfold taken. induction rows as [|x rows IH]; simpl; [reflexivity|].
  intros H. apply orb_false_iff in H. destruct H as [H1 H2].
  rewrite H1. apply IH, H2.
Qed.

Section AccountFacts.
Context {rt : Runtime} {ext : RuntimeExt}.

(** X11.  An account that [createUser] stored can log in with the
    password it was created with, provided bcrypt accepts a password
    against its own hash: the login finds exactly the new row and answers
    200 with a token for its id, user name and role (operator unless a
    role was given).  Created with [active: false], the same login is
    answered 401. *)
Theorem created_account_logs_in
  (db db' : Db) (id : string) (t : Z) (s : string) (d : InsertUser.t) (u : User.t)
  (w : World) (req : Request) :
  createUser db id t s d = Ok (db', u) ->
  bcrypt_compare (InsertUser.password d) (bcrypt_hash (InsertUser.password d) 10 s)
  = true ->
  loginSchema_parse (req_body req) = Some (InsertUser.username d, InsertUser.password d) ->
  getUserByUsername db' (InsertUser.username d) = Some u
  /\ (InsertUser.active d <> Some false ->
      post_api_auth_login db' w req
      = (db', json 200
                (JObj [("token",
                        JStr (jwt_sign
                                {| ru_id := id;
                                   ru_username := InsertUser.username d;
                                   ru_role := default "operator" (InsertUser.role d) |}
                                JWT_SECRET 86400 (now w)));
                       ("user",
                        JObj [("id", JStr id);
                              ("username", JStr (InsertUser.username d));
                              ("email", optStr (InsertUser.email d));
                              ("firstName", optStr (InsertUser.firstName d));
                              ("lastName", optStr (InsertUser.lastName d));
                              ("role", JStr (default "operator" (InsertUser.role d)))])])))
  /\ (InsertUser.active d = Some false ->
      post_api_auth_login db' w req = (db', message 401 "Invalid credentials")).
Proof.
  intros C B P.
  unfold createUser, users_insert in C. cbn [User.id User.username User.email bind] in C.
  destruct (taken User.id id (users db)); [discriminate C|].
  destruct (taken User.username (InsertUser.username d) (users db)) eqn:Tu;
    [discriminate C|].
  destruct (takenOpt User.email (InsertUser.email d) (users db)); [discriminate C|].
  cbn [orb bind] in C. injection C as <- <-.
  assert (G : getUserByUsername
                (set_users db (users db ++
                   [{| User.id := id;
                       User.username := InsertUser.username d;
                       User.password := bcrypt_hash (InsertUser.password d) 10 s;
                       User.email := InsertUser.email d;
                       User.firstName := InsertUser.firstName d;
                       User.lastName := InsertUser.lastName d;
                       User.role := default "operator" (InsertUser.role d);
                       User.active := default true (InsertUser.active d);
                       User.createdAt := Some t;
                       User.updatedAt := Some t |}]))
                (InsertUser.username d)
              = Some {| User.id := id;
                        User.username := InsertUser.username d;
                        User.password := bcrypt_hash (InsertUser.password d) 10 s;
                        User.email := InsertUser.email d;
                        User.firstName := InsertUser.firstName d;
                        User.lastName := InsertUser.lastName d;
                        User.role := default "operator" (InsertUser.role d);
                        User.active := default true (InsertUser.active d);
                        User.createdAt := Some t;
                        User.updatedAt := Some t |}).
  { unfold getUserByUsername. cbn [users set_users].
    rewrite filter_app, (filter_none_taken User.username _ _ Tu).
    cbn [filter User.username app]. rewrite String.eqb_refl. reflexivity. }
  split; [exact G|].
  unfold post_api_auth_login. rewrite P, G. cbn [User.active User.password].
  rewrite B. split.
  - intros A. destruct (InsertUser.active d) as [[|]|]; try congruence; reflexivity.
  - intros ->. reflexivity.
Qed.

Lemma createAuditLog_blocks_delete (db db2 : Db) (i uid : string) (t : Z)
  (d : InsertAuditLog.t) (a : AuditLog.t) :
  createAuditLog db i t d = Ok (db2, a) ->
  InsertAuditLog.userId d = Some uid ->
  deleteUser db2 uid = Throw (PgError foreign_key_violation).
Proof.
  unfold createAuditLog, auditLog_insert.
  cbn [AuditLog.id AuditLog.userId bind]. intros C E. rewrite E in C.
  destruct (taken AuditLog.id i (auditLog db)); [discriminate C|].
  destruct (taken User.id uid (users db)) eqn:T; [|discriminate C].
  cbn [bind] in C. injection C as <- <-.
  unfold deleteUser, users_delete. cbn [users auditLog set_auditLog].
  replace (existsb _ (filter (fun u => String.eqb (User.id u) uid) (users db)))
    with true; [reflexivity|].
  symmetry. apply existsb_exists. unfold taken in T. apply existsb_exists in T.
  destruct T as (v & Hv & Ev). exists v. split.
  - apply filter_In. split; assumption.
  - rewrite existsb_app. apply orb_true_iff. right. cbn [existsb AuditLog.userId].
    cbn [fkEq]. apply String.eqb_eq in Ev. rewrite Ev, String.eqb_refl.
    reflexivity.
Qed.

(** X12.  Once a route has written an audit entry for a caller, that
    caller's account can no longer be deleted: after a 201 from
    [POST /api/cbo] or [POST /api/users], a 204 from
    [DELETE /api/prestador/:id] or a 200 from the export, [deleteUser] of
    the caller throws a foreign-key violation, because [audit_log.user_id]
    references [users.id]. *)
Theorem audited_caller_cannot_be_deleted
  (user : ReqUser) (db db' : Db) (w : World) (req : Request) (resp : Response) :
  (post_api_cbo_handler user db w req = (db', resp) /\ res_status resp = 201)
  \/ (post_api_users_handler user db w req = (db', resp) /\ res_status resp = 201)
  \/ (delete_api_prestador_handler user db w req = (db', resp) /\ res_status resp = 204)
  \/ (post_api_reports_export_handler user db w req = (db', resp)
      /\ res_status resp = 200) ->
  deleteUser db' (ru_id user) = Throw (PgError foreign_key_violation).
Proof.
  intros [[H S]|[[H S]|[[H S]|[H S]]]].
  - unfold post_api_cbo_handler in H.
    destruct (insertCboSchema_parse (req_body req)) as [d|];
      [|injection H as <- <-; discriminate S].
    destruct (createCBO db (uuid w) (now w) d) as [[db1 c]|e];
      [|injection H as <- <-; discriminate S].
    match type of H with context [createAuditLog ?x ?i ?n ?y] =>
      destruct (createAuditLog x i n y) as [[db2 a]|e] eqn:A end;
      [|injection H as <- <-; discriminate S].
    injection H as <- <-.
    exact (@createAuditLog_blocks_delete _ _ _ _ _ _ _ A eq_refl).
  - unfold post_api_users_handler in H.
    destruct (insertUserSchema_parse (req_body req)) as [d|];
      [|injection H as <- <-; discriminate S].
    destruct (createUser db (uuid w) (now w) (salt w) d) as [[db1 c]|e];
      [|injection H as <- <-; discriminate S].
    match type of H with context [createAuditLog ?x ?i ?n ?y] =>
      destruct (createAuditLog x i n y) as [[db2 a]|e] eqn:A end;
      [|injection H as <- <-; discriminate S].
    injection H as <- <-.
    exact (@createAuditLog_blocks_delete _ _ _ _ _ _ _ A eq_refl).
  - unfold delete_api_prestador_handler in H.
    destruct (deletePrestador db (params_id req)) as [[db1 [|]]|e];
      [| injection H as <- <-; discriminate S | injection H as <- <-; discriminate S].
    cbn [negb] in H.
    match type of H with context [createAuditLog ?x ?i ?n ?y] =>
      destruct (createAuditLog x i n y) as [[db2 a]|e] eqn:A end;
      [|injection H as <- <-; discriminate S].
    injection H as <- <-.
    exact (@createAuditLog_blocks_delete _ _ _ _ _ _ _ A eq_refl).
  - unfold post_api_reports_export_handler in H.
    destruct (req_body req);
      try (injection H as <- <-; discriminate S);
      (destruct (getConsultaProdData db _ _ (Some 1) (Some 10000)) as [res|e];
       [|injection H as <- <-; discriminate S]);
      (match type of H with context [createAuditLog ?x ?i ?n ?y] =>
         destruct (createAuditLog x i n y) as [[db2 a]|e] eqn:A end;
       [|injection H as <- <-; discriminate S]);
      injection H as <- <-;
      exact (@createAuditLog_blocks_delete _ _ _ _ _ _ _ A eq_refl).
Qed.

(** X13.  A 400 from [POST /api/cbo] does not mean that nothing was
    written: when the caller's id is not in [users] (the audit entry
    cannot reference it) a valid body with a fresh code of at most 20
    characters is answered 400 "Invalid request data" although the
    occupation has been inserted, and no audit entry records it. *)
Theorem cbo_written_although_400
  (user : ReqUser) (db : Db) (w : World) (req : Request) (d : InsertCBO.t) :
  insertCboSchema_parse (req_body req) = Some d ->
  (String.length (InsertCBO.codigo d) <= 20)%nat ->
  taken CBO.id (uuid w) (cbo db) = false ->
  taken CBO.codigo (InsertCBO.codigo d) (cbo db) = false ->
  taken User.id (ru_id user) (users db) = false ->
  exists row db1,
    post_api_cbo_handler user db w req = (db1, message 400 "Invalid request data")
    /\ cbo db1 = cbo db ++ [row]
    /\ CBO.id row = uuid w
    /\ CBO.codigo row = InsertCBO.codigo d
    /\ getCBO db1 (uuid w) = Some row
    /\ auditLog db1 = auditLog db.
Proof.
  intros P L Ti Tc Tu. unfold post_api_cbo_handler. rewrite P.
  unfold createCBO, cbo_insert. cbn [CBO.codigo].
  rewrite (@varchar_fits 20 _ L).
  cbn [bind with_codigo CBO.id CBO.codigo CBO.descricao CBO.status CBO.createdAt
       CBO.updatedAt].
  rewrite Ti, Tc. cbn [orb bind].
  unfold createAuditLog, auditLog_insert.
  cbn [AuditLog.id AuditLog.userId InsertAuditLog.userId users set_cbo bind auditLog].
  rewrite Tu.
  destruct (taken AuditLog.id (audit_uuid w) (auditLog db));
    cbn [bind]; (eexists; eexists; split; [reflexivity|]);
    cbn [cbo set_cbo auditLog CBO.id CBO.codigo];
    (repeat (split; [reflexivity|]));
    (split; [|reflexivity]);
    unfold getCBO; cbn [cbo set_cbo];
    rewrite filter_app, (filter_none_taken CBO.id _ _ Ti);
    cbn [filter CBO.id app]; rewrite String.eqb_refl; reflexivity.
Qed.

(** X14.  Neither the login response nor [GET /api/auth/me] ever carries
    a password property, at the top of the body or inside its [user]
    object, whatever the outcome. *)
Theorem login_and_me_hide_password
  (user : ReqUser) (db : Db) (w : World) (req : Request) :
  match res_body (snd (post_api_auth_login db w req)) with
  | Some b => hasProp "password" b || hasProp "password" (getProp b "user")
  | None => false
  end = false
  /\ match res_body (snd (get_api_auth_me_handler user db w req)) with
     | Some b => hasProp "password" b || hasProp "password" (getProp b "user")
     | None => false
     end = false.
Proof.
  split.
  - unfold post_api_auth_login.
    destruct (loginSchema_parse (req_body req)) as [[username password]|];
      [|reflexivity].
    destruct (getUserByUsername db username) as [u|]; [|reflexivity].
    destruct (negb (User.active u)); [reflexivity|].
    destruct (negb (bcrypt_compare password (User.password u))); [reflexivity|].
    cbn [snd json res_body].
    destruct (User.email u), (User.firstName u), (User.lastName u); reflexivity.
  - unfold get_api_auth_me_handler.
    destruct (getUser db (ru_id user)) as [u|]; [|reflexivity].
    cbn [snd json res_body].
    destruct (User.email u), (User.firstName u), (User.lastName u); reflexivity.
Qed.

End AccountFacts.

(* ------------------------------------------------------------------ *)
(** ** Occupations: create, look up, update, delete *)

Lemma filter_all_kept (A : Type) (key : A -> string) (v : string) (rows : list A) :
  taken key v rows = false ->
  filter (fun r => negb (String.eqb (key r) v)) rows = rows.
Proof.
  unfold taken. induction rows as [|x rows IH]; simpl; [reflexivity|].
  intros H. apply orb_false_iff in H. destruct H as [H1 H2].
  rewrite H1. simpl. f_equal. apply IH, H2.
Qed.

Lemma set_cbo_back (db : Db) (rows : list CBO.t) :
  set_cbo (set_cbo db rows) (cbo db) = db.
Proof. destruct db; reflexivity. Qed.

Lemma hd_error_map (A B : Type) (f : A -> B) (l : list A) :
  hd_error (map f l) = option_map f (hd_error l).
Proof. destruct l; reflexivity. Qed.

Lemma two_members (A : Type) (x y : A) (l : list A) :
  In x l -> In y l -> x <> y -> (2 <= length l)%nat.
Proof.
  destruct l as [|a [|b l]]; simpl; intros Hx Hy N.
  - destruct Hx.
  - destruct Hx as [<-|[]], Hy as [<-|[]]. congruence.
  - lia.
Qed.

Lemma createCBO_inv (db db' : Db) (id : string) (t : Z) (d : InsertCBO.t) (c : CBO.t) :
  createCBO db id t d = Ok (db', c) ->
  taken CBO.id id (cbo db) = false
  /\ taken CBO.codigo (CBO.codigo c) (cbo db) = false
  /\ CBO.id c = id
  /\ db' = set_cbo db (cbo db ++ [c]).
Proof.
  unfold createCBO, cbo_insert. cbn [CBO.codigo].
  destruct (varchar 20 (InsertCBO.codigo d)) as [s|e]; [|discriminate].
  cbn [bind with_codigo CBO.id CBO.codigo CBO.descricao CBO.status CBO.createdAt
       CBO.updatedAt].
  destruct (taken CBO.id id (cbo db)) eqn:Ti; [discriminate|].
  destruct (taken CBO.codigo s (cbo db)) eqn:Tc; [discriminate|].
  cbn [orb bind]. intros E. injection E as <- <-.
  repeat split; assumption.
Qed.

(** a code that fits is stored as supplied *)
Lemma storedCBO_fits (d : PartialCBO.t) :
  fitsOpt 20 (PartialCBO.codigo d) = true -> storedCBO d = Ok d.
Proof.
  intros Hf. unfold storedCBO, varcharOpt. destruct d as [[s|] de st]; cbn in *.
  - unfold fits in Hf. apply Nat.leb_le in Hf.
    rewrite (@varchar_fits 20 s Hf). reflexivity.
  - reflexivity.
Qed.

Lemma getCBO_after_insert (db : Db) (c : CBO.t) (id' : string) :
  taken CBO.id (CBO.id c) (cbo db) = false ->
  getCBO (set_cbo db (cbo db ++ [c])) id'
  = if String.eqb (CBO.id c) id' then Some c else getCBO db id'.
Proof.
  intros T. unfold getCBO. cbn [cbo set_cbo]. rewrite filter_app. cbn [filter].
  destruct (String.eqb (CBO.id c) id') eqn:E.
  - apply String.eqb_eq in E. subst id'.
    rewrite (filter_none_taken CBO.id _ _ T). reflexivity.
  - rewrite app_nil_r. reflexivity.
Qed.

Section CboFacts.
Context {rt : Runtime} {ext : RuntimeExt}.

(** X15.  An occupation that [createCBO] returned is found again under
    its generated id, by [getCBO] and by [GET /api/cbo/:id]; the id was
    not in use before, and the lookup of every other id is unchanged. *)
Theorem created_cbo_is_found
  (db db' : Db) (id : string) (t : Z) (d : InsertCBO.t) (c : CBO.t) :
  createCBO db id t d = Ok (db', c) ->
  getCBO db id = None
  /\ getCBO db' id = Some c
  /\ (forall id', id' <> id -> getCBO db' id' = getCBO db id')
  /\ (forall user w req, params_id req = id ->
        get_api_cbo_id_handler user db w req = (db, message 404 "CBO not found")
        /\ get_api_cbo_id_handler user db' w req = (db', json 200 (cboJs c))).
Proof.
  intros C. destruct (createCBO_inv _ _ _ _ C) as (Ti & _ & Ei & ->).
  assert (G0 : getCBO db id = None).
  { unfold getCBO. rewrite (filter_none_taken CBO.id _ _ Ti). reflexivity. }
  assert (G1 : getCBO (set_cbo db (cbo db ++ [c])) id = Some c).
  { rewrite getCBO_after_insert by (rewrite Ei; exact Ti).
    rewrite Ei, String.eqb_refl. reflexivity. }
  split; [exact G0|]. split; [exact G1|]. split.
  - intros id' N. rewrite getCBO_after_insert by (rewrite Ei; exact Ti).
    rewrite Ei. replace (String.eqb id id') with false; [reflexivity|].
    symmetry. apply String.eqb_neq. congruence.
  - intros user w req Ep. unfold get_api_cbo_id_handler.
    rewrite Ep, G0, G1. split; reflexivity.
Qed.

(** X16.  In a database that satisfies the constraints of the schema,
    creating an occupation and then deleting it by its generated id gives
    back the database as it was, and the delete reports a removed row. *)
Theorem create_then_delete_restores
  (db db1 : Db) (id : string) (t : Z) (d : InsertCBO.t) (c : CBO.t) :
  constraintsHold db = true ->
  createCBO db id t d = Ok (db1, c) ->
  deleteCBO db1 id = Ok (db, true).
Proof.
  intros K C. destruct (createCBO_inv _ _ _ _ C) as (Ti & _ & Ei & ->).
  apply constraintsHold_iff in K. destruct K as (_ & _ & _ & _ & _ & _ & _ & F & _).
  assert (R : existsb (fun r => fkEq (ConsultaProd.prdCbo r) id) (consultaProd db)
              = false).
  { apply not_true_is_false. intros E. apply existsb_exists in E.
    destruct E as (r & Hr & E).
    destruct (proj1 (Forall_forall _ _) F r Hr) as (R1 & _).
    destruct (ConsultaProd.prdCbo r) as [k|] eqn:Ek; [|discriminate E].
    simpl in E. apply String.eqb_eq in E. subst k.
    specialize (R1 id eq_refl). apply taken_In in R1. congruence. }
  unfold deleteCBO, cbo_delete. cbn [cbo set_cbo consultaProd].
  rewrite !filter_app. cbn [filter]. rewrite Ei, String.eqb_refl. cbn [negb].
  rewrite (filter_none_taken CBO.id _ _ Ti), (filter_all_kept CBO.id _ _ Ti).
  change ([] ++ [c]) with [c]. cbn [existsb length]. rewrite Ei, R.
  cbn [orb bind fst snd]. rewrite app_nil_r, set_cbo_back. reflexivity.
Qed.

Lemma getCBO_after_update (db : Db) (id id' : string) (d : PartialCBO.t) (t : Z) :
  getCBO (set_cbo db (map (fun c => if String.eqb (CBO.id c) id then setCBO d t c else c)
                        (cbo db))) id'
  = if String.eqb id' id then option_map (setCBO d t) (getCBO db id)
    else getCBO db id'.
Proof.
  unfold getCBO. cbn [cbo set_cbo]. rewrite filter_map_comm.
  rewrite (filter_ext _ (fun c => String.eqb (CBO.id c) id'))
    by (intros c; destruct (String.eqb (CBO.id c) id); reflexivity).
  rewrite hd_error_map.
  destruct (String.eqb id' id) eqn:E.
  - apply String.eqb_eq in E. subst id'.
    destruct (filter (fun c => String.eqb (CBO.id c) id) (cbo db)) as [|x l] eqn:F;
      [reflexivity|].
    assert (Hx : In x (filter (fun c => String.eqb (CBO.id c) id) (cbo db)))
      by (rewrite F; left; reflexivity).
    apply filter_In in Hx. simpl. rewrite (proj2 Hx). reflexivity.
  - destruct (filter (fun c => String.eqb (CBO.id c) id') (cbo db)) as [|x l] eqn:F;
      [reflexivity|].
    assert (Hx : In x (filter (fun c => String.eqb (CBO.id c) id') (cbo db)))
      by (rewrite F; left; reflexivity).
    apply filter_In in Hx. destruct Hx as [_ Hx]. apply String.eqb_eq in Hx.
    simpl. rewrite Hx, E. reflexivity.
Qed.

(** X17.  An update that returns a row merges the supplied fields onto
    the stored one: the returned row is the old row with the supplied
    code (as a [varchar(20)] stores it: the code itself when it fits),
    description and status and a new [updatedAt], its id and [createdAt]
    kept; a later [getCBO] of the id returns it, and the lookup of every
    other id is unchanged. *)
Theorem updated_cbo_is_merged
  (db db' : Db) (id : string) (d : PartialCBO.t) (t : Z) (c' : CBO.t) :
  updateCBO db id d t = Ok (db', Some c') ->
  exists c codigo,
    getCBO db id = Some c
    /\ CBO.id c' = id
    /\ varcharOpt 20 (PartialCBO.codigo d) = Ok codigo
    /\ (fitsOpt 20 (PartialCBO.codigo d) = true -> codigo = PartialCBO.codigo d)
    /\ CBO.codigo c' = default (CBO.codigo c) codigo
    /\ CBO.descricao c' = default (CBO.descricao c) (PartialCBO.descricao d)
    /\ CBO.status c' = default (CBO.status c) (PartialCBO.status d)
    /\ CBO.createdAt c' = CBO.createdAt c
    /\ CBO.updatedAt c' = Some t
    /\ getCBO db' id = Some c'
    /\ (forall id', id' <> id -> getCBO db' id' = getCBO db id').
Proof.
  unfold updateCBO, storedCBO.
  destruct (varcharOpt 20 (PartialCBO.codigo d)) as [codigo|e] eqn:V; [|discriminate].
  cbn [bind]. unfold cbo_update.
  match goal with |- context [if ?b then _ else _] => destruct b end;
    cbn [bind fst snd]; intros E; [discriminate E|].
  injection E as <- E. rewrite hd_error_map in E.
  fold (getCBO db id) in E.
  destruct (getCBO db id) as [c|] eqn:G; [|discriminate E].
  injection E as <-. exists c, codigo.
  assert (I : CBO.id c = id).
  { unfold getCBO in G.
    destruct (filter (fun c => String.eqb (CBO.id c) id) (cbo db)) as [|x l] eqn:F;
      [discriminate G|].
    injection G as ->.
    assert (Hx : In c (filter (fun c => String.eqb (CBO.id c) id) (cbo db)))
      by (rewrite F; left; reflexivity).
    apply filter_In in Hx. apply String.eqb_eq, Hx. }
  split; [reflexivity|]. split; [exact I|].
  split; [reflexivity|].
  split.
  { intros Hf. unfold varcharOpt in V.
    destruct (PartialCBO.codigo d) as [s|]; [|injection V as <-; reflexivity].
    cbn [fitsOpt] in Hf. unfold fits in Hf. apply Nat.leb_le in Hf.
    rewrite (@varchar_fits 20 s Hf) in V. cbn [bind] in V.
    injection V as <-. reflexivity. }
  repeat (split; [reflexivity|]).
  split.
  - rewrite getCBO_after_update, String.eqb_refl, G. reflexivity.
  - intros id' N. rewrite getCBO_after_update.
    replace (String.eqb id' id) with false; [reflexivity|].
    symmetry. apply String.eqb_neq, N.
Qed.

(** X18.  Updating an id that is not in the table, with a code that fits
    the column if one is supplied, changes nothing and returns no row;
    [PUT /api/cbo/:id] then answers 404 "CBO not found" and writes no
    audit entry, but only for a body that passes the partial schema: a
    body that does not is answered 400 first. *)
Theorem update_of_missing_cbo
  (db : Db) (id : string) :
  getCBO db id = None ->
  (forall d t, fitsOpt 20 (PartialCBO.codigo d) = true ->
     exists db1,
      updateCBO db id d t = Ok (db1, None)
      /\ cbo db1 = cbo db /\ auditLog db1 = auditLog db)
  /\ (forall user w req, params_id req = id ->
        (forall d, insertCboSchema_partial_parse (req_body req) = Some d ->
           fitsOpt 20 (PartialCBO.codigo d) = true ->
           exists db1,
             put_api_cbo_handler user db w req = (db1, message 404 "CBO not found")
             /\ cbo db1 = cbo db /\ auditLog db1 = auditLog db)
        /\ (insertCboSchema_partial_parse (req_body req) = None ->
            put_api_cbo_handler user db w req
            = (db, message 400 "Invalid request data"))).
Proof.
  intros G.
  assert (F : filter (fun c => String.eqb (CBO.id c) id) (cbo db) = []).
  { unfold getCBO in G. destruct (filter _ (cbo db)); [reflexivity | discriminate G]. }
  assert (M : forall d t,
            map (fun c => if String.eqb (CBO.id c) id then setCBO d t c else c) (cbo db)
            = cbo db).
  { intros d t. rewrite <- (map_id (cbo db)) at 2. apply map_ext_in. intros c Hc.
    destruct (String.eqb (CBO.id c) id) eqn:E; [|reflexivity]. exfalso.
    assert (Hf : In c (filter (fun c => String.eqb (CBO.id c) id) (cbo db)))
      by (apply filter_In; split; assumption).
    rewrite F in Hf. destruct Hf. }
  assert (U : forall d t, fitsOpt 20 (PartialCBO.codigo d) = true ->
            updateCBO db id d t = Ok (set_cbo db (cbo db), None)).
  { intros d t Hf. unfold updateCBO. rewrite (storedCBO_fits d Hf). cbn [bind].
    unfold cbo_update. rewrite F, M. reflexivity. }
  split.
  - intros d t Hf. eexists. split; [apply U, Hf|]. split; reflexivity.
  - intros user w req Ep. split.
    + intros d P Hf. unfold put_api_cbo_handler. rewrite P, Ep, (U _ _ Hf).
      eexists. split; [reflexivity|]. split; reflexivity.
    + intros P. unfold put_api_cbo_handler. rewrite P. reflexivity.
Qed.

(** X19.  Updating an occupation to the code of another occupation (a
    stored code, so one that fits the column) violates the unique
    constraint: [updateCBO] throws, and [PUT /api/cbo/:id] answers 400 and
    leaves the database as it was. *)
Theorem update_to_used_code_fails
  (db : Db) (id : string) (d : PartialCBO.t) (t : Z) (c other : CBO.t) :
  In c (cbo db) -> CBO.id c = id ->
  In other (cbo db) -> CBO.id other <> id ->
  fits 20 (CBO.codigo other) = true ->
  PartialCBO.codigo d = Some (CBO.codigo other) ->
  updateCBO db id d t = Throw (PgError unique_violation)
  /\ (forall user w req,
        params_id req = id ->
        insertCboSchema_partial_parse (req_body req) = Some d ->
        now w = t ->
        put_api_cbo_handler user db w req = (db, message 400 "Invalid request data")).
Proof.
  intros Hc Ic Ho Io Hf Pd.
  assert (U : updateCBO db id d t = Throw (PgError unique_violation)).
  { unfold updateCBO.
    rewrite storedCBO_fits by (rewrite Pd; exact Hf). cbn [bind].
    unfold cbo_update.
    replace (existsb _ (map (setCBO d t)
               (filter (fun c => String.eqb (CBO.id c) id) (cbo db)))) with true;
      [reflexivity|].
    symmetry. apply existsb_exists. exists (setCBO d t c). split.
    - apply in_map, filter_In. split; [exact Hc | apply String.eqb_eq, Ic].
    - apply Z.ltb_lt. unfold countBy.
      set (g := fun c => if String.eqb (CBO.id c) id then setCBO d t c else c).
      assert (E1 : CBO.codigo (setCBO d t c) = CBO.codigo other)
        by (simpl; rewrite Pd; reflexivity).
      assert (L : (2 <= length (filter
                     (fun r => String.eqb (CBO.codigo r) (CBO.codigo (setCBO d t c)))
                     (map g (cbo db))))%nat).
      { apply (@two_members _ (setCBO d t c) other).
        - apply filter_In. split; [|apply String.eqb_refl].
          apply in_map_iff. exists c. split; [|exact Hc].
          unfold g. rewrite Ic, String.eqb_refl. reflexivity.
        - apply filter_In. split; [|rewrite E1; apply String.eqb_refl].
          apply in_map_iff. exists other. split; [|exact Ho].
          unfold g. apply String.eqb_neq in Io. rewrite Io. reflexivity.
        - intros E. apply Io. rewrite <- E. simpl. exact Ic. }
      lia. }
  split; [exact U|].
  intros user w req Ep P En. unfold put_api_cbo_handler. rewrite P, Ep, En, U.
  reflexivity.
Qed.

End CboFacts.

(* ------------------------------------------------------------------ *)
(** ** The occupation list and the field selection *)

Lemma insertDesc_sortedBy (A : Type) (gtb : A -> A -> bool) (x : A) (l : list A) :
  (forall a b, gtb a b = true -> gtb b a = false) ->
  (forall a b c, gtb b a = false -> gtb c b = false -> gtb c a = false) ->
  sortedBy gtb l -> sortedBy gtb (insertDesc gtb x l).
Proof.
  intros Asym Trans. unfold sortedBy.
  induction 1 as [|y t St IH Fa]; simpl.
  - constructor; constructor.
  - destruct (gtb y x) eqn:E.
    + constructor; [exact IH|].
      eapply Permutation_Forall; [apply Permutation_sym, insertDesc_perm|].
      constructor; [apply Asym, E | exact Fa].
    + constructor.
      * constructor; assumption.
      * constructor; [exact E|].
        eapply Forall_impl; [|exact Fa]. simpl. intros z Hz.
        exact (Trans x y z E Hz).
Qed.

Lemma orderByDesc_sortedBy (A : Type) (gtb : A -> A -> bool) (tie : nat -> nat)
  (l : list A) :
  (forall a b, gtb a b = true -> gtb b a = false) ->
  (forall a b c, gtb b a = false -> gtb c b = false -> gtb c a = false) ->
  sortedBy gtb (orderByDesc gtb tie l).
Proof.
  intros Asym Trans. unfold orderByDesc.
  induction (arrange tie l) as [|x t IH]; simpl.
  - constructor.
  - apply insertDesc_sortedBy; assumption.
Qed.

Lemma tsGtb_asym (a b : option Z) : tsGtb a b = true -> tsGtb b a = false.
Proof.
  destruct a as [x|], b as [y|]; simpl; try reflexivity; try discriminate.
  intros H. apply Z.ltb_lt in H. apply Z.ltb_ge. lia.
Qed.

Lemma tsGtb_trans (a b c : option Z) :
  tsGtb b a = false -> tsGtb c b = false -> tsGtb c a = false.
Proof.
  destruct a as [x|], b as [y|], c as [z|]; simpl; try reflexivity; try discriminate.
  intros H1 H2. apply Z.ltb_ge in H1, H2. apply Z.ltb_ge. lia.
Qed.

Section ListCallFacts.
Context {rt : Runtime}.

(** X20.  For page >= 1 and limit > 0, with page * limit a safe integer,
    one execution of the occupation list returns the
    [(page-1)*limit, page*limit) slice of the selected rows in an order
    that is descending in the creation time, rows without one first, and
    total counts the selected rows.  The search text selects the rows
    whose code or description is LIKE %text%; an empty search text
    selects every row, as no search does, and a call without page and
    limit is page 1 of size 10. *)
Theorem cbo_list_is_slice_of_ordered_selection
  (db : Db) (tie : nat -> nat) (search : option string) (page limit : Z) :
  1 <= page -> 0 < limit -> page * limit <= maxSafe ->
  exists sorted,
    Permutation sorted (cboMatching db search)
    /\ sortedBy (fun a b => tsGtb (CBO.createdAt a) (CBO.createdAt b)) sorted
    /\ getCBOs db tie (Some page) (Some limit) search
       = Ok {| data := slice (Z.to_nat ((page - 1) * limit))
                         (Z.to_nat (page * limit)) sorted;
               total := Z.of_nat (length (cboMatching db search)) |}
    /\ getCBOs db tie (Some page) (Some limit) (Some "")
       = getCBOs db tie (Some page) (Some limit) None
    /\ getCBOs db tie None None search = getCBOs db tie (Some 1) (Some 10) search.
Proof.
  intros Hp Hl Hs.
  exists (orderByDesc (fun a b => tsGtb (CBO.createdAt a) (CBO.createdAt b)) tie
            (cboMatching db search)).
  split; [apply orderByDesc_perm|]. split.
  { apply orderByDesc_sortedBy.
    - intros a b. apply tsGtb_asym.
    - intros a b c. apply tsGtb_trans. }
  split; [|split; reflexivity].
  unfold getCBOs. cbn [default].
  rewrite (limitOffset_page _ Hp Hl Hs). cbn [bind].
  unfold cboMatching.
  destruct search as [s|]; [|reflexivity].
  cbn [truthy]. destruct (String.eqb s ""); reflexivity.
Qed.

End ListCallFacts.

(** X21.  Toggling a field of the export selection touches that field
    only: after unchecking it the field is not selected, after checking
    it it is, every other field is selected exactly if it was before, and
    checking then unchecking a field that was not selected gives back the
    selection. *)
Theorem field_toggle_is_local (fieldKey : string) (selectedFields : list string) :
  ~ In fieldKey (handleFieldToggle fieldKey false selectedFields)
  /\ In fieldKey (handleFieldToggle fieldKey true selectedFields)
  /\ (forall other checked, other <> fieldKey ->
        (In other (handleFieldToggle fieldKey checked selectedFields)
         <-> In other selectedFields))
  /\ (~ In fieldKey selectedFields ->
      handleFieldToggle fieldKey false (handleFieldToggle fieldKey true selectedFields)
      = selectedFields).
Proof.
  unfold handleFieldToggle. split; [|split; [|split]].
  - intros H. apply filter_In in H. destruct H as [_ H].
    rewrite String.eqb_refl in H. discriminate H.
  - apply in_or_app. right. left. reflexivity.
  - intros other checked N. destruct checked.
    + split.
      * intros H. apply in_app_or in H. destruct H as [H|[H|[]]]; [exact H|].
        congruence.
      * intros H. apply in_or_app. left. exact H.
    + rewrite filter_In. split; [tauto|].
      intros H. split; [exact H|]. apply negb_true_iff, String.eqb_neq, N.
  - intros N. rewrite filter_app. simpl. rewrite String.eqb_refl. simpl.
    rewrite app_nil_r.
    induction selectedFields as [|f l IH]; simpl; [reflexivity|].
    destruct (String.eqb f fieldKey) eqn:E.
    + apply String.eqb_eq in E. exfalso. apply N. left. exact E.
    + simpl. f_equal. apply IH. intros H. apply N. right. exact H.
Qed.

Lemma forEachFilter_app (l1 l2 : list ReportFilter.t) (i : nat)
  (obj : list (string * JsVal)) :
  forEachFilter i (l1 ++ l2) obj
  = forEachFilter (i + length l1) l2 (forEachFilter i l1 obj).
Proof.
  revert i obj. induction l1 as [|f t IH]; intros i obj; simpl.
  - rewrite Nat.add_0_r. reflexivity.
  - rewrite IH. replace (S i + length t)%nat with (i + S (length t))%nat by lia.
    reflexivity.
Qed.

(** X22.  A clause added with [addFilter] is empty and is not sent: the
    filter object of the new state is that of the old one, the earlier
    clauses keep their positions, and the new clause is last, with
    operator "equals" and the connector "AND" unless it is the first. *)
Theorem added_clause_is_not_sent (filters : list ReportFilter.t) :
  buildFilterObject (addFilter filters) = buildFilterObject filters
  /\ length (addFilter filters) = S (length filters)
  /\ (forall j, (j < length filters)%nat ->
        nth_error (addFilter filters) j = nth_error filters j)
  /\ exists f,
       nth_error (addFilter filters) (length filters) = Some f
       /\ ReportFilter.field f = ""
       /\ ReportFilter.operator f = "equals"
       /\ ReportFilter.value f = JStr ""
       /\ (ReportFilter.logicalOperator f = None <-> filters = [])
       /\ (ReportFilter.logicalOperator f = Some "AND" <-> filters <> []).
Proof.
  unfold addFilter. split; [|split; [|split]].
  - unfold buildFilterObject. rewrite forEachFilter_app. reflexivity.
  - rewrite length_app. simpl. lia.
  - intros j Hj. apply nth_error_app1. exact Hj.
  - eexists. split.
    + rewrite nth_error_app2 by lia. rewrite Nat.sub_diag. reflexivity.
    + cbn [ReportFilter.field ReportFilter.operator ReportFilter.value
           ReportFilter.logicalOperator].
      repeat (split; [reflexivity|]).
      destruct filters as [|f t]; simpl; split; split;
        try reflexivity; try discriminate; try congruence.
Qed.

Lemma set_cbo_same (db : Db) : set_cbo db (cbo db) = db.
Proof. destruct db; reflexivity. Qed.

Section DeleteCboFacts.
Context {rt : Runtime} {ext : RuntimeExt}.

(** X23.  [DELETE /api/cbo/:id] has three outcomes.  An id that is not in
    the table is answered 404 "CBO not found" and nothing changes.  An
    occupation that a production record names is not deleted: the
    statement violates the foreign key, the route answers 500 and nothing
    changes.  Otherwise the row is removed, the route answers 204 and one
    audit entry with action "delete" records the caller, the id and the
    row as it was. *)
Theorem delete_cbo_outcomes (user : ReqUser) (db : Db) (w : World) (req : Request) :
  (taken CBO.id (params_id req) (cbo db) = false ->
   delete_api_cbo_handler user db w req = (db, message 404 "CBO not found"))
  /\ (taken CBO.id (params_id req) (cbo db) = true ->
      cboReferenced db (params_id req) = true ->
      deleteCBO db (params_id req) = Throw (PgError foreign_key_violation)
      /\ delete_api_cbo_handler user db w req
         = (db, message 500 "Internal server error"))
  /\ (taken CBO.id (params_id req) (cbo db) = true ->
      cboReferenced db (params_id req) = false ->
      taken User.id (ru_id user) (users db) = true ->
      taken AuditLog.id (audit_uuid w) (auditLog db) = false ->
      exists db2 entry old,
        getCBO db (params_id req) = Some old
        /\ delete_api_cbo_handler user db w req
           = (db2, {| res_status := 204; res_body := None |})
        /\ getCBO db2 (params_id req) = None
        /\ auditLog db2 = auditLog db ++ [entry]
        /\ AuditLog.userId entry = Some (ru_id user)
        /\ AuditLog.action entry = "delete"
        /\ AuditLog.tableName entry = "cbo"
        /\ AuditLog.recordId entry = Some (params_id req)
        /\ AuditLog.oldValues entry = Some (JSON_stringify (cboJs old))).
Proof.
  set (id := params_id req).
  split; [|split].
  - intros T. unfold delete_api_cbo_handler, deleteCBO, cbo_delete. fold id.
    rewrite (filter_none_taken CBO.id _ _ T), (filter_all_kept CBO.id _ _ T).
    cbn [existsb length bind fst snd Z.of_nat]. cbn [Z.ltb Z.compare negb].
    rewrite set_cbo_same. reflexivity.
  - intros T R.
    assert (D : deleteCBO db id = Throw (PgError foreign_key_violation)).
    { unfold deleteCBO, cbo_delete.
      replace (existsb _ (filter _ (cbo db))) with true; [reflexivity|].
      symmetry. apply existsb_exists.
      apply existsb_exists in T. destruct T as (v & Hv & E).
      exists v. split; [apply filter_In; split; assumption|].
      apply String.eqb_eq in E. rewrite E. exact R. }
    split; [exact D|].
    unfold delete_api_cbo_handler. fold id. rewrite D. reflexivity.
  - intros T R U F.
    assert (V : existsb (fun v => existsb (fun r => fkEq (ConsultaProd.prdCbo r) (CBO.id v))
                                    (consultaProd db))
                  (filter (fun c => String.eqb (CBO.id c) id) (cbo db)) = false).
    { apply not_true_is_false. intros E.
      apply existsb_exists in E. destruct E as (v & Hv & Hr).
      apply filter_In in Hv. destruct Hv as [_ Hv].
      apply String.eqb_eq in Hv. rewrite Hv in Hr.
      unfold cboReferenced, names in R. unfold fkEq in Hr. congruence. }
    pose proof (existsb_filter_nonempty _ _ T) as L.
    unfold delete_api_cbo_handler, deleteCBO, cbo_delete, getCBO. fold id.
    rewrite V. cbn [bind fst snd].
    destruct (filter (fun c => String.eqb (CBO.id c) id) (cbo db)) as [|old rest] eqn:Fv;
      [simpl in L; lia|].
    replace (0 <? Z.of_nat (length (old :: rest))) with true
      by (symmetry; apply Z.ltb_lt; simpl; lia).
    cbn [negb hd_error option_map].
    unfold createAuditLog, auditLog_insert.
    cbn [AuditLog.id AuditLog.userId InsertAuditLog.userId auditLog users set_cbo bind].
    rewrite F, U. cbn [bind].
    eexists. eexists. exists old.
    split; [reflexivity|]. split; [reflexivity|].
    split.
    { cbn [cbo set_auditLog set_cbo]. rewrite filter_neg_none. reflexivity. }
    repeat split.
Qed.

End DeleteCboFacts.

(* ------------------------------------------------------------------ *)
(** ** The further properties on the sample database *)

Lemma constraints_kept_by_calls_witness :
  constraintsHold Sample2.db = true
  /\ constraintsHold
       (afterCalls Sample2.db
          [CallCreatePrestador "p-3" Sample.jan01 Sample2.hospital;
           CallCreateConsultaProd "r-4" Sample.jan01 (Sample2.visita "p-3");
           CallDeletePrestador "p-3";
           CallDeletePrestador "p-2";
           CallCreateCBO "c-2" Sample.dec31 Sample2.enfermeiro;
           CallUpdateCBO "c-2" (Sample2.recoded "225125") Sample.dec31;
           CallUpdateCBO "c-2" (Sample2.recoded Sample.longCode) Sample.dec31;
           CallDeleteCBO "c-1"]) = true.
Proof.
  split; [reflexivity|].
  apply (@constraints_kept_by_calls Sample2.db). reflexivity.
Defined.

Lemma report_null_means_null_key_witness :
  exists res,
    getConsultaProdData (rt := Sample.runtime) Sample2.db Sample.reversed (JObj [])
      (Some 1) (Some (-5)) = Ok res
    /\ forall j, In j (data res) ->
         exists r, In r (consultaProd Sample2.db)
                   /\ j = reportOf Sample2.db r
                   /\ (ReportRow.sRub j = None <-> ConsultaProd.prdRub r = None).
Proof.
  eexists. split; [reflexivity|].
  intros j Hj.
  destruct (@report_null_means_null_key Sample.runtime Sample2.db Sample.reversed
              (JObj []) (Some 1) (Some (-5)) _ eq_refl eq_refl j Hj)
    as (r & Hr & _ & Ej & _ & _ & _ & Hs).
  exists r. split; [exact Hr|]. split; [exact Ej | exact Hs].
Defined.

Lemma page_row_count_matches_range_witness :
  exists res,
    getConsultaProdData (rt := Sample.runtime) Sample.db Sample.tableOrder (JObj [])
      (Some 2) (Some 2) = Ok res
    /\ showingFrom 2 2 = 3
    /\ showingTo 2 2 (total res) = 3
    /\ Z.of_nat (length (data res)) = 1.
Proof.
  eexists. split; [reflexivity|]. split; [reflexivity|]. split; [reflexivity|].
  rewrite (proj1 (@page_row_count_matches_range Sample.runtime Sample.db
                    Sample.tableOrder (JObj []) 2 2 _ eq_refl
                    ltac:(lia) ltac:(lia) ltac:(rewrite maxSafe_value; lia) eq_refl)).
  reflexivity.
Defined.

Lemma negative_paging_numbers_witness :
  get_api_reports_data_handler (rt := Sample.runtime) Sample.admin Sample.db Sample.world
    {| headers_authorization := Sample.asAdmin; params_id := "";
       query_page := Some "-1"; query_limit := Some "10";
       query_filters := None; req_body := JNull |}
  = (Sample.db, message 500 "Internal server error")
  /\ exists sorted,
       Permutation sorted (consultaProd Sample.db)
       /\ getConsultaProdData (rt := Sample.runtime) Sample.db Sample.tableOrder (JObj [])
            (Some 1) (Some (-5))
          = Ok {| data := map (reportOf Sample.db) sorted; total := 3 |}.
Proof.
  split.
  - apply (proj2 (proj1 (@negative_paging_numbers Sample.runtime Sample.db (-1) 10
                           ltac:(rewrite maxSafe_value; simpl; lia)
                           ltac:(rewrite maxSafe_value; simpl; lia)
                           ltac:(rewrite maxSafe_value; simpl; lia))
                    ltac:(lia)));
      reflexivity.
  - destruct (proj2 (@negative_paging_numbers Sample.runtime Sample.db 1 (-5)
                       ltac:(rewrite maxSafe_value; simpl; lia)
                       ltac:(rewrite maxSafe_value; simpl; lia)
                       ltac:(rewrite maxSafe_value; simpl; lia))
                ltac:(lia) ltac:(lia) Sample.tableOrder (JObj []) eq_refl eq_refl)
      as (sorted & Hp & _ & Hg).
    exists sorted. split; [exact Hp | exact Hg].
Defined.

Lemma export_sends_first_hundred_witness :
  (exists entry,
     fst (post_api_reports_export_handler (rt := Sample.runtime) (ext := Sample2.ext)
            Sample.admin Sample.db Sample.worldReversed
            (Sample.request Sample.asAdmin "" None (Sample2.exportBody (JObj []))))
     = set_auditLog Sample.db [entry]
     /\ AuditLog.action entry = "export"
     /\ AuditLog.userId entry = Some "u-1")
  /\ res_status
       (snd (post_api_reports_export_handler (rt := Sample.runtime) (ext := Sample2.ext)
               Sample.admin Sample.db Sample.worldReversed
               (Sample.request Sample.asAdmin "" None (Sample2.exportBody (JObj [])))))
     = 200
  /\ post_api_reports_export_handler (rt := Sample.runtime) (ext := Sample2.ext)
       Sample.admin Sample.db Sample.worldReversed
       (Sample.request Sample.asAdmin "" None (Sample2.exportBody Sample.badDateFilters))
     = (Sample.db, message 500 "Internal server error").
Proof.
  destruct (proj1 (@export_sends_first_hundred Sample.runtime Sample2.ext Sample.admin
                     Sample.db Sample.worldReversed
                     (Sample.request Sample.asAdmin "" None (Sample2.exportBody (JObj [])))
                     ltac:(discriminate) ltac:(discriminate))
              eq_refl eq_refl eq_refl eq_refl)
    as (entry & sorted & _ & _ & H & _ & Hu & Ha & _).
  split; [|split].
  - exists entry. rewrite H. split; [reflexivity|]. split; [exact Ha | exact Hu].
  - rewrite H. reflexivity.
  - apply (proj2 (@export_sends_first_hundred Sample.runtime Sample2.ext Sample.admin
                    Sample.db Sample.worldReversed
                    (Sample.request Sample.asAdmin "" None
                       (Sample2.exportBody Sample.badDateFilters))
                    ltac:(discriminate) ltac:(discriminate))).
    reflexivity.
Defined.

Lemma stored_token_reaches_verify_witness :
  authenticateToken (rt := Sample.runtime) Sample2.echo Sample.db Sample.world
    (Sample.request (sentAuthorization (getAuthHeaders (Some "token-of-admin"))) ""
       None JNull)
  = (Sample.db, message 200 "admin")
  /\ authenticateToken (rt := Sample.runtime) Sample2.echo Sample.db Sample.world
       (Sample.request (sentAuthorization (getAuthHeaders None)) "" None JNull)
     = (Sample.db, message 401 "Access token required").
Proof.
  split.
  - rewrite (proj1 (@stored_token_reaches_verify Sample.runtime Sample2.echo Sample.db
                      Sample.world
                      (Sample.request
                         (sentAuthorization (getAuthHeaders (Some "token-of-admin"))) ""
                         None JNull)
                      (Some "token-of-admin") eq_refl)
               "token-of-admin" eq_refl ltac:(discriminate) eq_refl).
    reflexivity.
  - apply (proj2 (@stored_token_reaches_verify Sample.runtime Sample2.echo Sample.db
                    Sample.world
                    (Sample.request (sentAuthorization (getAuthHeaders None)) "" None JNull)
                    None eq_refl)
             (or_introl eq_refl)).
Defined.

Lemma refusals_read_as_unauthorized_witness :
  isUnauthorizedError (errorMessage 403 "Forbidden") = true
  /\ isUnauthorizedError
       (errorMessage
          (res_status
             (snd (authenticateToken (rt := Sample.runtime) Sample2.echo Sample.db
                     Sample.world
                     (Sample.request (Some "Bearer expired-token") "" None JNull))))
          "Forbidden") = true
  /\ isUnauthorizedError
       (errorMessage
          (res_status
             (snd (requireAdmin Sample2.echo Sample.operator Sample.db Sample.world
                     (Sample.request Sample.asMaria "" None JNull))))
          "Forbidden") = true.
Proof.
  destruct (@refusals_read_as_unauthorized Sample.runtime "Forbidden") as (H1 & H2 & H3).
  split; [|split].
  - apply (proj2 (H1 403 ltac:(lia))). right. reflexivity.
  - apply H2. right. right. exists "expired-token", TokenExpiredError.
    split; reflexivity.
  - apply H3. discriminate.
Defined.

Lemma created_account_logs_in_witness :
  exists db' u,
    createUser (rt := Sample.runtime) Sample.db "n-1" Sample.dec31 "salt" Sample2.ana
    = Ok (db', u)
    /\ getUserByUsername db' "ana" = Some u
    /\ res_status
         (snd (post_api_auth_login (rt := Sample.runtime) db' Sample.world
                 (Sample.request None "" None Sample.newUser))) = 200.
Proof.
  eexists. eexists. split; [reflexivity|].
  destruct (@created_account_logs_in Sample.runtime Sample.db _ "n-1" Sample.dec31 "salt"
              Sample2.ana _ Sample.world (Sample.request None "" None Sample.newUser)
              eq_refl eq_refl eq_refl) as (H1 & H2 & _).
  split; [exact H1|].
  rewrite H2 by discriminate. reflexivity.
Defined.

Lemma audited_caller_cannot_be_deleted_witness :
  deleteUser
    (fst (post_api_cbo_handler (rt := Sample.runtime) Sample.admin Sample.db Sample.world
            (Sample.request Sample.asAdmin "" None (Sample.newCbo "223505"))))
    "u-1"
  = Throw (PgError foreign_key_violation).
Proof.
  apply (@audited_caller_cannot_be_deleted Sample.runtime Sample2.ext Sample.admin
           Sample.db _ Sample.world
           (Sample.request Sample.asAdmin "" None (Sample.newCbo "223505"))
           (snd (post_api_cbo_handler (rt := Sample.runtime) Sample.admin Sample.db
                   Sample.world
                   (Sample.request Sample.asAdmin "" None (Sample.newCbo "223505"))))).
  left. split; [apply surjective_pairing | reflexivity].
Defined.

Lemma cbo_written_although_400_witness :
  exists row db1,
    post_api_cbo_handler (rt := Sample.runtime) Sample2.removed Sample.db Sample.world
      (Sample.request Sample.asAdmin "" None (Sample.newCbo "223505"))
    = (db1, message 400 "Invalid request data")
    /\ cbo db1 = cbo Sample.db ++ [row]
    /\ CBO.codigo row = "223505"
    /\ auditLog db1 = [].
Proof.
  destruct (@cbo_written_although_400 Sample.runtime Sample2.removed Sample.db
              Sample.world
              (Sample.request Sample.asAdmin "" None (Sample.newCbo "223505"))
              Sample2.enfermeiro eq_refl ltac:(simpl; lia) eq_refl eq_refl eq_refl)
    as (row & db1 & H & Hc & _ & Hk & _ & Ha).
  exists row, db1. repeat split; assumption.
Defined.

Lemma created_cbo_is_found_witness :
  exists db' c,
    createCBO Sample.db "n-1" Sample.dec31 Sample2.enfermeiro = Ok (db', c)
    /\ getCBO Sample.db "n-1" = None
    /\ getCBO db' "n-1" = Some c
    /\ getCBO db' "c-1" = Some Sample.medico
    /\ get_api_cbo_id_handler Sample.admin db' Sample.world
         (Sample.request Sample.asAdmin "n-1" None JNull)
       = (db', json 200 (cboJs c)).
Proof.
  eexists. eexists. split; [reflexivity|].
  destruct (@created_cbo_is_found Sample.db _ "n-1" Sample.dec31 Sample2.enfermeiro _
              eq_refl) as (H0 & H1 & H2 & H3).
  split; [exact H0|]. split; [exact H1|].
  split; [rewrite H2 by discriminate; reflexivity|].
  apply (H3 Sample.admin Sample.world (Sample.request Sample.asAdmin "n-1" None JNull)
           eq_refl).
Defined.

Lemma create_then_delete_restores_witness :
  exists db1 c,
    createCBO Sample2.db "n-1" Sample.dec31 Sample2.enfermeiro = Ok (db1, c)
    /\ deleteCBO db1 "n-1" = Ok (Sample2.db, true).
Proof.
  eexists. eexists. split; [reflexivity|].
  apply (@create_then_delete_restores Sample2.db _ "n-1" Sample.dec31
           Sample2.enfermeiro _ eq_refl eq_refl).
Defined.

Lemma updated_cbo_is_merged_witness :
  exists db' c',
    updateCBO Sample.db "c-1" Sample2.renamed Sample.dec31 = Ok (db', Some c')
    /\ CBO.descricao c' = "Medico"
    /\ CBO.updatedAt c' = Some Sample.dec31
    /\ getCBO db' "c-1" = Some c'.
Proof.
  eexists. eexists. split; [reflexivity|].
  destruct (@updated_cbo_is_merged Sample.db _ "c-1" Sample2.renamed Sample.dec31 _
              eq_refl)
    as (c & codigo & _ & _ & _ & _ & _ & Hd & _ & _ & Hu & Hg & _).
  split; [rewrite Hd; reflexivity|]. split; [exact Hu | exact Hg].
Defined.

Lemma update_of_missing_cbo_witness :
  (exists db1,
     updateCBO Sample.db "c-9" Sample2.renamed Sample.dec31 = Ok (db1, None)
     /\ cbo db1 = cbo Sample.db)
  /\ (exists db1,
        put_api_cbo_handler (rt := Sample.runtime) (ext := Sample2.ext) Sample.admin
          Sample.db Sample.world
          (Sample.request Sample.asAdmin "c-9" None (JObj [("descricao", JStr "Medico")]))
        = (db1, message 404 "CBO not found"))
  /\ put_api_cbo_handler (rt := Sample.runtime) (ext := Sample2.ext) Sample.admin
       Sample.db Sample.world (Sample.request Sample.asAdmin "c-9" None JNull)
     = (Sample.db, message 400 "Invalid request data").
Proof.
  destruct (@update_of_missing_cbo Sample.runtime Sample2.ext Sample.db "c-9" eq_refl)
    as (H1 & H2).
  split; [|split].
  - destruct (H1 Sample2.renamed Sample.dec31 eq_refl) as (db1 & Hu & Hc & _).
    exists db1. split; assumption.
  - destruct (proj1 (H2 Sample.admin Sample.world
                       (Sample.request Sample.asAdmin "c-9" None
                          (JObj [("descricao", JStr "Medico")])) eq_refl)
                {| PartialCBO.codigo := None; PartialCBO.descricao := Some "Medico";
                   PartialCBO.status := None |} eq_refl eq_refl)
      as (db1 & Hp & _).
    exists db1. exact Hp.
  - apply (proj2 (H2 Sample.admin Sample.world
                    (Sample.request Sample.asAdmin "c-9" None JNull) eq_refl)).
    reflexivity.
Defined.

Lemma update_to_used_code_fails_witness :
  updateCBO Sample2.db2 "c-1" (Sample2.recoded "223505") Sample.dec31
  = Throw (PgError unique_violation)
  /\ put_api_cbo_handler (rt := Sample.runtime) (ext := Sample2.ext) Sample.admin
       Sample2.db2 Sample.world
       (Sample.request Sample.asAdmin "c-1" None (JObj [("codigo", JStr "223505")]))
     = (Sample2.db2, message 400 "Invalid request data").
Proof.
  destruct (@update_to_used_code_fails Sample.runtime Sample2.ext Sample2.db2 "c-1"
              (Sample2.recoded "223505") Sample.dec31 Sample.medico Sample2.enfermeiroRow
              (or_introl eq_refl) eq_refl (or_intror (or_introl eq_refl))
              ltac:(discriminate) eq_refl eq_refl) as (H1 & H2).
  split; [exact H1|].
  apply H2; reflexivity.
Defined.

Lemma cbo_list_is_slice_of_ordered_selection_witness :
  exists sorted,
    Permutation sorted (cboMatching (rt := Sample.runtime) Sample2.db2 (Some "Enf"))
    /\ getCBOs (rt := Sample.runtime) Sample2.db2 Sample.reversed (Some 1) (Some 1)
         (Some "Enf")
       = Ok {| data := slice 0 1 sorted; total := 1 |}.
Proof.
  destruct (@cbo_list_is_slice_of_ordered_selection Sample.runtime Sample2.db2
              Sample.reversed (Some "Enf") 1 1
              ltac:(lia) ltac:(lia) ltac:(rewrite maxSafe_value; lia))
    as (sorted & Hp & _ & Hg & _).
  exists sorted. split; [exact Hp | exact Hg].
Defined.

Lemma field_toggle_is_local_witness :
  handleFieldToggle "prdQtd" false (handleFieldToggle "prdQtd" true Sample2.initialFields)
  = Sample2.initialFields
  /\ (In "prdVlP" (handleFieldToggle "prdQtd" true Sample2.initialFields)
      <-> In "prdVlP" Sample2.initialFields).
Proof.
  destruct (@field_toggle_is_local "prdQtd" Sample2.initialFields) as (_ & _ & H3 & H4).
  split.
  - apply H4. simpl. intros [H|[H|[H|[H|[]]]]]; discriminate H.
  - apply H3. discriminate.
Defined.

Lemma added_clause_is_not_sent_witness :
  nth_error (addFilter Sample2.clauses) 1 = nth_error Sample2.clauses 1
  /\ buildFilterObject (addFilter Sample2.clauses) = buildFilterObject Sample2.clauses.
Proof.
  destruct (@added_clause_is_not_sent Sample2.clauses) as (H1 & _ & H3 & _).
  split; [apply H3; simpl; lia | exact H1].
Defined.

Lemma delete_cbo_outcomes_witness :
  delete_api_cbo_handler (rt := Sample.runtime) Sample.admin Sample.db Sample.world
    (Sample.request Sample.asAdmin "c-9" None JNull)
  = (Sample.db, message 404 "CBO not found")
  /\ delete_api_cbo_handler (rt := Sample.runtime) Sample.admin Sample.db Sample.world
       (Sample.request Sample.asAdmin "c-1" None JNull)
     = (Sample.db, message 500 "Internal server error")
  /\ exists db2,
       delete_api_cbo_handler (rt := Sample.runtime) Sample.admin Sample2.db2 Sample.world
         (Sample.request Sample.asAdmin "c-2" None JNull)
       = (db2, {| res_status := 204; res_body := None |})
       /\ getCBO db2 "c-2" = None.
Proof.
  split; [|split].
  - apply (proj1 (@delete_cbo_outcomes Sample.runtime Sample.admin Sample.db Sample.world
                    (Sample.request Sample.asAdmin "c-9" None JNull))).
    reflexivity.
  - apply (proj1 (proj2 (@delete_cbo_outcomes Sample.runtime Sample.admin Sample.db
                           Sample.world
                           (Sample.request Sample.asAdmin "c-1" None JNull)))
             eq_refl eq_refl).
  - destruct (proj2 (proj2 (@delete_cbo_outcomes Sample.runtime Sample.admin Sample2.db2
                              Sample.world
                              (Sample.request Sample.asAdmin "c-2" None JNull)))
                eq_refl eq_refl eq_refl eq_refl)
      as (db2 & entry & old & _ & H & G & _).
    exists db2. split; [exact H | exact G].
Defined.
